(** * Incremental enrichment and merge engine of the feedback pipeline

    A shallow embedding of [feedback_analyze_pipeline.py] (class
    [FeedbackAnalyzer]): record identity, the unprocessed-record filter,
    the merge engine, the three enrichment dispatchers, the scenario
    tagger, the cross-file consolidator and the admission gate, followed by
    the properties of the specification that concern them.

    Modelling conventions.
    - A pandas cell of a text column is [NaN] or a string ([Cell]).  The
      three identity columns and [feedback_rating] are kept as the text
      Python renders them with ([str(x)], f-strings), which is the only
      way the pipeline reads them.
    - A [DataFrame] is its list of optional column names, its rows, each
      row carrying its index label, and the dtype of its comment column:
      [object] when pandas holds it as text, [float64] when it holds no
      text, which is what a read gives a column whose cells are all
      empty.  The [.str] accessor of lines 117, 906 and 912 raises on a
      column that is not [object].  Frames read from a CSV file have the
      labels 0, 1, 2, ... ([RangeIndex]).
    - A file is absent, present with a table, or present but failing to
      read.  A table is the file as pandas reads it: its header, its
      records and the dtype it gives the comment column.  Writing a file
      succeeds, and the file written has the frame's columns and rows;
      the dtype a later read gives its comment column is [object] when
      some comment is a non-empty text, [float64] otherwise.  Text that
      pandas would read back as a number, a boolean or a missing-value
      marker is outside the model, and an empty text is kept apart from
      NaN although a file does not tell them apart: the pipeline treats
      both as blank.
    - The external capability is an oracle: the outcome of the call issued
      by the task of row [idx] for a given request; an answer is a failure
      or a JSON object with text fields.
    - A task is a coroutine whose suspension points are the semaphore and
      the call.  [gather] gives what a batch returns; the step relation of
      the event loop gives its interleavings, and the two are related in
      the section on the event loop.  Text is ASCII. *)

From Stdlib Require Import Ascii String.
From stdpp Require Import base option list strings gmap sets.

Open Scope string_scope.
Open Scope list_scope.
Open Scope nat_scope.

(** ** Python string methods used by the pipeline *)

Module PyStr.

(** [str.isspace] on ASCII: TAB..CR, FS..US and the blank. *)
Definition is_space (c : ascii) : bool :=
  let n := nat_of_ascii c in
  (((9 <=? n) && (n <=? 13)) || ((28 <=? n) && (n <=? 32)))%nat.

Definition lower_char (c : ascii) : ascii :=
  let n := nat_of_ascii c in
  if ((65 <=? n) && (n <=? 90))%nat then ascii_of_nat (n + 32) else c.

(** [s.lower()] *)
Fixpoint lower (s : string) : string :=
  match s with
  | EmptyString => EmptyString
  | String c t => String (lower_char c) (lower t)
  end.

Fixpoint lstrip (s : string) : string :=
  match s with
  | EmptyString => EmptyString
  | String c t => if is_space c then lstrip t else s
  end.

Fixpoint rstrip (s : string) : string :=
  match s with
  | EmptyString => EmptyString
  | String c t =>
      match rstrip t with
      | EmptyString => if is_space c then EmptyString else String c EmptyString
      | t' => String c t'
      end
  end.

(** [s.strip()] *)
Definition strip (s : string) : string := rstrip (lstrip s).

(** [c in s] for a one-character [c]. *)
Fixpoint contains (c : ascii) (s : string) : bool :=
  match s with
  | EmptyString => false
  | String d t => if Ascii.eqb c d then true else contains c t
  end.

End PyStr.

(** ** Records and frames *)

(** A cell of a text column: [None] is pandas' NaN. *)
Abbreviation Cell := (option string).
Abbreviation NaN := (@None string).
Abbreviation Str := (@Some string).

Record Row := mkRow {
  request_time : string;
  user_question : string;
  bot_answer : string;
  feedback_rating : string;
  feedback_comment : Cell;
  category : Cell;
  sub_category : Cell;
  feedback_comment_category : Cell;
  scenario : Cell
}.

#[global] Instance Row_eq_dec : EqDecision Row.
Proof. solve_decision. Defined.

(** [row[c]] for an optional column [c]. *)
Definition cell (c : string) (r : Row) : Cell :=
  if String.eqb c "feedback_comment" then feedback_comment r
  else if String.eqb c "category" then category r
  else if String.eqb c "sub_category" then sub_category r
  else if String.eqb c "feedback_comment_category" then feedback_comment_category r
  else if String.eqb c "scenario" then scenario r
  else None.

(** [row[c] = v] for an optional column [c]. *)
Definition set_cell (c : string) (v : Cell) (r : Row) : Row :=
  mkRow (request_time r) (user_question r) (bot_answer r) (feedback_rating r)
    (if String.eqb c "feedback_comment" then v else feedback_comment r)
    (if String.eqb c "category" then v else category r)
    (if String.eqb c "sub_category" then v else sub_category r)
    (if String.eqb c "feedback_comment_category" then v else feedback_comment_category r)
    (if String.eqb c "scenario" then v else scenario r).

(** A row seen through a set of columns: a column the frame lacks reads
    as NaN (what [pd.concat] fills in, and all a CSV file keeps). *)
Definition reindex (cols : list string) (r : Row) : Row :=
  let keep c v := if bool_decide (c ∈ cols) then v else None in
  mkRow (request_time r) (user_question r) (bot_answer r) (feedback_rating r)
    (keep "feedback_comment" (feedback_comment r))
    (keep "category" (category r))
    (keep "sub_category" (sub_category r))
    (keep "feedback_comment_category" (feedback_comment_category r))
    (keep "scenario" (scenario r)).

(** The dtype of the comment column: [object] for a column pandas holds
    as text (strings and NaN), [float64] for a column without text.
    [Series.str] exists for [object] only. *)
Inductive dtype := float64 | object.

#[global] Instance dtype_eq_dec : EqDecision dtype.
Proof. solve_decision. Defined.

Record DataFrame := mkFrame {
  columns : list string;          (* optional columns the frame has *)
  data : list (nat * Row);        (* (index label, row), in row order *)
  comment_dtype : dtype           (* dtype of [feedback_comment], if it is there *)
}.

(** [pd.DataFrame()] *)
Definition empty_frame : DataFrame := mkFrame [] [] object.

(** Whether a value in memory is a string. *)
Definition is_str (c : Cell) : bool :=
  match c with Some _ => true | None => false end.

(** Whether a field of a file is read as text: NaN and the empty text are
    both written as an empty field, which reads as NaN. *)
Definition reads_as_text (c : Cell) : bool :=
  match c with Some s => negb (String.eqb s "") | None => false end.

(** The dtype of column [c] once a value has been written to it: a string
    turns the comment column into [object]. *)
Definition written (c : string) (v : Cell) (old : dtype) : dtype :=
  if String.eqb c "feedback_comment" && is_str v then object else old.

(** [df.empty] *)
Definition empty (df : DataFrame) : bool :=
  match data df with [] => true | _ => false end.

(** [df.iterrows()] *)
Definition iterrows (df : DataFrame) : list (nat * Row) := data df.

(** [c in df.columns] *)
Definition has_column (c : string) (df : DataFrame) : bool :=
  bool_decide (c ∈ columns df).

(** [df[c] = v] with a scalar [v]: every row gets [v]; the column is
    appended when new. *)
Definition assign_scalar (c : string) (v : Cell) (df : DataFrame) : DataFrame :=
  mkFrame (if has_column c df then columns df else columns df ++ [c])
          (prod_map id (set_cell c v) <$> data df)
          (if String.eqb c "feedback_comment"
           then (if is_str v then object else float64)
           else comment_dtype df).

(** [df.at[idx, c] = v] *)
Definition at_set (idx : nat) (c : string) (v : Cell) (df : DataFrame) : DataFrame :=
  mkFrame (columns df)
          ((λ p : nat * Row, if decide (p.1 = idx) then (p.1, set_cell c v p.2) else p)
             <$> data df)
          (written c v (comment_dtype df)).

(** [df.loc[labels]]: for each label in turn, the rows carrying it. *)
Definition loc (df : DataFrame) (labels : list nat) : DataFrame :=
  mkFrame (columns df)
          (labels ≫= λ l, filter (λ p : nat * Row, p.1 = l) (data df))
          (comment_dtype df).

(** Rows labelled 0, 1, 2, ... *)
Definition range_index (rows : list Row) : list (nat * Row) :=
  zip (seq 0 (length rows)) rows.

(** The dtype of the comment column of [pd.concat([a, b])]: the common
    dtype when both frames have the column, else the dtype of the frame
    that has it (the other frame's rows are filled with NaN). *)
Definition concat_dtype (a b : DataFrame) : dtype :=
  if has_column "feedback_comment" a then
    if has_column "feedback_comment" b then
      match comment_dtype a, comment_dtype b with
      | float64, float64 => float64
      | _, _ => object
      end
    else comment_dtype a
  else comment_dtype b.

(** [pd.concat([a, b], ignore_index=True)] *)
Definition concat (a b : DataFrame) : DataFrame :=
  mkFrame (columns a ++ filter (λ c, c ∉ columns a) (columns b))
          (range_index ((reindex (columns a) <$> (data a).*2)
                        ++ (reindex (columns b) <$> (data b).*2)))
          (concat_dtype a b).

(** [df.drop_duplicates(subset=[key], keep='last')] with the key column
    computed by [key]: a row stays when no later row has its key. *)
Fixpoint drop_duplicates_last (key : Row → string) (l : list (nat * Row))
  : list (nat * Row) :=
  match l with
  | [] => []
  | p :: t =>
      if decide (key p.2 ∈ (key ∘ snd) <$> t)
      then drop_duplicates_last key t
      else p :: drop_duplicates_last key t
  end.

(** ** Files *)

Record Table := mkTable {
  header : list string;
  records : list Row;
  read_dtype : dtype              (* dtype a read gives [feedback_comment] *)
}.

Inductive FileState (T : Type) :=
| Absent
| Unreadable (persisted : T)   (* exists, reading raises *)
| Present (content : T).
Arguments Absent {T}.
Arguments Unreadable {T} persisted.
Arguments Present {T} content.

Inductive exn := FileNotFoundError | OtherException.

(** What a call does: return, raise, or never return. *)
Inductive Outcome (A : Type) :=
| Ok (a : A)
| Raise (e : exn)
| Hang.
Arguments Ok {A} a.
Arguments Raise {A} e.
Arguments Hang {A}.

#[global] Instance Outcome_bind : MBind Outcome := λ A B k m,
  match m with Ok a => k a | Raise e => Raise e | Hang => Hang end.

(** [os.path.exists(f)] *)
Definition path_exists {T} (f : FileState T) : bool :=
  match f with Absent => false | _ => true end.

(** [pd.read_csv(f)] *)
Definition read_csv (f : FileState Table) : Outcome DataFrame :=
  match f with
  | Absent => Raise FileNotFoundError
  | Unreadable _ => Raise OtherException
  | Present t =>
      Ok (mkFrame (header t) (range_index (reindex (header t) <$> records t))
            (read_dtype t))
  end.

(** The dtype a read infers for a column written with these cells: NaN
    and the empty text are both written as an empty field. *)
Definition infer_dtype (cells : list Cell) : dtype :=
  match cells with
  | [] => object
  | _ =>
      if existsb reads_as_text cells then object else float64
  end.

(** [df.to_csv(f, index=False)] *)
Definition to_csv (df : DataFrame) : FileState Table :=
  Present (mkTable (columns df) ((data df).*2)
             (infer_dtype (feedback_comment <$> (data df).*2))).

(** ** Record identity, filter and merge *)

Definition create_record_key (row : Row) : string :=
  request_time row +:+ "|" +:+ user_question row +:+ "|" +:+ bot_answer row.

Definition get_processed_records (output_file : FileState Table) : gset string :=
  if negb (path_exists output_file) then ∅
  else
    match read_csv output_file with
    | Ok processed_df =>
        foldl (λ (processed_keys : gset string) (p : nat * Row),
                 processed_keys ∪ {[ create_record_key p.2 ]})
              ∅ (iterrows processed_df)
    | _ => ∅
    end.

Definition filter_unprocessed_records (df : DataFrame) (output_file : FileState Table)
  : DataFrame :=
  let processed_keys := get_processed_records output_file in
  if decide (processed_keys = ∅) then df
  else
    let unprocessed_indices :=
      foldl (λ (acc : list nat) (p : nat * Row),
               if decide (create_record_key p.2 ∉ processed_keys)
               then acc ++ [p.1] else acc)
            [] (iterrows df) in
    loc df unprocessed_indices.

Definition merge_with_existing_results (new_df : DataFrame) (output_file : FileState Table)
  : DataFrame :=
  if negb (path_exists output_file) then new_df
  else
    match read_csv output_file with
    | Ok existing_df =>
        let combined_df := concat existing_df new_df in
        mkFrame (columns combined_df)
                (drop_duplicates_last create_record_key (data combined_df))
                (comment_dtype combined_df)
    | _ => new_df
    end.

(** ** The external capability and coroutines *)

Inductive Request :=
| GenerateComment (user_question bot_answer : string)
| CategorizeQuestion (user_question bot_answer : string)
| CategorizeComment (feedback_comment : string).

(** What one [chat.completions.create] call followed by [json.loads]
    yields: an exception, or the JSON object with its text fields. *)
Inductive Response :=
| Failure
| Object (fields : gmap string string).

(** The client as one task sees it, and the capability: a client per row
    label. *)
Definition Client : Type := Request → Response.
Definition Capability : Type := nat → Client.

(** [result.get(k, d)] *)
Definition get (result : gmap string string) (k d : string) : string :=
  default d (result !! k).

(** A coroutine: its suspension points are the semaphore and the call. *)
Inductive Coro (A : Type) : Type :=
| Ret (a : A)
| Acquire (k : Coro A)
| Release (k : Coro A)
| Await (req : Request) (k : Response → Coro A).
Arguments Ret {A} a.
Arguments Acquire {A} k.
Arguments Release {A} k.
Arguments Await {A} req k.

Fixpoint coro_bind {A B} (f : A → Coro B) (c : Coro A) : Coro B :=
  match c with
  | Ret a => f a
  | Acquire k => Acquire (coro_bind f k)
  | Release k => Release (coro_bind f k)
  | Await req k => Await req (λ r, coro_bind f (k r))
  end.

#[global] Instance Coro_bind : MBind Coro := @coro_bind.

(** [async with semaphore: body] *)
Definition with_semaphore {A} (body : Coro A) : Coro A :=
  Acquire (v ← body; Release (Ret v)).

(** Running a coroutine to its end against a client: its value and the
    requests it sent. *)
Fixpoint run {A} (client : Client) (c : Coro A) : A * list Request :=
  match c with
  | Ret a => (a, [])
  | Acquire k => run client k
  | Release k => run client k
  | Await req k =>
      let '(a, log) := run client (k (client req)) in (a, req :: log)
  end.

(** Whether the coroutine comes to wait for the semaphore. *)
Fixpoint acquires {A} (client : Client) (c : Coro A) : bool :=
  match c with
  | Ret _ => false
  | Acquire _ => true
  | Release k => acquires client k
  | Await req k => acquires client (k (client req))
  end.

(** [await asyncio.gather] of the tasks ([return_exceptions=True]) under a
    semaphore of [permits]: the results in task order and the calls made,
    each with the label of its task.  With no permit a task that reaches
    the semaphore waits forever. *)
Definition gather {A} (permits : nat) (llm : Capability)
    (tasks : list (nat * Coro A)) : Outcome (list A * list (nat * Request)) :=
  if bool_decide (permits = 0)
     && existsb (λ t : nat * Coro A, acquires (llm t.1) t.2) tasks
  then Hang
  else Ok ((λ t : nat * Coro A, (run (llm t.1) t.2).1) <$> tasks,
           tasks ≫= λ t, pair t.1 <$> (run (llm t.1) t.2).2).

(** A Python value a task hands back for a comment. *)
Inductive PyVal :=
| PyNone
| PyCell (c : Cell).

(** [bool(v)]: NaN is a non-zero float. *)
Definition truthy (v : PyVal) : bool :=
  match v with
  | PyNone => false
  | PyCell None => true
  | PyCell (Some s) => negb (String.eqb s "")
  end.

Definition cell_of (v : PyVal) : Cell :=
  match v with PyNone => None | PyCell c => c end.

(** [pd.isna(c) or c.strip() == ''] *)
Definition is_blank (c : Cell) : bool :=
  match c with
  | None => true
  | Some s => String.eqb (PyStr.strip s) ""
  end.

(** ** Enrichment calls *)

Definition generate_bot_comment_async (user_question bot_answer : string)
  : Coro PyVal :=
  Await (GenerateComment user_question bot_answer) (λ response,
    match response with
    | Object result => Ret (PyCell (Some (get result "comment" "")))
    | Failure => Ret PyNone
    end).

Definition categorize_question_async (user_question bot_answer : string)
  : Coro (string * string) :=
  Await (CategorizeQuestion user_question bot_answer) (λ response,
    match response with
    | Object result =>
        let category := get result "category" "other" in
        let sub_category := get result "sub_category" "General" in
        Ret (category, sub_category)
    | Failure => Ret ("other", "General")
    end).

Definition categorize_feedback_comment_async (feedback_comment : Cell)
  : Coro string :=
  match feedback_comment with
  | None => Ret ""
  | Some text =>
      if String.eqb text "" || String.eqb (PyStr.strip text) "" then Ret ""
      else
        Await (CategorizeComment text) (λ response,
          match response with
          | Object result => Ret (get result "feedback_comment_category" "")
          | Failure => Ret ""
          end)
  end.

(** ** The analyzer and its files *)

Record FeedbackAnalyzer := mkAnalyzer {
  max_concurrent : nat            (* MAX_CONCURRENT_REQUESTS, default 20 *)
}.

Record Store := mkStore {
  data_file : FileState Table;
  comments_output_file : FileState Table;
  categories_output_file : FileState Table;
  comment_categories_output_file : FileState Table;
  scenarios_output_file : FileState Table;
  mapped_questions_file : FileState (list Cell);   (* the [question] column *)
  merged_output_file : FileState Table
}.

Inductive OutputFile :=
| CommentsOut | CategoriesOut | CommentCategoriesOut | ScenariosOut | MergedOut.

Definition output (o : OutputFile) (st : Store) : FileState Table :=
  match o with
  | CommentsOut => comments_output_file st
  | CategoriesOut => categories_output_file st
  | CommentCategoriesOut => comment_categories_output_file st
  | ScenariosOut => scenarios_output_file st
  | MergedOut => merged_output_file st
  end.

Definition set_output (o : OutputFile) (f : FileState Table) (st : Store) : Store :=
  match o with
  | CommentsOut =>
      mkStore (data_file st) f (categories_output_file st)
        (comment_categories_output_file st) (scenarios_output_file st)
        (mapped_questions_file st) (merged_output_file st)
  | CategoriesOut =>
      mkStore (data_file st) (comments_output_file st) f
        (comment_categories_output_file st) (scenarios_output_file st)
        (mapped_questions_file st) (merged_output_file st)
  | CommentCategoriesOut =>
      mkStore (data_file st) (comments_output_file st) (categories_output_file st)
        f (scenarios_output_file st)
        (mapped_questions_file st) (merged_output_file st)
  | ScenariosOut =>
      mkStore (data_file st) (comments_output_file st) (categories_output_file st)
        (comment_categories_output_file st) f
        (mapped_questions_file st) (merged_output_file st)
  | MergedOut =>
      mkStore (data_file st) (comments_output_file st) (categories_output_file st)
        (comment_categories_output_file st) (scenarios_output_file st)
        (mapped_questions_file st) f
  end.

(** [load_feedback_data]: only a missing file is caught. *)
Definition load_feedback_data (st : Store) : Outcome DataFrame :=
  match read_csv (data_file st) with
  | Raise FileNotFoundError => Ok empty_frame
  | r => r
  end.

(** [save_results]: the file is rewritten in full (the spreadsheet copy is
    a mirror of it); writing succeeds. *)
Definition save_results (df : DataFrame) (o : OutputFile) (st : Store) : Store :=
  set_output o (to_csv df) st.

(** ** Dispatchers *)

(** [df['feedback_comment']] is a [KeyError] without the column, and its
    [.str] an [AttributeError] unless the column is [object]. *)
Definition identify_thumbs_down_empty_feedback (df : DataFrame)
  : Outcome DataFrame :=
  if has_column "feedback_comment" df
     && bool_decide (comment_dtype df = object)
  then
    Ok (mkFrame (columns df)
          (filter (λ p : nat * Row,
                     feedback_rating p.2 = "THUMBS_DOWN"
                     ∧ is_blank (feedback_comment p.2) = true)
                  (data df))
          (comment_dtype df))
  else Raise OtherException.

(** The optional argument [max_concurrent=None] of a dispatcher. *)
Definition resolve (self : FeedbackAnalyzer) (arg : option nat) : nat :=
  match arg with
  | None => max_concurrent self
  | Some n => n
  end.

(** [row['feedback_comment']]: a [KeyError] when the frame lacks it. *)
Definition comment_of (has_comment : bool) (row : Row) : option Cell :=
  if has_comment then Some (feedback_comment row) else None.

(** The task of [add_categories_async]. *)
Definition process_single_category (idx : nat) (row : Row)
  : Coro (option (nat * string * string)) :=
  with_semaphore (
    r ← categorize_question_async (user_question row) (bot_answer row);
    Ret (Some (idx, r.1, r.2))).

(** [[process_single_category(idx, row) for idx, row in df.iterrows()]] *)
Definition category_tasks (df : DataFrame)
  : list (nat * Coro (option (nat * string * string))) :=
  (λ p : nat * Row, (p.1, process_single_category p.1 p.2)) <$> iterrows df.

Definition add_categories_async (self : FeedbackAnalyzer) (llm : Capability)
    (df : DataFrame) (max_concurrent : option nat)
  : Outcome (DataFrame * list (nat * Request)) :=
  let max_concurrent := resolve self max_concurrent in
  let result_df := df in
  let result_df :=
    if has_column "category" result_df then result_df
    else assign_scalar "category" (Some "") result_df in
  let result_df :=
    if has_column "sub_category" result_df then result_df
    else assign_scalar "sub_category" (Some "") result_df in
  let tasks := category_tasks df in
  '(results, log) ← gather max_concurrent llm tasks;
  Ok (foldl (λ (result_df : DataFrame) result,
               match result with
               | Some (idx, category, sub_category) =>
                   if negb (String.eqb category "")
                      && negb (String.eqb sub_category "")
                   then at_set idx "sub_category" (Some sub_category)
                          (at_set idx "category" (Some category) result_df)
                   else result_df
               | None => result_df
               end)
            result_df results,
      log).

(** The task of [add_comments_async]; it reads the rows of [df], which
    may lack the comment column. *)
Definition process_single_comment (has_comment : bool) (idx : nat) (row : Row)
  : Coro (option (nat * PyVal)) :=
  if bool_decide (feedback_rating row = "THUMBS_DOWN") then
    match comment_of has_comment row with
    | None => Ret None
    | Some c =>
        if is_blank c then
          with_semaphore (
            comment ← generate_bot_comment_async (user_question row) (bot_answer row);
            Ret (Some (idx, comment)))
        else Ret (Some (idx, PyCell c))
    end
  else
    match comment_of has_comment row with
    | None => Ret None
    | Some c => Ret (Some (idx, PyCell c))
    end.

Definition comment_tasks (df : DataFrame)
  : list (nat * Coro (option (nat * PyVal))) :=
  (λ p : nat * Row,
     (p.1, process_single_comment (has_column "feedback_comment" df) p.1 p.2))
    <$> iterrows df.

Definition add_comments_async (self : FeedbackAnalyzer) (llm : Capability)
    (df : DataFrame) (max_concurrent : option nat)
  : Outcome (DataFrame * list (nat * Request)) :=
  let max_concurrent := resolve self max_concurrent in
  let result_df :=
    if has_column "feedback_comment" df then df
    else assign_scalar "feedback_comment" (Some "") df in
  thumbs_down_empty ← identify_thumbs_down_empty_feedback result_df;
  if empty thumbs_down_empty then Ok (result_df, [])
  else
    let tasks := comment_tasks df in
    '(results, log) ← gather max_concurrent llm tasks;
    Ok (foldl (λ (result_df : DataFrame) result,
                 match result with
                 | Some (idx, comment) =>
                     if truthy comment
                     then at_set idx "feedback_comment" (cell_of comment) result_df
                     else result_df
                 | None => result_df
                 end)
              result_df results,
        log).

(** The task of [add_feedback_comment_categories_async]. *)
Definition process_single_comment_category (has_comment : bool) (idx : nat)
    (row : Row) : Coro (option (nat * string)) :=
  if bool_decide (feedback_rating row ≠ "THUMBS_DOWN") then Ret (Some (idx, ""))
  else
    with_semaphore (
      match comment_of has_comment row with
      | Some c =>
          feedback_comment_category ← categorize_feedback_comment_async c;
          Ret (Some (idx, feedback_comment_category))
      | None => Ret (Some (idx, ""))
      end).

Definition comment_category_tasks (result_df : DataFrame)
  : list (nat * Coro (option (nat * string))) :=
  (λ p : nat * Row,
     (p.1, process_single_comment_category
             (has_column "feedback_comment" result_df) p.1 p.2))
    <$> iterrows result_df.

(** Its argument defaults to 20, so the [None] test only fires for an
    explicit [None]. *)
Definition add_feedback_comment_categories_async (self : FeedbackAnalyzer)
    (llm : Capability) (df : DataFrame) (max_concurrent : option nat)
  : Outcome (DataFrame * list (nat * Request)) :=
  let max_concurrent := resolve self max_concurrent in
  let result_df :=
    if has_column "feedback_comment_category" df then df
    else assign_scalar "feedback_comment_category" (Some "") df in
  let tasks := comment_category_tasks result_df in
  '(results, log) ← gather max_concurrent llm tasks;
  Ok (foldl (λ (result_df : DataFrame) result,
               match result with
               | Some (idx, feedback_comment_category) =>
                   if negb (String.eqb feedback_comment_category "")
                   then at_set idx "feedback_comment_category"
                          (Some feedback_comment_category) result_df
                   else result_df
               | None => result_df
               end)
            result_df results,
      log).

(** ** Scenario tagger *)

(** The [.str] of line 722 raises on a question column that holds no
    text, and the [except] of line 728 then gives the empty set. *)
Definition load_mapped_questions (st : Store) : gset Cell :=
  match mapped_questions_file st with
  | Present question =>
      match question with
      | [] => ∅
      | _ =>
          if existsb reads_as_text question then
            list_to_set
              (fmap (M:=option) (λ q, PyStr.strip (PyStr.lower q)) <$> question)
          else ∅
      end
  | _ => ∅
  end.

Definition add_scenario_mapping (st : Store) (df : DataFrame) : DataFrame :=
  let mapped_questions := load_mapped_questions st in
  if decide (mapped_questions = ∅) then
    if has_column "scenario" df then df
    else assign_scalar "scenario" (Some "B") df
  else
    let result_df :=
      if has_column "scenario" df then df
      else assign_scalar "scenario" (Some "") df in
    foldl (λ (result_df : DataFrame) (p : nat * Row),
             let user_question := PyStr.strip (PyStr.lower (user_question p.2)) in
             if decide (Some user_question ∈ mapped_questions)
             then at_set p.1 "scenario" (Some "A") result_df
             else at_set p.1 "scenario" (Some "B") result_df)
          result_df (iterrows result_df).

(** ** Pipeline steps *)

Definition process_comments_only (self : FeedbackAnalyzer) (llm : Capability)
    (st : Store) : Outcome (DataFrame * Store) :=
  df ← load_feedback_data st;
  if empty df then Ok (df, st)
  else
    let unprocessed_df := filter_unprocessed_records df (comments_output_file st) in
    if empty unprocessed_df then
      if path_exists (comments_output_file st)
      then existing ← read_csv (comments_output_file st); Ok (existing, st)
      else Ok (df, st)
    else
      new_results ← add_comments_async self llm unprocessed_df None;
      let final_df :=
        merge_with_existing_results new_results.1 (comments_output_file st) in
      Ok (final_df, save_results final_df CommentsOut st).

Definition process_categories_only (self : FeedbackAnalyzer) (llm : Capability)
    (st : Store) : Outcome (DataFrame * Store) :=
  df ← load_feedback_data st;
  if empty df then Ok (df, st)
  else
    let unprocessed_df := filter_unprocessed_records df (categories_output_file st) in
    if empty unprocessed_df then
      if path_exists (categories_output_file st)
      then existing ← read_csv (categories_output_file st); Ok (existing, st)
      else Ok (df, st)
    else
      new_results ← add_categories_async self llm unprocessed_df None;
      let final_df :=
        merge_with_existing_results new_results.1 (categories_output_file st) in
      Ok (final_df, save_results final_df CategoriesOut st).

(** It starts from the comments output, not from the base data, and calls
    its dispatcher with the default argument. *)
Definition process_feedback_comment_categories_only (self : FeedbackAnalyzer)
    (llm : Capability) (st : Store) : Outcome (DataFrame * Store) :=
  if path_exists (comments_output_file st) then
    df ← read_csv (comments_output_file st);
    let unprocessed_df :=
      filter_unprocessed_records df (comment_categories_output_file st) in
    if empty unprocessed_df then
      if path_exists (comment_categories_output_file st)
      then existing ← read_csv (comment_categories_output_file st); Ok (existing, st)
      else Ok (df, st)
    else
      new_results ←
        add_feedback_comment_categories_async self llm unprocessed_df (Some 20);
      let final_df :=
        merge_with_existing_results new_results.1
          (comment_categories_output_file st) in
      Ok (final_df, save_results final_df CommentCategoriesOut st)
  else Ok (empty_frame, st).

Definition process_scenarios_only (st : Store) : Outcome (DataFrame * Store) :=
  df ← load_feedback_data st;
  if empty df then Ok (df, st)
  else
    let unprocessed_df := filter_unprocessed_records df (scenarios_output_file st) in
    if empty unprocessed_df then
      if path_exists (scenarios_output_file st)
      then existing ← read_csv (scenarios_output_file st); Ok (existing, st)
      else Ok (df, st)
    else
      let new_results_df := add_scenario_mapping st unprocessed_df in
      let final_df :=
        merge_with_existing_results new_results_df (scenarios_output_file st) in
      Ok (final_df, save_results final_df ScenariosOut st).

(** ** Consolidator *)

(** [src[c]] at label [i], NaN for a label [src] does not have. *)
Definition series_at (c : string) (src : DataFrame) (i : nat) : Cell :=
  match filter (λ p : nat * Row, p.1 = i) (data src) with
  | p :: _ => cell c p.2
  | [] => None
  end.

(** [df[c] = src[c]]: aligned on the index labels; a [KeyError] when
    [src] lacks the column. *)
Definition assign_series (c : string) (src df : DataFrame) : Outcome DataFrame :=
  if has_column c src then
    Ok (mkFrame (if has_column c df then columns df else columns df ++ [c])
          ((λ p : nat * Row, (p.1, set_cell c (series_at c src p.1) p.2))
             <$> data df)
          (if String.eqb c "feedback_comment"
           then comment_dtype src else comment_dtype df))
  else Raise OtherException.

Definition merge_files (st : Store) : Outcome (DataFrame * Store) :=
  base_df ← load_feedback_data st;
  if empty base_df then Ok (base_df, st)
  else
    let result_df := base_df in
    result_df ←
      (if path_exists (comments_output_file st) then
         comments_df ← read_csv (comments_output_file st);
         assign_series "feedback_comment" comments_df result_df
       else Ok result_df);
    result_df ←
      (if path_exists (categories_output_file st) then
         categories_df ← read_csv (categories_output_file st);
         result_df ← assign_series "category" categories_df result_df;
         assign_series "sub_category" categories_df result_df
       else Ok result_df);
    result_df ←
      (if path_exists (comment_categories_output_file st) then
         comment_categories_df ← read_csv (comment_categories_output_file st);
         assign_series "feedback_comment_category" comment_categories_df result_df
       else Ok result_df);
    result_df ←
      (if path_exists (scenarios_output_file st) then
         scenarios_df ← read_csv (scenarios_output_file st);
         assign_series "scenario" scenarios_df result_df
       else Ok result_df);
    Ok (result_df, save_results result_df MergedOut st).

(** [generate_summary_report]: it only prints, so what is kept of it is
    whether it raises.  [df['feedback_rating']] and [df['feedback_comment']]
    are looked up without a test, the [.str] of lines 906 and 912 needs an
    [object] column, and the percentages of the empty comments divide by
    [len(df)]: the report raises on a frame without rows, on a frame
    without the comment column, and on a comment column without text. *)
Definition generate_summary_report (df : DataFrame) : Outcome unit :=
  if empty df then Raise OtherException
  else if has_column "feedback_comment" df
          && bool_decide (comment_dtype df = object)
  then Ok tt
  else Raise OtherException.

(** [run_full_analysis]; of the summary only its exceptions are kept. *)
Definition run_full_analysis (self : FeedbackAnalyzer) (llm : Capability)
    (st : Store) : Outcome (DataFrame * Store) :=
  r1 ← process_comments_only self llm st;
  if empty r1.1 then Ok r1
  else
    r2 ← process_categories_only self llm r1.2;
    r3 ← process_feedback_comment_categories_only self llm r2.2;
    r4 ← process_scenarios_only r3.2;
    final ← merge_files r4.2;
    _ ← generate_summary_report final.1;
    Ok final.

(** ** The closed taxonomy of the categorisation prompt *)

Definition taxonomy : list (string * list string) :=
  [ ("Accounts",
     [ "HSBC One"; "HSBC Premier"; "HSBC Advance"; "HSBC Jade";
       "PayMe from HSBC"; "Savings accounts"; "Current accounts";
       "Time deposits"; "Foreign currency accounts"; "Joint accounts";
       "Children's accounts"; "Student accounts"; "Fees and charges";
       "Greater Bay Area Services"; "HSBC GBA Wealth Management Connect" ]);
    ("Ways to bank",
     [ "Branch Banking"; "Online Banking"; "Chat with us"; "HSBC Mobile Apps";
       "HSBC HK Mobile Banking app"; "Mobile account opening";
       "HSBC HK Mobile Banking App - Lite Mode"; "Mobile Cash Withdrawal";
       "Mobile cheque deposit"; "Phone banking"; "30-Day Service Pledge" ]);
    ("HSBC credit cards",
     [ "Compare credit cards"; "eStatements"; "HSBC EveryMile Credit Card";
       "HSBC Premier Mastercard®"; "HSBC Red Credit Card";
       "HSBC Visa Gold Card for Students";
       "HSBC Pulse UnionPay Dual Currency Diamond Credit Card";
       "HSBC UnionPay Dual Currency Credit Card"; "HSBC Visa Gold Card";
       "HSBC easy Credit Card / Visa Platinum Credit Card";
       "HSBC Visa Signature Card"; "HSBC Reward+ Mobile App";
       "Credit Cards Application"; "Cash Credit Plan"; "Cash Instalment Plan";
       "Mobile payment and Octopus add value services"; "Red Hot Rewards";
       "RewardCash Certificate Scheme"; "Rewards of Your Choice";
       "Miles and travel privileges";
       "Instant RewardCash redemption at merchants"; "Using your credit card";
       "Credit card limit transfer"; "Fees and charges" ]);
    ("Loans",
     [ "Personal Instalment Loan"; "Personal Tax Loan";
       "Balance Consolidation Program"; "Personal Instalment Loan Redraw";
       "Revolving Credit Facility";
       "Electric Vehicle Personal Instalment Loan"; "Fees and charges" ]);
    ("Investments",
     [ "Open an Investment Account"; "Stocks"; "Unit Trusts";
       "Bonds / Certificates of Deposit (CDs)"; "Structured products";
       "Foreign exchange"; "Exchange rate calculator"; "ESG investing";
       "HSBC Investment platform guide"; "Gold trading"; "Wealth Insights";
       "Wealth financing"; "Fees and charges"; "Top Trade Club"; "Trade25" ]);
    ("Insurance",
     [ "About HSBC Life"; "HSBC Life Benefits+"; "Life Insurance";
       "AccidentSurance"; "Motor insurance"; "TravelSurance";
       "Home and domestic helper insurance";
       "Medical and critical illness insurance";
       "Savings insurance and retirement plans"; "Investment Performance";
       "Well+ (Well Plus)"; "Making a claim and getting assistance" ]);
    ("Help and support",
     [ "About our website"; "Important notices"; "Dealing with Bereavement";
       "Credit card support"; "Contact Us"; "Cyber security and fraud hub";
       "Frequently asked questions"; "Forms and Documents Download";
       "Banking support for customers with health issues"; "Money worries";
       "How a separation could affect your finances"; "Accessibility";
       "Hyperlink policy"; "Maintenance schedule"; "Privacy and security";
       "Regulatory disclosures"; "Terms of use" ]);
    ("International services",
     [ "How to open an overseas account"; "How to open a Hong Kong account";
       "International mortgages"; "Investing in Hong Kong";
       "Living in Hong Kong" ]);
    ("Mortgages",
     [ "Home Ownership Scheme"; "Tenants Purchase Scheme";
       "Deposit-linked Mortgage"; "Green Mortgage"; "HighAdvance Mortgage";
       "Investor Mortgage"; "HIBOR based Mortgage";
       "Property valuation tool" ]);
    ("Payments and transfers",
     [ "Faster Payment System (FPS)"; "Local transfers"; "Global payments";
       "Pay abroad with FPS"; "Bill Payments"; "autoPay";
       "Daily payment and transfer limits" ]);
    ("Community Banking",
     [ "Accessibility for people with disabilities"; "Age-friendly Banking";
       "Banking with mental health struggles and financial stress";
       "Banking services for minority groups"; "Our impact" ]);
    ("MPF",
     [ "MPF Academy"; "HSBC MPF Awards"; "Forms and documents"; "Glossary";
       "MPF management fees"; "MPF news"; "MPF for members";
       "MPF for employers"; "MPF constituent fund information";
       "MPF Personal Accounts"; "MPF for the self-employed";
       "Tax Deductible Voluntary Contributions account";
       "HSBC Retirement Monitor"; "Designated branches with MPF services";
       "Cumulative Performance"; "Retirement planner"; "Understanding MPF";
       "Useful links"; "Fees and charges" ]) ].

(** A pair of the tree: a listed category with one of its sub-categories
    or "General"; or the fallback pair. *)
Definition in_taxonomy (pair : string * string) : bool :=
  existsb (λ entry : string * list string,
             String.eqb entry.1 pair.1
             && (String.eqb pair.2 "General"
                 || existsb (String.eqb pair.2) entry.2))
          taxonomy
  || (String.eqb pair.1 "other" && String.eqb pair.2 "General").

(** ** The admission gate: interleavings of a batch *)

Inductive TaskState (A : Type) :=
| Running (c : Coro A)
| Calling (req : Request) (k : Response → Coro A).   (* request outstanding *)
Arguments Running {A} c.
Arguments Calling {A} req k.

Record Sched (A : Type) := mkSched {
  permits : nat;                       (* value of the semaphore *)
  pool : list (nat * TaskState A)      (* the gathered tasks *)
}.
Arguments mkSched {A} permits pool.
Arguments permits {A} s.
Arguments pool {A} s.

(** [asyncio.Semaphore(max_concurrent)] and the tasks just created. *)
Definition init {A} (max_concurrent : nat) (tasks : list (nat * Coro A)) : Sched A :=
  mkSched max_concurrent ((λ t : nat * Coro A, (t.1, Running t.2)) <$> tasks).

(** One move of the event loop: some task passes one suspension point. *)
Inductive step {A} (llm : Capability) : Sched A → Sched A → Prop :=
| step_acquire s i idx k :
    pool s !! i = Some (idx, Running (Acquire k)) →
    0 < permits s →
    step llm s (mkSched (permits s - 1) (<[i := (idx, Running k)]> (pool s)))
| step_release s i idx k :
    pool s !! i = Some (idx, Running (Release k)) →
    step llm s (mkSched (S (permits s)) (<[i := (idx, Running k)]> (pool s)))
| step_send s i idx req k :
    pool s !! i = Some (idx, Running (Await req k)) →
    step llm s (mkSched (permits s) (<[i := (idx, Calling req k)]> (pool s)))
| step_receive s i idx req k :
    pool s !! i = Some (idx, Calling req k) →
    step llm s
      (mkSched (permits s) (<[i := (idx, Running (k (llm idx req)))]> (pool s))).

Definition is_calling {A} (t : nat * TaskState A) : bool :=
  match t.2 with Calling _ _ => true | Running _ => false end.

(** Number of capability calls in flight. *)
Definition outstanding {A} (s : Sched A) : nat :=
  length (filter (λ t, is_calling t = true) (pool s)).

(** Whether a task sits inside [async with semaphore]. *)
Definition holds {A} (t : TaskState A) : bool :=
  match t with
  | Running (Release _) | Running (Await _ _) | Calling _ _ => true
  | Running (Ret _) | Running (Acquire _) => false
  end.

(** A coroutine that calls the capability only inside the semaphore and
    leaves the semaphore before it returns; [h] tells whether it is
    inside now. *)
Fixpoint well_gated {A} (h : bool) (c : Coro A) : Prop :=
  match c with
  | Ret _ => h = false
  | Acquire k => h = false ∧ well_gated true k
  | Release k => h = true ∧ well_gated false k
  | Await _ k => h = true ∧ ∀ r, well_gated true (k r)
  end.

Definition finished {A} (t : nat * TaskState A) : bool :=
  match t.2 with Running (Ret _) => true | _ => false end.

(** ** Rows of a frame, and sample data *)

(** The rows of a frame without their labels. *)
Definition rows (df : DataFrame) : list Row := (data df).*2.

Definition row_plain (t q a : string) : Row :=
  mkRow t q a "THUMBS_DOWN" None None None None None.

Definition row_rated (t q a rating : string) (comment : Cell) : Row :=
  mkRow t q a rating comment None None None None.

(** A record with a category annotation. *)
Definition row_categorised (t q a cat : string) : Row :=
  mkRow t q a "THUMBS_DOWN" None (Some cat) (Some "General") None None.

Module Sample.

Definition prior_output : Table :=
  mkTable ["category"; "sub_category"]
    [ row_categorised "t1" "q1" "a1" "old";
      row_categorised "t0" "q0" "a0" "kept" ]
    float64.

Definition new_batch : DataFrame :=
  mkFrame ["category"; "sub_category"]
    [ (0, row_categorised "t1" "q1" "a1" "new");
      (1, row_categorised "t2" "q2" "a2" "fresh") ]
    float64.

(** The same record twice in one batch, annotated differently. *)
Definition new_batch_twice : DataFrame :=
  mkFrame ["category"; "sub_category"]
    [ (0, row_categorised "t1" "q1" "a1" "new");
      (1, row_categorised "t1" "q1" "a1" "newer") ]
    float64.

End Sample.

Module SampleBase.

(** Three feedback events: a thumbs-down without a comment, a thumbs-up,
    a thumbs-down with a comment. *)
Definition base : Table :=
  mkTable ["feedback_comment"]
    [ row_rated "t1" "What is FPS?" "a1" "THUMBS_DOWN" None;
      row_rated "t2" "How do I open an account?" "a2" "THUMBS_UP" None;
      row_rated "t3" "what is fps" "a3" "THUMBS_DOWN" (Some "Too vague") ]
    object.

Definition current_dataset : DataFrame :=
  mkFrame ["feedback_comment"]
    [ (0, row_rated "t1" "What is FPS?" "a1" "THUMBS_DOWN" None);
      (1, row_rated "t2" "How do I open an account?" "a2" "THUMBS_UP" None);
      (2, row_rated "t3" "what is fps" "a3" "THUMBS_DOWN" (Some "Too vague")) ]
    object.

(** A prior output that already holds the second event. *)
Definition prior_output : Table :=
  mkTable ["feedback_comment"]
    [ row_rated "t2" "How do I open an account?" "a2" "THUMBS_UP" None ]
    float64.

End SampleBase.

(** ** Auxiliary notions used in the statements *)

(** A row of a list of labelled rows rewritten in place. *)
Definition update_at (idx : nat) (f : Row → Row) (d : list (nat * Row))
  : list (nat * Row) :=
  (λ p : nat * Row, if decide (p.1 = idx) then (p.1, f p.2) else p) <$> d.

(** The requests the three tasks send for a row. *)
Definition comment_request (row : Row) : Request :=
  GenerateComment (user_question row) (bot_answer row).

Definition category_request (row : Row) : Request :=
  CategorizeQuestion (user_question row) (bot_answer row).

(** The capability answers the task of [p] with an object whose [field]
    is the non-empty text [value]. *)
Definition answers (llm : Capability) (p : nat * Row) (req : Request)
    (field value : string) : Prop :=
  ∃ o, llm p.1 req = Object o ∧ o !! field = Some value ∧ value ≠ "".

(** [if c not in df.columns: df[c] = v], on a frame and on one row. *)
Definition with_column (c : string) (v : Cell) (df : DataFrame) : DataFrame :=
  if has_column c df then df else assign_scalar c v df.

Definition ensure_cell (c : string) (v : Cell) (df : DataFrame) (r : Row) : Row :=
  if has_column c df then r else set_cell c v r.

(** What the category task of a row brings back, and what the update loop
    then does to the row. *)
Definition category_answer (llm : Capability) (p : nat * Row) : string * string :=
  match llm p.1 (category_request p.2) with
  | Object result => (get result "category" "other",
                      get result "sub_category" "General")
  | Failure => ("other", "General")
  end.

Definition category_effect (llm : Capability) (p : nat * Row) (r : Row) : Row :=
  let a := category_answer llm p in
  if negb (String.eqb a.1 "") && negb (String.eqb a.2 "")
  then set_cell "sub_category" (Some a.2) (set_cell "category" (Some a.1) r)
  else r.

(** A row the comment task sends to the capability. *)
Definition needs_comment (r : Row) : bool :=
  bool_decide (feedback_rating r = "THUMBS_DOWN") && is_blank (feedback_comment r).

Definition comment_answer (llm : Capability) (p : nat * Row) : PyVal :=
  match llm p.1 (comment_request p.2) with
  | Object result => PyCell (Some (get result "comment" ""))
  | Failure => PyNone
  end.

Definition comment_effect (llm : Capability) (df : DataFrame) (p : nat * Row)
    (r : Row) : Row :=
  if has_column "feedback_comment" df then
    if needs_comment p.2 then
      if truthy (comment_answer llm p)
      then set_cell "feedback_comment" (cell_of (comment_answer llm p)) r
      else r
    else
      if truthy (PyCell (feedback_comment p.2))
      then set_cell "feedback_comment" (feedback_comment p.2) r
      else r
  else r.

(** A row the comment-category task sends to the capability. *)
Definition needs_comment_category (has_comment : bool) (r : Row) : bool :=
  bool_decide (feedback_rating r = "THUMBS_DOWN")
  && has_comment && negb (is_blank (feedback_comment r)).

Definition comment_category_answer (llm : Capability) (has_comment : bool)
    (p : nat * Row) : string :=
  if needs_comment_category has_comment p.2 then
    match llm p.1 (CategorizeComment (default "" (feedback_comment p.2))) with
    | Object result => get result "feedback_comment_category" ""
    | Failure => ""
    end
  else "".

Definition comment_category_effect (llm : Capability) (has_comment : bool)
    (p : nat * Row) (r : Row) : Row :=
  let a := comment_category_answer llm has_comment p in
  if negb (String.eqb a "")
  then set_cell "feedback_comment_category" (Some a) r
  else r.

(** The calls a batch issues, each with the label of its row. *)
Definition category_calls (df : DataFrame) : list (nat * Request) :=
  (λ p : nat * Row, (p.1, category_request p.2)) <$> data df.

Definition comment_calls (df : DataFrame) : list (nat * Request) :=
  if has_column "feedback_comment" df then
    (λ p : nat * Row, (p.1, comment_request p.2))
      <$> filter (λ p : nat * Row, needs_comment p.2 = true) (data df)
  else [].

Definition comment_category_calls (df : DataFrame) : list (nat * Request) :=
  (λ p : nat * Row, (p.1, CategorizeComment (default "" (feedback_comment p.2))))
    <$> filter (λ p : nat * Row,
                  needs_comment_category (has_column "feedback_comment" df) p.2
                  = true)
               (data df).

Module SampleBatch.

Definition self : FeedbackAnalyzer := mkAnalyzer 20.

(** The call made for the row labelled 1 fails; every other call is
    answered. *)
Definition llm : Capability := λ idx _,
  if decide (idx = 1) then Failure
  else Object (<["category" := "Loans"]>
               (<["sub_category" := "Personal Tax Loan"]>
                (<["comment" := "The answer ignores my question"]>
                 (<["feedback_comment_category" := "Irrelevant Answer"]> ∅)))).

(** Thumbs-down feedback without comments. *)
Definition uncommented : DataFrame :=
  mkFrame ["feedback_comment"]
    [ (0, row_rated "t1" "q1" "a1" "THUMBS_DOWN" None);
      (1, row_rated "t2" "q2" "a2" "THUMBS_DOWN" None);
      (4, row_rated "t3" "q3" "a3" "THUMBS_DOWN" (Some "  ")) ]
    object.

(** Feedback that never had a comment, as [read_csv] gives it: the comment
    column holds no text and is [float64]. *)
Definition never_commented : DataFrame :=
  mkFrame ["feedback_comment"]
    [ (0, row_rated "t1" "q1" "a1" "THUMBS_DOWN" None);
      (1, row_rated "t2" "q2" "a2" "THUMBS_UP" None) ]
    float64.

(** Thumbs-down feedback with comments. *)
Definition commented : DataFrame :=
  mkFrame ["feedback_comment"]
    [ (0, row_rated "t1" "q1" "a1" "THUMBS_DOWN" (Some "Wrong link"));
      (1, row_rated "t2" "q2" "a2" "THUMBS_DOWN" (Some "Too vague"));
      (4, row_rated "t3" "q3" "a3" "THUMBS_DOWN" (Some "No answer")) ]
    object.

End SampleBatch.

Module SampleScenario.

(** A store whose reference list holds the one question "what is fps",
    written with stray blanks and capitals. *)
Definition store : Store :=
  mkStore (Present SampleBase.base) Absent Absent Absent Absent
    (Present [Some "  What is FPS "]) Absent.

(** A client that names a pair outside the taxonomy. *)
Definition off_taxonomy : Client := λ _,
  Object (<["category" := "Pets"]> (<["sub_category" := "Dogs"]> ∅)).

(** A client that names a pair of the taxonomy. *)
Definition on_taxonomy : Client := λ _,
  Object (<["category" := "Loans"]> (<["sub_category" := "Personal Tax Loan"]> ∅)).

End SampleScenario.

(** The tag the scenario tagger gives a question against a reference set. *)
Definition scenario_tag (mapped_questions : gset Cell) (question : string) : string :=
  if decide (Some (PyStr.strip (PyStr.lower question)) ∈ mapped_questions)
  then "A" else "B".

(** Two frames with the same labels and, row by row, the same identity. *)
Definition same_records (df out : DataFrame) : Prop :=
  (data out).*1 = (data df).*1
  ∧ create_record_key <$> rows out = create_record_key <$> rows df.

Module SampleUnreadable.

(** A comments output that holds an annotated record the base data no
    longer has, and that fails to read. *)
Definition persisted : Table :=
  mkTable ["feedback_comment"]
    [ row_rated "t0" "Where is my card?" "a0" "THUMBS_DOWN"
        (Some "Generated long ago") ]
    object.

Definition store : Store :=
  mkStore (Present SampleBase.base) (Unreadable persisted) Absent Absent Absent
    Absent Absent.

(** The same with base data that holds no comment at all. *)
Definition uncommented_store : Store :=
  mkStore (Present SampleBase.prior_output) (Unreadable persisted) Absent Absent
    Absent Absent Absent.

(** Base data without a comment column, and no output yet. *)
Definition plain_base : Table :=
  mkTable [] [ row_plain "t1" "What is FPS?" "a1" ] object.

Definition plain_store : Store :=
  mkStore (Present plain_base) Absent Absent Absent Absent Absent Absent.

End SampleUnreadable.

(** A coroutine that neither takes nor gives back the semaphore. *)
Fixpoint calls_only {A} (c : Coro A) : Prop :=
  match c with
  | Ret _ => True
  | Acquire _ | Release _ => False
  | Await _ k => ∀ r, calls_only (k r)
  end.

(** The state of a task respects the gate. *)
Definition task_gated {A} (t : nat * TaskState A) : Prop :=
  match t.2 with
  | Running c => well_gated (holds (Running c)) c
  | Calling _ k => ∀ r, well_gated true (k r)
  end.

(** Number of tasks inside [async with semaphore]. *)
Definition holders {A} (s : Sched A) : nat :=
  length (filter (λ t : nat * TaskState A, holds t.2 = true) (pool s)).

(** Every task respects the gate, and the permits handed out are the
    permits missing from the semaphore. *)
Definition gate_invariant {A} (max_concurrent : nat) (s : Sched A) : Prop :=
  Forall task_gated (pool s) ∧ permits s + holders s = max_concurrent.

(** ** Incremental processing *)

(** Every record of [df] has its identity among the processed keys of an
    output file. *)
Definition covered (df : DataFrame) (output_file : FileState Table) : Prop :=
  ∀ p, p ∈ data df → create_record_key p.2 ∈ get_processed_records output_file.

(** What the four [process_..._only] steps do once they hold their source
    frame: filter, enrich what is left, merge and save. *)
Definition incremental_core (o : OutputFile) (enrich : DataFrame → Outcome DataFrame)
    (df : DataFrame) (st : Store) : Outcome (DataFrame * Store) :=
  let unprocessed_df := filter_unprocessed_records df (output o st) in
  if empty unprocessed_df then
    if path_exists (output o st)
    then existing ← read_csv (output o st); Ok (existing, st)
    else Ok (df, st)
  else
    new_results_df ← enrich unprocessed_df;
    let final_df := merge_with_existing_results new_results_df (output o st) in
    Ok (final_df, save_results final_df o st).

(** A step that rewrote at most the output [o]. *)
Definition touches_only (o : OutputFile) (st st' : Store) : Prop :=
  st' = set_output o (output o st') st.

(** The three steps that start from the base data. *)
Definition base_step (o : OutputFile) (enrich : DataFrame → Outcome DataFrame)
    (st : Store) : Outcome (DataFrame * Store) :=
  df ← load_feedback_data st;
  if empty df then Ok (df, st) else incremental_core o enrich df st.

(** The enrichment of each step, as a function of the unprocessed rows. *)
Definition enrich_comments (self : FeedbackAnalyzer) (llm : Capability)
    (unprocessed_df : DataFrame) : Outcome DataFrame :=
  new_results ← add_comments_async self llm unprocessed_df None;
  Ok new_results.1.

Definition enrich_categories (self : FeedbackAnalyzer) (llm : Capability)
    (unprocessed_df : DataFrame) : Outcome DataFrame :=
  new_results ← add_categories_async self llm unprocessed_df None;
  Ok new_results.1.

Definition enrich_comment_categories (self : FeedbackAnalyzer) (llm : Capability)
    (unprocessed_df : DataFrame) : Outcome DataFrame :=
  new_results ←
    add_feedback_comment_categories_async self llm unprocessed_df (Some 20);
  Ok new_results.1.

Definition enrich_scenarios (st : Store) (unprocessed_df : DataFrame)
  : Outcome DataFrame :=
  Ok (add_scenario_mapping st unprocessed_df).

(** An enrichment that keeps labels and identities. *)
Definition keeps_records (enrich : DataFrame → Outcome DataFrame) : Prop :=
  ∀ u new, NoDup (data u).*1 → enrich u = Ok new → same_records u new.

(** The columns [merge_files] copies onto the base data, in its order. *)
Definition consolidated (st : Store) (base_df : DataFrame) : Outcome DataFrame :=
  let result_df := base_df in
  result_df ←
    (if path_exists (comments_output_file st) then
       comments_df ← read_csv (comments_output_file st);
       assign_series "feedback_comment" comments_df result_df
     else Ok result_df);
  result_df ←
    (if path_exists (categories_output_file st) then
       categories_df ← read_csv (categories_output_file st);
       result_df ← assign_series "category" categories_df result_df;
       assign_series "sub_category" categories_df result_df
     else Ok result_df);
  result_df ←
    (if path_exists (comment_categories_output_file st) then
       comment_categories_df ← read_csv (comment_categories_output_file st);
       assign_series "feedback_comment_category" comment_categories_df result_df
     else Ok result_df);
  (if path_exists (scenarios_output_file st) then
     scenarios_df ← read_csv (scenarios_output_file st);
     assign_series "scenario" scenarios_df result_df
   else Ok result_df).

(** ** What the event loop computes *)

(** The value a task will return from its present state. *)
Definition result_of {A} (client : Client) (t : TaskState A) : A :=
  match t with
  | Running c => (run client c).1
  | Calling req k => (run client (k (client req))).1
  end.

(** The suspension points a coroutine still has to pass. *)
Fixpoint remaining {A} (client : Client) (c : Coro A) : nat :=
  match c with
  | Ret _ => 0
  | Acquire k => S (remaining client k)
  | Release k => S (remaining client k)
  | Await req k => S (S (remaining client (k (client req))))
  end.

Definition remaining_of {A} (client : Client) (t : TaskState A) : nat :=
  match t with
  | Running c => remaining client c
  | Calling req k => S (remaining client (k (client req)))
  end.

(** The moves the event loop still has to make. *)
Definition work {A} (llm : Capability) (s : Sched A) : nat :=
  sum_list ((λ t : nat * TaskState A, remaining_of (llm t.1) t.2) <$> pool s).

(** Whether a task, from its present state, comes to wait for the
    semaphore. *)
Definition will_acquire {A} (client : Client) (t : TaskState A) : bool :=
  match t with
  | Running c => acquires client c
  | Calling req k => acquires client (k (client req))
  end.

(** ** The steps by the output they own *)

(** The step that owns an output file: what the menu of [main] starts for
    the choices 1 to 5. *)
Definition pipeline_step (self : FeedbackAnalyzer) (llm : Capability)
    (o : OutputFile) (st : Store) : Outcome (DataFrame * Store) :=
  match o with
  | CommentsOut => process_comments_only self llm st
  | CategoriesOut => process_categories_only self llm st
  | CommentCategoriesOut => process_feedback_comment_categories_only self llm st
  | ScenariosOut => process_scenarios_only st
  | MergedOut => merge_files st
  end.

(** The record an output file holds for an identity, as a later read sees
    it: the last row with the identity. *)
Definition stored (f : FileState Table) (X : string) : option Row :=
  match read_csv f with
  | Ok df => last (filter (λ r, create_record_key r = X) (rows df))
  | _ => None
  end.

Module SampleStore.

(** A categories output that already holds the second event of
    [SampleBase.base], categorised by hand. *)
Definition categorised : Table :=
  mkTable ["feedback_comment"; "category"; "sub_category"]
    [ mkRow "t2" "How do I open an account?" "a2" "THUMBS_UP" None
        (Some "Accounts") (Some "HSBC One") None None ]
    float64.

Definition store : Store :=
  mkStore (Present SampleBase.base) Absent (Present categorised) Absent Absent
    Absent Absent.

End SampleStore.

(** ** Notions used for the consolidator *)

(** Two rows that describe the same feedback event: the identity fields
    and the rating agree. *)
Definition same_event (r r' : Row) : Prop :=
  request_time r' = request_time r
  ∧ user_question r' = user_question r
  ∧ bot_answer r' = bot_answer r
  ∧ feedback_rating r' = feedback_rating r.

(** The value of column [c] in the [i]-th record of an annotation file;
    [old] when there is no such file. *)
Definition column_at (c : string) (f : FileState Table) (i : nat) (old : Cell)
  : Cell :=
  match f with
  | Present t => records t !! i ≫= cell c
  | _ => old
  end.

(** The dtype of the comment column after column [c] is copied from an
    annotation file: that of the file when the comment column itself is
    copied. *)
Definition copied_dtype (c : string) (f : FileState Table) (old : dtype)
  : dtype :=
  match f with
  | Present t => if String.eqb c "feedback_comment" then read_dtype t else old
  | _ => old
  end.

(** An annotation file [merge_files] can use: absent, or readable with the
    columns [cs]. *)
Definition usable (cs : list string) (f : FileState Table) : bool :=
  match f with
  | Absent => true
  | Unreadable _ => false
  | Present t => forallb (λ c, bool_decide (c ∈ header t)) cs
  end.

(** The row [merge_files] yields at position [i] from the base row [r]:
    each annotation column is taken from the record at the same position
    of its file. *)
Definition merged_row (st : Store) (i : nat) (r : Row) : Row :=
  mkRow (request_time r) (user_question r) (bot_answer r) (feedback_rating r)
    (column_at "feedback_comment" (comments_output_file st) i (feedback_comment r))
    (column_at "category" (categories_output_file st) i (category r))
    (column_at "sub_category" (categories_output_file st) i (sub_category r))
    (column_at "feedback_comment_category" (comment_categories_output_file st) i
       (feedback_comment_category r))
    (column_at "scenario" (scenarios_output_file st) i (scenario r)).

(** Every annotation file is usable. *)
Definition all_usable (st : Store) : bool :=
  usable ["feedback_comment"] (comments_output_file st)
  && usable ["category"; "sub_category"] (categories_output_file st)
  && usable ["feedback_comment_category"] (comment_categories_output_file st)
  && usable ["scenario"] (scenarios_output_file st).

Module SampleStale.

(** A store whose comments output holds one record that the base data no
    longer has. *)
Definition store : Store :=
  mkStore (Present SampleBase.base) (Present SampleUnreadable.persisted)
    Absent Absent Absent Absent Absent.

(** A store whose categories output lacks the [sub_category] column. *)
Definition truncated : Store :=
  mkStore (Present SampleBase.base) Absent
    (Present (mkTable ["category"]
                [row_categorised "t1" "What is FPS?" "a1" "Payments"] float64))
    Absent Absent Absent Absent.

End SampleStale.

(** [r'] is [r] but for the columns [cs]: the same event, and the same
    value in every other column. *)
Definition same_except (cs : list string) (r r' : Row) : Prop :=
  same_event r r' ∧ ∀ c, c ∉ cs → cell c r' = cell c r.

(** The event loop brings a batch to its end: whatever moves it has made,
    it has made at most [work] of them; before that it can make another;
    and after that every task has returned, and the pool holds, in task
    order, the value each task computes on its own. *)
Definition completes {A} (llm : Capability) (max_concurrent : nat)
    (tasks : list (nat * Coro A)) : Prop :=
  let total := work llm (init max_concurrent tasks) in
  ∀ n s, nsteps (step llm) n (init max_concurrent tasks) s →
    n ≤ total
    ∧ (n < total → ∃ s', step llm s s')
    ∧ (n = total →
       pool s = (λ t : nat * Coro A, (t.1, Running (Ret (run (llm t.1) t.2).1)))
                  <$> tasks).

(** ** The menu *)

(** [main] once the analyzer is built, as a function of the line typed at
    the prompt: the store it leaves. *)
Definition main (self : FeedbackAnalyzer) (llm : Capability) (line : string)
    (st : Store) : Outcome Store :=
  let choice := PyStr.strip line in
  if String.eqb choice "1" then
    r ← process_comments_only self llm st; Ok r.2
  else if String.eqb choice "2" then
    r ← process_categories_only self llm st; Ok r.2
  else if String.eqb choice "3" then
    r ← process_feedback_comment_categories_only self llm st; Ok r.2
  else if String.eqb choice "4" then
    r ← process_scenarios_only st; Ok r.2
  else if String.eqb choice "5" then
    r ← merge_files st;
    _ ← generate_summary_report r.1;
    Ok r.2
  else if String.eqb choice "6" then
    r ← run_full_analysis self llm st; Ok r.2
  else Ok st.

(** * Properties *)

(** ** Strings *)

Section strings.

(** Splitting at the first delimiter is unambiguous. *)
Lemma append_delimiter_inj (a a' b b' : string) :
  PyStr.contains "|" a = false →
  PyStr.contains "|" a' = false →
  a +:+ "|" +:+ b = a' +:+ "|" +:+ b' →
  a = a' ∧ b = b'.
Proof.
  revert a'. induction a as [|c a IH]; intros [|c' a'] Ha Ha' Heq;
    cbn [PyStr.contains String.append] in *.
  - by injection Heq.
  - injection Heq as Hc _. rewrite <- Hc, Ascii.eqb_refl in Ha'. done.
  - injection Heq as Hc _. rewrite Hc, Ascii.eqb_refl in Ha. done.
  - injection Heq as -> Heq.
    destruct (Ascii.eqb "|" c'); [done |].
    destruct (IH a' Ha Ha' Heq) as [-> ->]. done.
Qed.

End strings.

(** ** Record identity *)

(** C4, as the code has it: the identity is a function of the three
    identity fields alone, and it separates two records that differ in one
    of them provided the delimiter does not occur in their [request_time]
    and [user_question]. *)
Theorem create_record_key_identity (r1 r2 : Row) :
  (request_time r1 = request_time r2 →
   user_question r1 = user_question r2 →
   bot_answer r1 = bot_answer r2 →
   create_record_key r1 = create_record_key r2)
  ∧ (PyStr.contains "|" (request_time r1) = false →
     PyStr.contains "|" (request_time r2) = false →
     PyStr.contains "|" (user_question r1) = false →
     PyStr.contains "|" (user_question r2) = false →
     create_record_key r1 = create_record_key r2 →
     request_time r1 = request_time r2
     ∧ user_question r1 = user_question r2
     ∧ bot_answer r1 = bot_answer r2).
Proof.
  split.
  - unfold create_record_key. by intros -> -> ->.
  - unfold create_record_key. intros Ht1 Ht2 Hq1 Hq2 Heq.
    destruct (append_delimiter_inj _ _ _ _ Ht1 Ht2 Heq) as [Ht Heq'].
    destruct (append_delimiter_inj _ _ _ _ Hq1 Hq2 Heq') as [Hq Hb].
    done.
Qed.

Lemma create_record_key_identity_witness :
  let r1 := row_plain "2024-05-01 10:00:00" "What is FPS?" "A payment system" in
  let r2 := row_rated "2024-05-01 10:00:00" "What is FPS?" "A payment system"
              "THUMBS_UP" (Some "ok") in
  create_record_key r1 = create_record_key r2
  ∧ (request_time r1 = request_time r2
     ∧ user_question r1 = user_question r2
     ∧ bot_answer r1 = bot_answer r2).
Proof.
  intros r1 r2. split.
  - apply (proj1 (create_record_key_identity r1 r2)); reflexivity.
  - apply (proj2 (create_record_key_identity r1 r2)); reflexivity.
Defined.

(** C4 as stated fails: two records that differ in [user_question] and in
    [bot_answer] share one identity string. *)
Lemma create_record_key_collision :
  user_question (row_plain "t" "a|b" "c") ≠ user_question (row_plain "t" "a" "b|c")
  ∧ bot_answer (row_plain "t" "a|b" "c") ≠ bot_answer (row_plain "t" "a" "b|c")
  ∧ create_record_key (row_plain "t" "a|b" "c")
    = create_record_key (row_plain "t" "a" "b|c").
Proof. split; [discriminate | split; [discriminate | reflexivity]]. Qed.

(** ** Frames and de-duplication *)

Section frames.
Implicit Types (r : Row) (p : nat * Row) (l : list (nat * Row)) (df : DataFrame).

Lemma range_index_snd (rows : list Row) : (range_index rows).*2 = rows.
Proof. apply snd_zip. by rewrite length_seq. Qed.

Lemma range_index_fst (rows : list Row) :
  (range_index rows).*1 = seq 0 (length rows).
Proof. apply fst_zip. by rewrite length_seq. Qed.

Lemma range_index_NoDup (rows : list Row) : NoDup (range_index rows).*1.
Proof. rewrite range_index_fst. apply NoDup_seq. Qed.

Lemma reindex_key cols r : create_record_key (reindex cols r) = create_record_key r.
Proof. done. Qed.

Lemma cell_reindex c cols r : c ∈ cols → cell c (reindex cols r) = cell c r.
Proof.
  intros Hc. unfold cell, reindex; simpl.
  destruct (String.eqb_spec c "feedback_comment") as [->|_];
    [by rewrite bool_decide_eq_true_2 |].
  destruct (String.eqb_spec c "category") as [->|_];
    [by rewrite bool_decide_eq_true_2 |].
  destruct (String.eqb_spec c "sub_category") as [->|_];
    [by rewrite bool_decide_eq_true_2 |].
  destruct (String.eqb_spec c "feedback_comment_category") as [->|_];
    [by rewrite bool_decide_eq_true_2 |].
  destruct (String.eqb_spec c "scenario") as [->|_];
    [by rewrite bool_decide_eq_true_2 |].
  done.
Qed.

Lemma reindex_idemp cols r : reindex cols (reindex cols r) = reindex cols r.
Proof. unfold reindex; simpl. by repeat case_bool_decide. Qed.

End frames.

Section drop_duplicates.
Context (key : Row → string).
Implicit Types (p : nat * Row) (l : list (nat * Row)).

Lemma drop_duplicates_last_sublist l : sublist (drop_duplicates_last key l) l.
Proof.
  induction l as [|p l IH]; simpl; [done |].
  case_decide; [by apply sublist_cons | by apply sublist_skip].
Qed.

Lemma drop_duplicates_last_keys l k :
  k ∈ (key ∘ snd) <$> drop_duplicates_last key l ↔ k ∈ (key ∘ snd) <$> l.
Proof.
  induction l as [|p l IH]; simpl; [done |].
  case_decide as Hin; rewrite ?fmap_cons, !elem_of_cons, IH; [|done].
  split; [by right |]. intros [-> | ?]; [exact Hin | done].
Qed.

Lemma drop_duplicates_last_NoDup l :
  NoDup ((key ∘ snd) <$> drop_duplicates_last key l).
Proof.
  induction l as [|p l IH]; simpl; [constructor |].
  case_decide as Hin; [done |].
  rewrite fmap_cons. constructor; [| done].
  by rewrite drop_duplicates_last_keys.
Qed.

Lemma filter_key_nil l X :
  X ∉ (key ∘ snd) <$> l → filter (λ p, key p.2 = X) l = [].
Proof.
  intros Hnot. induction l as [|p l IH]; [done |].
  rewrite fmap_cons, not_elem_of_cons in Hnot. destruct Hnot as [Hp Hl].
  rewrite filter_cons_False; [by apply IH | by intros <-].
Qed.

Lemma filter_key_last l X :
  X ∈ (key ∘ snd) <$> l → is_Some (last (filter (λ p, key p.2 = X) l)).
Proof.
  intros (p & -> & Hp)%list_elem_of_fmap.
  destruct (last (filter (λ q, key q.2 = (key ∘ snd) p) l)) eqn:E; [by eexists |].
  apply last_None in E.
  assert (p ∈ filter (λ q, key q.2 = (key ∘ snd) p) l) as Hin
    by by apply list_elem_of_filter.
  rewrite E in Hin. by apply not_elem_of_nil in Hin.
Qed.

(** For each key the last row carrying it survives, alone. *)
Lemma drop_duplicates_last_filter l X :
  filter (λ p, key p.2 = X) (drop_duplicates_last key l)
  = option_list (last (filter (λ p, key p.2 = X) l)).
Proof.
  induction l as [|p l IH]; simpl; [done |].
  case_decide as Hin.
  - rewrite IH. destruct (decide (key p.2 = X)) as [HX | HX].
    + rewrite filter_cons_True by done. rewrite last_cons.
      rewrite HX in Hin. destruct (filter_key_last _ _ Hin) as [q ->]. done.
    + by rewrite filter_cons_False.
  - destruct (decide (key p.2 = X)) as [HX | HX].
    + rewrite !filter_cons_True by done. rewrite IH.
      rewrite HX in Hin. rewrite (filter_key_nil _ _ Hin). done.
    + by rewrite !filter_cons_False.
Qed.
End drop_duplicates.

(** ** Merge engine *)

Section merge.
Implicit Types (r : Row) (p : nat * Row) (df : DataFrame) (t : Table).

Lemma filter_snd {A B} (P : B → Prop) `{∀ x, Decision (P x)} (l : list (A * B)) :
  (filter (λ x, P x.2) l).*2 = filter P l.*2.
Proof.
  induction l as [|x l IH]; [done |].
  rewrite fmap_cons. destruct (decide (P x.2)).
  - rewrite !filter_cons_True by done. by rewrite fmap_cons, IH.
  - by rewrite !filter_cons_False.
Qed.

Lemma filter_fmap_key {A} (f : A → A) (key : A → string) X (l : list A) :
  (∀ x, key (f x) = key x) →
  filter (λ x, key x = X) (f <$> l) = f <$> filter (λ x, key x = X) l.
Proof.
  intros Hf. induction l as [|x l IH]; [done |].
  rewrite fmap_cons. destruct (decide (key x = X)).
  - rewrite !filter_cons_True by (by rewrite ?Hf). by rewrite fmap_cons, IH.
  - rewrite !filter_cons_False by (by rewrite ?Hf). done.
Qed.

Lemma merge_absent new_df : merge_with_existing_results new_df Absent = new_df.
Proof. done. Qed.

Lemma merge_unreadable new_df t :
  merge_with_existing_results new_df (Unreadable t) = new_df.
Proof. done. Qed.

Lemma merge_present_rows new_df t :
  ∃ l, data (merge_with_existing_results new_df (Present t))
       = drop_duplicates_last create_record_key l
     ∧ l.*2 = (reindex (header t) <$> records t)
              ++ (reindex (columns new_df) <$> rows new_df).
Proof.
  eexists. split; [reflexivity |]. simpl.
  rewrite !range_index_snd. by rewrite <- list_fmap_compose, (list_fmap_ext _ (reindex (header t))) by (intros; apply reindex_idemp).
Qed.

Lemma merge_present_filter new_df t X r_new :
  last (filter (λ r, create_record_key r = X) (rows new_df)) = Some r_new →
  filter (λ r, create_record_key r = X)
         (rows (merge_with_existing_results new_df (Present t)))
  = [reindex (columns new_df) r_new].
Proof.
  intros Hlast. destruct (merge_present_rows new_df t) as (l & Hd & Hl).
  unfold rows at 1. rewrite Hd.
  pose proof (filter_snd (λ r, create_record_key r = X)
                (drop_duplicates_last create_record_key l)) as Hf'.
  simpl in Hf'. rewrite <- Hf'.
  rewrite (drop_duplicates_last_filter create_record_key l X).
  assert (snd <$> last (filter (λ p, create_record_key p.2 = X) l)
          = Some (reindex (columns new_df) r_new)) as Hsnd.
  { pose proof (filter_snd (λ r, create_record_key r = X) l) as Hf.
    simpl in Hf. rewrite <- fmap_last, Hf, Hl.
    rewrite filter_app, last_app.
    rewrite !(filter_fmap_key _ create_record_key) by apply reindex_key.
    rewrite !fmap_last. fold (rows new_df). by rewrite Hlast. }
  clear Hd Hf'.
  destruct (last (filter (λ p, create_record_key p.2 = X) l)) as [p|];
    [| done].
  simpl in *. by injection Hsnd as ->.
Qed.
End merge.

(** C1, as the code has it: merging a new batch into a readable prior
    output leaves exactly one row for an identity the batch contains, and
    that row is the batch's last row with the identity, so it carries the
    annotation of that row whatever the prior output held; with no prior
    output the batch is returned as it is. *)
Theorem merge_last_write_wins (new_batch : DataFrame) (prior_output : Table)
    (X c : string) (v : Cell) (r_new : Row) :
  last (filter (λ r, create_record_key r = X) (rows new_batch)) = Some r_new →
  c ∈ columns new_batch →
  cell c r_new = v →
  (∃ r, filter (λ r, create_record_key r = X)
          (rows (merge_with_existing_results new_batch (Present prior_output)))
        = [r]
        ∧ cell c r = v)
  ∧ merge_with_existing_results new_batch Absent = new_batch.
Proof.
  intros Hlast Hc Hv. split; [| apply merge_absent].
  exists (reindex (columns new_batch) r_new). split.
  - by apply merge_present_filter.
  - by rewrite cell_reindex.
Qed.

Lemma merge_last_write_wins_witness :
  (∃ r, filter (λ r, create_record_key r = "t1|q1|a1")
          (rows (merge_with_existing_results Sample.new_batch
                   (Present Sample.prior_output)))
        = [r]
        ∧ cell "category" r = Some "new")
  ∧ merge_with_existing_results Sample.new_batch Absent = Sample.new_batch.
Proof.
  apply (merge_last_write_wins Sample.new_batch Sample.prior_output
           "t1|q1|a1" "category" (Some "new")
           (row_categorised "t1" "q1" "a1" "new")).
  - reflexivity.
  - apply list_elem_of_here.
  - reflexivity.
Defined.

(** C1 as stated fails when the batch holds the identity twice: the prior
    output has X with "old", the batch has X with "new", and the one row
    left for X carries "newer". *)
Lemma merge_last_write_wins_counterexample :
  row_categorised "t1" "q1" "a1" "old" ∈ records Sample.prior_output
  ∧ row_categorised "t1" "q1" "a1" "new" ∈ rows Sample.new_batch_twice
  ∧ filter (λ r, create_record_key r = "t1|q1|a1")
      (rows (merge_with_existing_results Sample.new_batch_twice
               (Present Sample.prior_output)))
    = [row_categorised "t1" "q1" "a1" "newer"]
  ∧ cell "category" (row_categorised "t1" "q1" "a1" "newer") ≠ Some "new".
Proof.
  split; [apply list_elem_of_here |]. split; [apply list_elem_of_here |].
  split; [reflexivity | discriminate].
Qed.

(** ** Unprocessed-record filter *)

Section filter.
Implicit Types (r : Row) (p : nat * Row) (df : DataFrame) (t : Table)
  (S : gset string).

Lemma foldl_add_keys S (l : list (nat * Row)) :
  foldl (λ (acc : gset string) p, acc ∪ {[ create_record_key p.2 ]}) S l
  = S ∪ list_to_set (create_record_key <$> l.*2).
Proof.
  revert S. induction l as [|p l IH]; intros S; simpl.
  - set_solver.
  - rewrite IH. set_solver.
Qed.

Lemma get_processed_records_present t :
  get_processed_records (Present t)
  = list_to_set (create_record_key <$> records t).
Proof.
  unfold get_processed_records; simpl. unfold iterrows; simpl.
  rewrite foldl_add_keys, range_index_snd, <- list_fmap_compose.
  rewrite union_empty_l_L. done.
Qed.

Lemma get_processed_records_absent : get_processed_records Absent = ∅.
Proof. done. Qed.

Lemma get_processed_records_unreadable t :
  get_processed_records (Unreadable t) = ∅.
Proof. done. Qed.

Lemma elem_of_processed t k :
  k ∈ get_processed_records (Present t) ↔ k ∈ create_record_key <$> records t.
Proof. rewrite get_processed_records_present. set_solver. Qed.

Lemma foldl_collect_indices (P : nat * Row → Prop) `{∀ p, Decision (P p)}
    (acc : list nat) (l : list (nat * Row)) :
  foldl (λ (acc : list nat) p, if decide (P p) then acc ++ [p.1] else acc) acc l
  = acc ++ (filter P l).*1.
Proof.
  revert acc. induction l as [|p l IH]; intros acc; simpl.
  - by rewrite app_nil_r.
  - rewrite IH. destruct (decide (P p)).
    + rewrite filter_cons_True by done. by rewrite fmap_cons, <- app_assoc.
    + by rewrite filter_cons_False.
Qed.

Lemma filter_key_fst_nil (i : nat) (d : list (nat * Row)) :
  i ∉ d.*1 → filter (λ q : nat * Row, q.1 = i) d = [].
Proof.
  intros Hnot. induction d as [|q d IH]; [done |].
  rewrite fmap_cons, not_elem_of_cons in Hnot. destruct Hnot as [Hq Hd].
  rewrite filter_cons_False; [by apply IH | by intros <-].
Qed.

(** With distinct labels, looking rows up by their own labels gives the
    rows back, in the order of the labels. *)
Lemma loc_own_labels df (l : list (nat * Row)) :
  NoDup (data df).*1 → l ⊆ data df →
  data (loc df l.*1) = l.
Proof.
  intros Hnd Hsub. unfold loc; simpl.
  induction l as [|p l IH]; [done |].
  rewrite fmap_cons, bind_cons, IH by set_solver.
  assert (p ∈ data df) as Hp by set_solver.
  assert (filter (λ q : nat * Row, q.1 = p.1) (data df) = [p]) as ->; [| done].
  clear IH Hsub. induction (data df) as [|q d IHd]; [by apply not_elem_of_nil in Hp |].
  rewrite fmap_cons in Hnd. apply NoDup_cons in Hnd as [Hq Hnd].
  apply elem_of_cons in Hp as [-> | Hp].
  - rewrite filter_cons_True by done. f_equal.
    apply filter_key_fst_nil. done.
  - rewrite filter_cons_False; [by apply IHd |].
    intros Heq. apply Hq. rewrite Heq. by apply list_elem_of_fmap_2.
Qed.

Lemma filter_all {A} (P : A → Prop) `{∀ x, Decision (P x)} (l : list A) :
  (∀ x, x ∈ l → P x) → filter P l = l.
Proof.
  induction l as [|x l IH]; intros HP; [done |].
  rewrite filter_cons_True by (apply HP; left). f_equal.
  apply IH. intros y Hy. apply HP. by right.
Qed.

Lemma filter_unprocessed_no_keys df output_file :
  get_processed_records output_file = ∅ →
  filter_unprocessed_records df output_file = df.
Proof. intros He. unfold filter_unprocessed_records. by rewrite decide_True. Qed.

Lemma filter_unprocessed_some_keys df output_file :
  NoDup (data df).*1 →
  get_processed_records output_file ≠ ∅ →
  filter_unprocessed_records df output_file
  = mkFrame (columns df)
      (filter (λ p, create_record_key p.2 ∉ get_processed_records output_file)
              (data df))
      (comment_dtype df).
Proof.
  intros Hnd Hne. unfold filter_unprocessed_records.
  rewrite decide_False by done. unfold iterrows.
  rewrite (foldl_collect_indices
             (λ p, create_record_key p.2 ∉ get_processed_records output_file)).
  simpl. unfold loc at 1. f_equal.
  apply (loc_own_labels df); [done |].
  intros p Hp. by apply list_elem_of_filter in Hp as [_ ?].
Qed.

(** In either case the filter keeps the rows whose key is not processed. *)
Lemma filter_unprocessed_data df output_file :
  NoDup (data df).*1 →
  filter_unprocessed_records df output_file
  = mkFrame (columns df)
      (filter (λ p, create_record_key p.2 ∉ get_processed_records output_file)
              (data df))
      (comment_dtype df).
Proof.
  intros Hnd.
  destruct (decide (get_processed_records output_file = ∅)) as [He | Hne].
  - rewrite filter_unprocessed_no_keys by done. rewrite He.
    rewrite filter_all by set_solver. by destruct df.
  - by apply filter_unprocessed_some_keys.
Qed.
End filter.

(** C2: against a readable prior output the filter returns the rows of
    the current dataset whose identity no row of the prior output has, in
    their order and under their labels; with the prior output missing or
    failing to read, it returns the whole current dataset. *)
Theorem filter_unprocessed_records_spec (current_dataset : DataFrame)
    (prior_output : Table) :
  NoDup (data current_dataset).*1 →
  filter_unprocessed_records current_dataset (Present prior_output)
  = mkFrame (columns current_dataset)
      (filter (λ p, create_record_key p.2
                      ∉ create_record_key <$> records prior_output)
              (data current_dataset))
      (comment_dtype current_dataset)
  ∧ filter_unprocessed_records current_dataset Absent = current_dataset
  ∧ ∀ t, filter_unprocessed_records current_dataset (Unreadable t)
         = current_dataset.
Proof.
  intros Hnd. split; [| split].
  - rewrite filter_unprocessed_data by done. f_equal.
    apply list_filter_iff. intros p. by rewrite elem_of_processed.
  - by apply filter_unprocessed_no_keys.
  - intros t. by apply filter_unprocessed_no_keys.
Qed.

Lemma filter_unprocessed_records_spec_witness :
  filter_unprocessed_records SampleBase.current_dataset
    (Present SampleBase.prior_output)
  = mkFrame (columns SampleBase.current_dataset)
      (filter (λ p, create_record_key p.2
                      ∉ create_record_key <$> records SampleBase.prior_output)
              (data SampleBase.current_dataset))
      (comment_dtype SampleBase.current_dataset)
  ∧ filter_unprocessed_records SampleBase.current_dataset Absent
    = SampleBase.current_dataset
  ∧ ∀ t, filter_unprocessed_records SampleBase.current_dataset (Unreadable t)
         = SampleBase.current_dataset.
Proof.
  apply (filter_unprocessed_records_spec SampleBase.current_dataset
           SampleBase.prior_output).
  apply (bool_decide_unpack _). vm_compute. reflexivity.
Defined.

(** The rows kept in the sample, with the labels they had. *)
Example filter_unprocessed_records_sample :
  data (filter_unprocessed_records SampleBase.current_dataset
          (Present SampleBase.prior_output))
  = [ (0, row_rated "t1" "What is FPS?" "a1" "THUMBS_DOWN" None);
      (2, row_rated "t3" "what is fps" "a3" "THUMBS_DOWN" (Some "Too vague")) ].
Proof. vm_compute. reflexivity. Qed.

(** ** Applying the results of a batch *)

Section updates.
Implicit Types (r : Row) (p q : nat * Row) (d : list (nat * Row)) (df : DataFrame).

Lemma at_set_update idx c v df :
  at_set idx c v df
  = mkFrame (columns df) (update_at idx (set_cell c v) (data df))
      (written c v (comment_dtype df)).
Proof. done. Qed.

Lemma update_at_absent idx f d : idx ∉ d.*1 → update_at idx f d = d.
Proof.
  intros Hnot. unfold update_at. induction d as [|p d IH]; [done |].
  rewrite fmap_cons, not_elem_of_cons in Hnot. destruct Hnot as [Hp Hd].
  rewrite fmap_cons, IH by done. by rewrite decide_False.
Qed.

Lemma update_at_app idx f d1 d2 :
  update_at idx f (d1 ++ d2) = update_at idx f d1 ++ update_at idx f d2.
Proof. apply fmap_app. Qed.

Lemma update_at_id idx d : update_at idx id d = d.
Proof.
  unfold update_at. induction d as [|[i r] d IH]; [done |].
  rewrite fmap_cons, IH. simpl. by case_decide.
Qed.

Lemma update_at_compose idx f g d :
  update_at idx f (update_at idx g d) = update_at idx (f ∘ g) d.
Proof.
  unfold update_at. rewrite <- list_fmap_compose. apply list_fmap_ext.
  intros _ [i r] _. unfold compose. simpl.
  destruct (decide (i = idx)); simpl; [by rewrite decide_True | by rewrite decide_False].
Qed.

(** Results applied one by one, each to the row of its own label: every
    row ends up rewritten by its own result and by nothing else. *)
Lemma foldl_own_updates {R} (step : DataFrame → R → DataFrame)
    (res : nat * Row → R) (G : nat * Row → Row → Row) (prep : Row → Row)
    (cols : list string) (dt : dtype) (ts pre : list (nat * Row)) :
  (∀ acc t, comment_dtype acc = dt →
            step acc (res t)
            = mkFrame (columns acc) (update_at t.1 (G t) (data acc)) dt) →
  NoDup ts.*1 →
  (∀ i, i ∈ pre.*1 → i ∉ ts.*1) →
  foldl step (mkFrame cols (pre ++ (prod_map id prep <$> ts)) dt) (res <$> ts)
  = mkFrame cols (pre ++ ((λ p, (p.1, G p (prep p.2))) <$> ts)) dt.
Proof.
  intros Hstep. revert pre. induction ts as [|t ts IH]; intros pre Hnd Hpre.
  - done.
  - rewrite !fmap_cons in *. apply NoDup_cons in Hnd as [Ht Hnd].
    simpl. rewrite Hstep by done. simpl.
    rewrite update_at_app, (update_at_absent _ _ pre).
    2:{ intros Hin. apply (Hpre _ Hin). left. }
    unfold update_at at 1. rewrite fmap_cons. simpl. rewrite decide_True by done.
    fold (update_at t.1 (G t) (prod_map id prep <$> ts)).
    rewrite update_at_absent.
    2:{ by rewrite <- list_fmap_compose. }
    rewrite (cons_middle _ pre), app_assoc, IH.
    + by rewrite <- app_assoc.
    + done.
    + intros i. rewrite fmap_app, elem_of_app. simpl. rewrite list_elem_of_singleton.
      intros [Hi | ->]; [| done].
      intros Hin. apply (Hpre _ Hi). by right.
Qed.

Lemma foldl_results {R} (step : DataFrame → R → DataFrame)
    (res : nat * Row → R) (G : nat * Row → Row → Row) (prep : Row → Row)
    (df0 df : DataFrame) :
  (∀ acc t, comment_dtype acc = comment_dtype df0 →
            step acc (res t)
            = mkFrame (columns acc) (update_at t.1 (G t) (data acc))
                (comment_dtype df0)) →
  NoDup (data df).*1 →
  data df0 = prod_map id prep <$> data df →
  foldl step df0 (res <$> data df)
  = mkFrame (columns df0) ((λ p, (p.1, G p (prep p.2))) <$> data df)
      (comment_dtype df0).
Proof.
  intros Hstep Hnd Hd. destruct df0 as [cols d0 dt]. simpl in *. subst d0.
  apply (foldl_own_updates step res G prep cols dt (data df) []); [done | done |].
  intros i Hi. by apply not_elem_of_nil in Hi.
Qed.
End updates.

(** ** The dispatchers in closed form *)

Section dispatch.
Context (self : FeedbackAnalyzer) (llm : Capability).
Implicit Types (r : Row) (p q : nat * Row) (df : DataFrame).

Lemma filter_none {A} (P : A → Prop) `{∀ x, Decision (P x)} (l : list A) :
  (∀ x, x ∈ l → ¬ P x) → filter P l = [].
Proof.
  induction l as [|x l IH]; intros HP; [done |].
  rewrite filter_cons_False by (apply HP; left).
  apply IH. intros y Hy. apply HP. by right.
Qed.

Lemma gather_ok {A} (k : nat) (tasks : list (nat * Coro A)) :
  0 < k →
  gather k llm tasks
  = Ok ((λ t : nat * Coro A, (run (llm t.1) t.2).1) <$> tasks,
        tasks ≫= λ t, pair t.1 <$> (run (llm t.1) t.2).2).
Proof.
  intros Hk. unfold gather. rewrite bool_decide_eq_false_2 by lia. done.
Qed.

Lemma with_column_data c v df :
  data (with_column c v df) = prod_map id (ensure_cell c v df) <$> data df.
Proof.
  unfold with_column, ensure_cell. destruct (has_column c df); simpl.
  - rewrite <- (list_fmap_id (data df)) at 1. apply list_fmap_ext.
    by intros _ [??] _.
  - done.
Qed.

Lemma with_column_dtype c v df :
  comment_dtype (with_column c v df)
  = if String.eqb c "feedback_comment" && negb (has_column c df)
    then (if is_str v then object else float64)
    else comment_dtype df.
Proof.
  unfold with_column, assign_scalar. destruct (has_column c df); cbn.
  - by rewrite andb_false_r.
  - by rewrite andb_true_r.
Qed.

Lemma with_column_dtype_other c v df :
  c ≠ "feedback_comment" → comment_dtype (with_column c v df) = comment_dtype df.
Proof.
  intros Hc. rewrite with_column_dtype.
  by destruct (String.eqb_spec c "feedback_comment").
Qed.

Lemma frame_eta df : mkFrame (columns df) (data df) (comment_dtype df) = df.
Proof. by destruct df. Qed.

Lemma with_column_labels c v df : (data (with_column c v df)).*1 = (data df).*1.
Proof.
  rewrite with_column_data, <- list_fmap_compose. apply list_fmap_ext.
  by intros _ [??] _.
Qed.

Lemma gather_log {A} (mk : nat * Row → Coro A)
    (calls : nat * Row → list Request) (d : list (nat * Row)) :
  (∀ p, (run (llm p.1) (mk p)).2 = calls p) →
  ((λ p, (p.1, mk p)) <$> d) ≫= (λ t, pair t.1 <$> (run (llm t.1) t.2).2)
  = d ≫= (λ p, pair p.1 <$> calls p).
Proof.
  intros Hc. induction d as [|p d IH]; [done |].
  rewrite fmap_cons, !bind_cons, IH. cbn [fst snd]. by rewrite Hc.
Qed.

Lemma bind_filter_calls (P : nat * Row → bool) (req : nat * Row → Request)
    (d : list (nat * Row)) :
  d ≫= (λ p, pair p.1 <$> (if P p then [req p] else []))
  = (λ p, (p.1, req p)) <$> filter (λ p, P p = true) d.
Proof.
  induction d as [|p d IH]; [done |].
  rewrite bind_cons, IH. destruct (P p) eqn:E.
  - by rewrite filter_cons_True.
  - rewrite filter_cons_False; [done | by rewrite E].
Qed.

(** *** Categories *)

Lemma run_process_single_category p :
  run (llm p.1) (process_single_category p.1 p.2)
  = (Some (p.1, (category_answer llm p).1, (category_answer llm p).2),
     [category_request p.2]).
Proof.
  unfold process_single_category, category_answer, category_request.
  simpl. destruct (llm p.1 _); done.
Qed.

Lemma add_categories_async_ok df mc :
  NoDup (data df).*1 →
  0 < resolve self mc →
  add_categories_async self llm df mc
  = Ok (mkFrame
          (columns (with_column "sub_category" (Some "")
                      (with_column "category" (Some "") df)))
          ((λ p, (p.1, category_effect llm p
                         (ensure_cell "sub_category" (Some "")
                            (with_column "category" (Some "") df)
                            (ensure_cell "category" (Some "") df p.2))))
             <$> data df)
          (comment_dtype df),
        category_calls df).
Proof.
  intros Hnd Hk. unfold add_categories_async.
  rewrite gather_ok by done. simpl.
  fold (with_column "category" (Some "") df).
  fold (with_column "sub_category" (Some "") (with_column "category" (Some "") df)).
  f_equal. f_equal.
  - unfold category_tasks, iterrows. rewrite <- list_fmap_compose.
    erewrite (list_fmap_ext _ (λ p, Some (p.1, (category_answer llm p).1,
                                         (category_answer llm p).2))).
    2:{ intros _ p _. unfold compose. cbn [fst snd].
        by rewrite run_process_single_category. }
    replace (comment_dtype df)
      with (comment_dtype (with_column "sub_category" (Some "")
                             (with_column "category" (Some "") df)))
      by (by rewrite !with_column_dtype_other).
    apply (foldl_results _ _ (category_effect llm)
             (λ r, ensure_cell "sub_category" (Some "")
                     (with_column "category" (Some "") df)
                     (ensure_cell "category" (Some "") df r))); [| done |].
    + intros acc t Hdt. unfold category_effect. cbv beta iota zeta.
      destruct (negb _ && negb _).
      * rewrite !at_set_update. cbn [columns data comment_dtype].
        rewrite update_at_compose. unfold written. cbn [String.eqb Ascii.eqb Bool.eqb andb].
        by rewrite Hdt.
      * fold (@id Row). rewrite update_at_id, <- Hdt. symmetry. apply frame_eta.
    + rewrite !with_column_data, <- list_fmap_compose.
      apply list_fmap_ext. by intros _ [??] _.
  - unfold category_tasks, category_calls, iterrows.
    rewrite (gather_log (λ p, process_single_category p.1 p.2)
               (λ p, [category_request p.2]))
      by (intros p; by rewrite run_process_single_category).
    rewrite (bind_filter_calls (λ _, true) (λ p, category_request p.2)).
    by rewrite filter_all.
Qed.

(** *** Comments *)

Lemma set_cell_same_comment r :
  set_cell "feedback_comment" (feedback_comment r) r = r.
Proof. by destruct r. Qed.

Lemma run_process_single_comment (has : bool) p :
  run (llm p.1) (process_single_comment has p.1 p.2)
  = if has then
      if needs_comment p.2
      then (Some (p.1, comment_answer llm p), [comment_request p.2])
      else (Some (p.1, PyCell (feedback_comment p.2)), [])
    else (None, []).
Proof.
  unfold process_single_comment, needs_comment, comment_of, comment_answer,
    comment_request.
  destruct has; case_bool_decide; simpl; try done.
  destruct (is_blank _); simpl; [| done].
  by destruct (llm p.1 _).
Qed.

Lemma comment_effect_idle df p :
  needs_comment p.2 = false →
  comment_effect llm df p (ensure_cell "feedback_comment" (Some "") df p.2)
  = ensure_cell "feedback_comment" (Some "") df p.2.
Proof.
  intros Hn. unfold comment_effect, ensure_cell.
  destruct (has_column _ df); [| done]. rewrite Hn.
  destruct (truthy _); [apply set_cell_same_comment | done].
Qed.

Lemma needs_comment_spec r :
  needs_comment r = true
  ↔ feedback_rating r = "THUMBS_DOWN" ∧ is_blank (feedback_comment r) = true.
Proof.
  unfold needs_comment. rewrite andb_true_iff, bool_decide_eq_true. done.
Qed.

Lemma written_object c v : written c v object = object.
Proof. unfold written. by destruct (_ && _). Qed.

Lemma with_comment_dtype df :
  (has_column "feedback_comment" df = true → comment_dtype df = object) →
  comment_dtype (with_column "feedback_comment" (Some "") df) = object.
Proof.
  intros Hdt. rewrite with_column_dtype.
  destruct (has_column "feedback_comment" df); [by apply Hdt | done].
Qed.

Lemma has_comment_with_column df :
  has_column "feedback_comment" (with_column "feedback_comment" (Some "") df)
  = true.
Proof.
  unfold with_column, assign_scalar.
  destruct (has_column "feedback_comment" df) eqn:Hhas; [done |].
  unfold has_column. cbn [columns]. apply bool_decide_eq_true.
  apply elem_of_app. right. by apply list_elem_of_singleton.
Qed.

Lemma identify_thumbs_down_empty_feedback_ok df :
  has_column "feedback_comment" df = true →
  comment_dtype df = object →
  identify_thumbs_down_empty_feedback df
  = Ok (mkFrame (columns df)
          (filter (λ p : nat * Row,
                     feedback_rating p.2 = "THUMBS_DOWN"
                     ∧ is_blank (feedback_comment p.2) = true)
                  (data df))
          object).
Proof.
  intros Hhas Hdt. unfold identify_thumbs_down_empty_feedback.
  by rewrite Hhas, Hdt.
Qed.

Lemma identify_thumbs_down_empty_feedback_raises df :
  has_column "feedback_comment" df = false ∨ comment_dtype df = float64 →
  identify_thumbs_down_empty_feedback df = Raise OtherException.
Proof.
  unfold identify_thumbs_down_empty_feedback.
  intros [-> | ->]; [done |]. by rewrite andb_false_r.
Qed.

Lemma add_comments_async_raises df mc :
  has_column "feedback_comment" df = true →
  comment_dtype df = float64 →
  add_comments_async self llm df mc = Raise OtherException.
Proof.
  intros Hhas Hdt. unfold add_comments_async. rewrite Hhas.
  rewrite identify_thumbs_down_empty_feedback_raises; [done | by right].
Qed.

Lemma add_comments_async_ok df mc :
  NoDup (data df).*1 →
  0 < resolve self mc →
  (has_column "feedback_comment" df = true → comment_dtype df = object) →
  add_comments_async self llm df mc
  = Ok (mkFrame
          (columns (with_column "feedback_comment" (Some "") df))
          ((λ p, (p.1, comment_effect llm df p
                         (ensure_cell "feedback_comment" (Some "") df p.2)))
             <$> data df)
          object,
        comment_calls df).
Proof.
  intros Hnd Hk Hdt. unfold add_comments_async.
  fold (with_column "feedback_comment" (Some "") df).
  pose proof (with_comment_dtype df Hdt) as Hobj.
  rewrite identify_thumbs_down_empty_feedback_ok
    by (done || apply has_comment_with_column).
  cbn [mbind Outcome_bind].
  destruct (empty _) eqn:Hempty.
  - (* nothing to generate *)
    unfold empty in Hempty.
    cbn [data] in Hempty.
    destruct (filter _ _) eqn:Hf in Hempty; [clear Hempty | done].
    rewrite with_column_data in Hf.
    assert (∀ p, p ∈ data df → has_column "feedback_comment" df = true →
                 needs_comment p.2 = false) as Hidle.
    { intros [i r] Hp Hhas. apply not_true_is_false.
      intros [Hr Hb]%needs_comment_spec.
      refine (filter_nil_not_elem_of _ _ (i, r) Hf _ _); [done |].
      unfold ensure_cell. rewrite Hhas.
      apply list_elem_of_fmap. by exists (i, r). }
    f_equal. f_equal.
    + rewrite <- (frame_eta (with_column _ _ df)), Hobj. cbn [columns].
      f_equal.
      rewrite with_column_data. apply list_fmap_ext.
      intros _ [i r] Hp%list_elem_of_lookup_2. cbn [prod_map fst snd id].
      destruct (has_column "feedback_comment" df) eqn:Hhas.
      * rewrite <- (comment_effect_idle df (i, r)) at 1;
          [done | by apply Hidle].
      * unfold comment_effect. by rewrite Hhas.
    + unfold comment_calls.
      destruct (has_column "feedback_comment" df) eqn:Hhas; [| done].
      rewrite filter_none; [done |].
      intros p Hp. rewrite Hidle by done. done.
  - rewrite gather_ok by done. simpl. f_equal. f_equal.
    + unfold comment_tasks, iterrows. rewrite <- list_fmap_compose.
      etrans; [| by rewrite <- Hobj].
      apply (foldl_results _ _ (comment_effect llm df)
               (ensure_cell "feedback_comment" (Some "") df)); [| done |].
      * intros acc t Hacc. rewrite Hobj in Hacc |- *.
        unfold compose. cbn [fst snd].
        rewrite run_process_single_comment. unfold comment_effect.
        destruct (has_column "feedback_comment" df).
        -- destruct (needs_comment t.2); cbn [fst];
             (destruct (truthy _);
              [by rewrite at_set_update, Hacc, written_object |]);
             fold (@id Row); rewrite update_at_id, <- Hacc; symmetry;
             apply frame_eta.
        -- cbn [fst]. fold (@id Row). rewrite update_at_id, <- Hacc.
           symmetry. apply frame_eta.
      * by rewrite with_column_data.
    + unfold comment_tasks, comment_calls, iterrows.
      rewrite (gather_log
                 (λ p, process_single_comment
                         (has_column "feedback_comment" df) p.1 p.2)
                 (λ p, if has_column "feedback_comment" df && needs_comment p.2
                       then [comment_request p.2] else [])).
      2:{ intros p. rewrite run_process_single_comment.
          destruct (has_column _ df); [| done]. by destruct (needs_comment p.2). }
      rewrite (bind_filter_calls
                 (λ p, has_column "feedback_comment" df && needs_comment p.2)
                 (λ p, comment_request p.2)).
      destruct (has_column "feedback_comment" df); [done |].
      by rewrite filter_none.
Qed.

(** *** Comment categories *)

Lemma is_blank_text text :
  String.eqb text "" || String.eqb (PyStr.strip text) "" = is_blank (Some text).
Proof. destruct text; done. Qed.

Lemma run_process_single_comment_category (has : bool) p :
  run (llm p.1) (process_single_comment_category has p.1 p.2)
  = (Some (p.1, comment_category_answer llm has p),
     if needs_comment_category has p.2
     then [CategorizeComment (default "" (feedback_comment p.2))] else []).
Proof.
  unfold process_single_comment_category, comment_category_answer,
    needs_comment_category, comment_of.
  destruct (decide (feedback_rating p.2 = "THUMBS_DOWN")) as [Hr | Hr].
  - rewrite (bool_decide_eq_false_2 (_ ≠ _)) by naive_solver.
    rewrite (bool_decide_eq_true_2 (_ = _)) by done.
    destruct has; cbn -[is_blank PyStr.strip]; [| done].
    destruct (feedback_comment p.2) as [text|]; cbn -[is_blank PyStr.strip];
      [| done].
    rewrite is_blank_text.
    destruct (is_blank (Some text)); cbn -[is_blank PyStr.strip]; [done |].
    by destruct (llm p.1 _).
  - rewrite (bool_decide_eq_true_2 (_ ≠ _)) by done.
    rewrite (bool_decide_eq_false_2 (_ = _)) by done. done.
Qed.

Lemma add_feedback_comment_categories_async_ok df mc :
  NoDup (data df).*1 →
  0 < resolve self mc →
  let result_df := with_column "feedback_comment_category" (Some "") df in
  add_feedback_comment_categories_async self llm df mc
  = Ok (mkFrame (columns result_df)
          ((λ p, (p.1, comment_category_effect llm
                         (has_column "feedback_comment" result_df) p p.2))
             <$> data result_df)
          (comment_dtype df),
        comment_category_calls result_df).
Proof.
  intros Hnd Hk result_df. unfold add_feedback_comment_categories_async.
  fold (with_column "feedback_comment_category" (Some "") df).
  fold result_df.
  rewrite gather_ok by done. simpl. f_equal. f_equal.
  - unfold comment_category_tasks, iterrows. rewrite <- list_fmap_compose.
    replace (comment_dtype df) with (comment_dtype result_df)
      by (by apply with_column_dtype_other).
    apply (foldl_results _ _
             (comment_category_effect llm
                (has_column "feedback_comment" result_df)) id).
    + intros acc t Hacc. unfold compose. cbn [fst snd].
      rewrite run_process_single_comment_category. cbn [fst].
      unfold comment_category_effect. cbv zeta.
      destruct (negb _).
      * rewrite at_set_update. unfold written.
        cbn [String.eqb Ascii.eqb Bool.eqb andb]. by rewrite Hacc.
      * fold (@id Row). rewrite update_at_id, <- Hacc. symmetry.
        apply frame_eta.
    + unfold result_df. by rewrite with_column_labels.
    + rewrite <- (list_fmap_id (data result_df)) at 1.
      apply list_fmap_ext. by intros _ [??] _.
  - unfold comment_category_tasks, comment_category_calls, iterrows.
    rewrite (gather_log
               (λ p, process_single_comment_category
                       (has_column "feedback_comment" result_df) p.1 p.2)
               (λ p, if needs_comment_category
                          (has_column "feedback_comment" result_df) p.2
                     then [CategorizeComment (default "" (feedback_comment p.2))]
                     else []))
      by (intros p; by rewrite run_process_single_comment_category).
    by rewrite (bind_filter_calls
               (λ p, needs_comment_category
                       (has_column "feedback_comment" result_df) p.2)
               (λ p, CategorizeComment (default "" (feedback_comment p.2)))).
Qed.
End dispatch.

(** ** Partial-failure isolation *)

Section isolation.
Context (self : FeedbackAnalyzer) (llm : Capability) (mc : option nat)
  (df : DataFrame) (j : nat) (expected expected_sub : nat → string).
Hypothesis labels_distinct : NoDup (data df).*1.
Hypothesis permits_positive : 0 < resolve self mc.
Implicit Types (p q : nat * Row).

Lemma Forall2_map_self {A B} (P : A → B → Prop) (f : A → B) (l : list A) :
  (∀ x, x ∈ l → P x (f x)) → Forall2 P l (f <$> l).
Proof.
  intros HP. apply Forall2_fmap_r, Forall_Forall2_diag, Forall_forall. done.
Qed.

Lemma non_empty_eqb (s : string) : s ≠ "" → negb (String.eqb s "") = true.
Proof. intros Hs. by destruct (String.eqb_spec s ""). Qed.

(** When the rows marked by [D] are those made from the source row
    labelled [j], and one source row is, exactly one row is marked. *)
Lemma count_none (D : nat * Row → Prop) `{∀ q, Decision (D q)}
    (f : nat * Row → nat * Row) (d : list (nat * Row)) :
  j ∉ d.*1 → (∀ p, p ∈ d → D (f p) ↔ p.1 = j) → filter D (f <$> d) = [].
Proof.
  intros Hj HD. apply filter_none.
  intros q (p & -> & Hp)%list_elem_of_fmap HDq.
  apply Hj. apply HD in HDq; [| done]. rewrite <- HDq.
  by apply list_elem_of_fmap_2.
Qed.

Lemma count_single (D : nat * Row → Prop) `{∀ q, Decision (D q)}
    (f : nat * Row → nat * Row) (d : list (nat * Row)) :
  NoDup d.*1 → j ∈ d.*1 → (∀ p, p ∈ d → D (f p) ↔ p.1 = j) →
  length (filter D (f <$> d)) = 1.
Proof.
  intros Hnd Hj HD. induction d as [|p d IH]; [by apply not_elem_of_nil in Hj |].
  rewrite fmap_cons in *. apply NoDup_cons in Hnd as [Hp Hnd].
  destruct (decide (p.1 = j)) as [Hpj | Hpj].
  - rewrite filter_cons_True by (apply HD; [left | done]).
    rewrite count_none; [done | by rewrite <- Hpj |].
    intros p' Hp'. apply HD. by right.
  - rewrite filter_cons_False by (rewrite HD; [done | left]).
    apply IH; [done | |].
    + apply elem_of_cons in Hj as [? | ?]; [congruence | done].
    + intros p' Hp'. apply HD. by right.
Qed.

Lemma category_isolation :
  (∀ p, p ∈ data df → p.1 ≠ j →
        answers llm p (category_request p.2) "category" (expected p.1)
        ∧ answers llm p (category_request p.2) "sub_category" (expected_sub p.1)) →
  (∀ p, p ∈ data df → p.1 = j → llm p.1 (category_request p.2) = Failure) →
  ∃ out log,
    add_categories_async self llm df mc = Ok (out, log)
    ∧ Forall2 (λ p q,
                 q.1 = p.1
                 ∧ (category q.2, sub_category q.2)
                   = if decide (p.1 = j)
                     then (Some "other", Some "General")
                     else (Some (expected p.1), Some (expected_sub p.1)))
              (data df) (data out)
    ∧ (j ∈ (data df).*1 →
       (∀ p, p ∈ data df → p.1 ≠ j →
             (expected p.1, expected_sub p.1) ≠ ("other", "General")) →
       length (filter (λ q, (category q.2, sub_category q.2)
                            = (Some "other", Some "General"))
                      (data out)) = 1).
Proof.
  intros Hok Hfail.
  assert (∀ p, p ∈ data df →
            let q := category_effect llm p
                       (ensure_cell "sub_category" (Some "")
                          (with_column "category" (Some "") df)
                          (ensure_cell "category" (Some "") df p.2)) in
            (category q, sub_category q)
            = if decide (p.1 = j)
              then (Some "other", Some "General")
              else (Some (expected p.1), Some (expected_sub p.1))) as Hrow.
  { intros p Hp. unfold category_effect, category_answer.
    destruct (decide (p.1 = j)) as [Hj | Hj].
    - by rewrite (Hfail p Hp Hj).
    - destruct (Hok p Hp Hj) as [(o & Ho & Hc & Hcne) (o' & Ho' & Hs & Hsne)].
      rewrite Ho in Ho'. injection Ho' as <-. rewrite Ho.
      unfold get. rewrite Hc, Hs. cbn [default fst snd].
      by rewrite !non_empty_eqb. }
  eexists _, _. split; [by apply add_categories_async_ok |].
  cbn [data]. split.
  - apply Forall2_map_self. intros p Hp. split; [done |]. by apply Hrow.
  - intros Hj Hexp. apply count_single; [done | done |].
    intros p Hp. cbn [snd]. rewrite (Hrow p Hp).
    destruct (decide (p.1 = j)) as [Hpj | Hpj]; [done |].
    split; [| done]. intros [= Hc Hs]. destruct (Hexp p Hp Hpj). congruence.
Qed.

Lemma needs_comment_blank r :
  needs_comment r = true → is_blank (feedback_comment r) = true.
Proof. unfold needs_comment. by intros [_ ?]%andb_true_iff. Qed.

Lemma comment_isolation :
  "feedback_comment" ∈ columns df →
  comment_dtype df = object →
  (∀ p, p ∈ data df → needs_comment p.2 = true → p.1 ≠ j →
        answers llm p (comment_request p.2) "comment" (expected p.1)) →
  (∀ p, p ∈ data df → needs_comment p.2 = true → p.1 = j →
        llm p.1 (comment_request p.2) = Failure) →
  ∃ out log,
    add_comments_async self llm df mc = Ok (out, log)
    ∧ Forall2 (λ p q,
                 q.1 = p.1
                 ∧ feedback_comment q.2
                   = if needs_comment p.2 && negb (bool_decide (p.1 = j))
                     then Some (expected p.1)
                     else feedback_comment p.2)
              (data df) (data out)
    ∧ (j ∈ (data df).*1 →
       (∀ p, p ∈ data df →
             needs_comment p.2 = true ∧ is_blank (Some (expected p.1)) = false) →
       length (filter (λ q, is_blank (feedback_comment q.2) = true) (data out))
       = 1).
Proof.
  intros Hcol Hobj Hok Hfail.
  assert (∀ p, p ∈ data df →
            feedback_comment
              (comment_effect llm df p
                 (ensure_cell "feedback_comment" (Some "") df p.2))
            = if needs_comment p.2 && negb (bool_decide (p.1 = j))
              then Some (expected p.1)
              else feedback_comment p.2) as Hrow.
  { intros p Hp. unfold comment_effect, ensure_cell, has_column.
    rewrite bool_decide_eq_true_2 by done.
    destruct (needs_comment p.2) eqn:Hn; cbn [andb].
    - case_bool_decide as Hj; cbn [negb].
      + unfold comment_answer. by rewrite (Hfail p Hp Hn Hj).
      + destruct (Hok p Hp Hn Hj) as (o & Ho & Hc & Hcne).
        unfold comment_answer, get. rewrite Ho, Hc. cbn [default truthy cell_of].
        by rewrite non_empty_eqb.
    - destruct (truthy _); [by rewrite set_cell_same_comment | done]. }
  eexists _, _. split; [by apply add_comments_async_ok |].
  cbn [data]. split.
  - apply Forall2_map_self. intros p Hp. split; [done |]. by apply Hrow.
  - intros Hj Hall. apply count_single; [done | done |].
    intros p Hp. cbn [snd]. rewrite (Hrow p Hp).
    destruct (Hall p Hp) as [Hn Hexp]. rewrite Hn. cbn [andb].
    case_bool_decide as Hpj; cbn [negb].
    + split; [done |]. intros _. by apply needs_comment_blank.
    + rewrite Hexp. done.
Qed.

Lemma comment_category_isolation :
  "feedback_comment" ∈ columns df →
  "feedback_comment_category" ∉ columns df →
  (∀ p, p ∈ data df → needs_comment_category true p.2 = true → p.1 ≠ j →
        answers llm p (CategorizeComment (default "" (feedback_comment p.2)))
          "feedback_comment_category" (expected p.1)) →
  (∀ p, p ∈ data df → needs_comment_category true p.2 = true → p.1 = j →
        llm p.1 (CategorizeComment (default "" (feedback_comment p.2)))
        = Failure) →
  ∃ out log,
    add_feedback_comment_categories_async self llm df mc = Ok (out, log)
    ∧ Forall2 (λ p q,
                 q.1 = p.1
                 ∧ feedback_comment_category q.2
                   = if needs_comment_category true p.2
                        && negb (bool_decide (p.1 = j))
                     then Some (expected p.1)
                     else Some "")
              (data df) (data out)
    ∧ (j ∈ (data df).*1 →
       (∀ p, p ∈ data df → needs_comment_category true p.2 = true) →
       length (filter (λ q, feedback_comment_category q.2 = Some "") (data out))
       = 1).
Proof.
  intros Hcol Hnew Hok Hfail.
  set (result_df := with_column "feedback_comment_category" (Some "") df).
  assert (has_column "feedback_comment" result_df = true) as Hhas.
  { unfold result_df, with_column, has_column.
    rewrite (bool_decide_eq_false_2 (_ ∈ columns df)) by done.
    cbn [assign_scalar columns]. unfold has_column.
    rewrite (bool_decide_eq_false_2 (_ ∈ columns df)) by done.
    apply bool_decide_eq_true_2. set_solver. }
  assert (∀ i r, (i, r) ∈ data df →
            feedback_comment_category
              (comment_category_effect llm true
                 (i, set_cell "feedback_comment_category" (Some "") r)
                 (set_cell "feedback_comment_category" (Some "") r))
            = if needs_comment_category true r && negb (bool_decide (i = j))
              then Some (expected i)
              else Some "") as Hrow.
  { intros i r Hp.
    unfold comment_category_effect, comment_category_answer. cbv zeta.
    cbn [fst snd].
    change (needs_comment_category true
              (set_cell "feedback_comment_category" (Some "") r))
      with (needs_comment_category true r).
    change (feedback_comment (set_cell "feedback_comment_category" (Some "") r))
      with (feedback_comment r).
    destruct (needs_comment_category true r) eqn:Hn; cbn [andb]; [| done].
    case_bool_decide as Hj; cbn [negb].
    - pose proof (Hfail (i, r) Hp Hn Hj) as Hf. cbn [fst snd] in Hf.
      by rewrite Hf.
    - destruct (Hok (i, r) Hp Hn Hj) as (o & Ho & Hc & Hcne).
      cbn [fst snd] in Ho. unfold get. rewrite Ho, Hc. cbn [default].
      by rewrite non_empty_eqb. }
  assert (data result_df
          = prod_map id (set_cell "feedback_comment_category" (Some ""))
              <$> data df) as Hdata.
  { unfold result_df. rewrite with_column_data. unfold ensure_cell, has_column.
    by rewrite (bool_decide_eq_false_2 (_ ∈ columns df)) by done. }
  eexists _, _.
  split; [by apply add_feedback_comment_categories_async_ok |].
  cbn [data]. fold result_df. rewrite Hhas, Hdata, <- list_fmap_compose.
  split.
  - apply Forall2_map_self. intros [i r] Hp. split; [done |].
    unfold compose. cbn [prod_map fst snd id]. by apply Hrow.
  - intros Hj Hall. apply count_single; [done | done |].
    intros [i r] Hp. unfold compose. cbn [prod_map fst snd id].
    pose proof (Hall (i, r) Hp) as Hn. cbn [snd] in Hn.
    rewrite (Hrow i r Hp), Hn. cbn [andb].
    case_bool_decide as Hpj; cbn [negb]; [done |].
    destruct (Hok (i, r) Hp (Hall (i, r) Hp) Hpj) as (o & _ & _ & Hne).
    cbn [fst] in Hne. split; [| done]. intros [= He]. done.
Qed.
End isolation.

Lemma Forall2_labels (R : nat * Row → nat * Row → Prop) (d out : list (nat * Row)) :
  Forall2 (λ p q, q.1 = p.1 ∧ R p q) d out → out.*1 = d.*1.
Proof.
  induction 1 as [|p q d out [Hl _] _ IH]; [done |].
  by rewrite !fmap_cons, Hl, IH.
Qed.

(** C5: in a batch where the call of one record (label [j]) fails and
    every other call is answered, each dispatcher returns, with one result
    row per record under the same labels; every other record carries the
    annotation of its own answer, and the record [j] carries the default:
    "other"/"General" for categories, its blank comment for comments, the
    empty text for comment categories.  When every record of the batch is
    sent to the capability, exactly one row carries the default.  For
    comments the batch has its comment column with the [object] dtype:
    with a [float64] column the dispatcher raises before it creates any
    task, so no call can fail there. *)
Theorem partial_failure_isolation (self : FeedbackAnalyzer) (llm : Capability)
    (mc : option nat) (df : DataFrame) (j : nat)
    (expected_category expected_sub_category expected_comment
       expected_comment_category : nat → string) :
  NoDup (data df).*1 →
  0 < resolve self mc →
  ((∀ p, p ∈ data df → p.1 ≠ j →
         answers llm p (category_request p.2) "category" (expected_category p.1)
         ∧ answers llm p (category_request p.2) "sub_category"
             (expected_sub_category p.1)) →
   (∀ p, p ∈ data df → p.1 = j → llm p.1 (category_request p.2) = Failure) →
   ∃ out log,
     add_categories_async self llm df mc = Ok (out, log)
     ∧ Forall2 (λ p q,
                  q.1 = p.1
                  ∧ (category q.2, sub_category q.2)
                    = if decide (p.1 = j)
                      then (Some "other", Some "General")
                      else (Some (expected_category p.1),
                            Some (expected_sub_category p.1)))
               (data df) (data out)
     ∧ (j ∈ (data df).*1 →
        (∀ p, p ∈ data df → p.1 ≠ j →
              (expected_category p.1, expected_sub_category p.1)
              ≠ ("other", "General")) →
        length (filter (λ q, (category q.2, sub_category q.2)
                             = (Some "other", Some "General"))
                       (data out)) = 1))
  ∧ ("feedback_comment" ∈ columns df →
     comment_dtype df = object →
     (∀ p, p ∈ data df → needs_comment p.2 = true → p.1 ≠ j →
           answers llm p (comment_request p.2) "comment" (expected_comment p.1)) →
     (∀ p, p ∈ data df → needs_comment p.2 = true → p.1 = j →
           llm p.1 (comment_request p.2) = Failure) →
     ∃ out log,
       add_comments_async self llm df mc = Ok (out, log)
       ∧ Forall2 (λ p q,
                    q.1 = p.1
                    ∧ feedback_comment q.2
                      = if needs_comment p.2 && negb (bool_decide (p.1 = j))
                        then Some (expected_comment p.1)
                        else feedback_comment p.2)
                 (data df) (data out)
       ∧ (j ∈ (data df).*1 →
          (∀ p, p ∈ data df →
                needs_comment p.2 = true
                ∧ is_blank (Some (expected_comment p.1)) = false) →
          length (filter (λ q, is_blank (feedback_comment q.2) = true)
                         (data out)) = 1))
  ∧ ("feedback_comment" ∈ columns df →
     "feedback_comment_category" ∉ columns df →
     (∀ p, p ∈ data df → needs_comment_category true p.2 = true → p.1 ≠ j →
           answers llm p (CategorizeComment (default "" (feedback_comment p.2)))
             "feedback_comment_category" (expected_comment_category p.1)) →
     (∀ p, p ∈ data df → needs_comment_category true p.2 = true → p.1 = j →
           llm p.1 (CategorizeComment (default "" (feedback_comment p.2)))
           = Failure) →
     ∃ out log,
       add_feedback_comment_categories_async self llm df mc = Ok (out, log)
       ∧ Forall2 (λ p q,
                    q.1 = p.1
                    ∧ feedback_comment_category q.2
                      = if needs_comment_category true p.2
                           && negb (bool_decide (p.1 = j))
                        then Some (expected_comment_category p.1)
                        else Some "")
                 (data df) (data out)
       ∧ (j ∈ (data df).*1 →
          (∀ p, p ∈ data df → needs_comment_category true p.2 = true) →
          length (filter (λ q, feedback_comment_category q.2 = Some "")
                         (data out)) = 1)).
Proof.
  intros Hnd Hk. split; [| split].
  - by apply category_isolation.
  - by apply comment_isolation.
  - by apply comment_category_isolation.
Qed.

Ltac each_row H :=
  repeat (apply elem_of_cons in H as [-> | H]);
  [.. | by apply not_elem_of_nil in H].

Ltac answered :=
  eexists; split; [reflexivity | split; [vm_compute; reflexivity | discriminate]].

Lemma partial_failure_isolation_witness :
  (∃ out log,
     add_categories_async SampleBatch.self SampleBatch.llm
       SampleBatch.uncommented None = Ok (out, log)
     ∧ (data out).*1 = [0; 1; 4]
     ∧ length (filter (λ q, (category q.2, sub_category q.2)
                            = (Some "other", Some "General"))
                      (data out)) = 1)
  ∧ (∃ out log,
       add_comments_async SampleBatch.self SampleBatch.llm
         SampleBatch.uncommented None = Ok (out, log)
       ∧ (data out).*1 = [0; 1; 4]
       ∧ length (filter (λ q, is_blank (feedback_comment q.2) = true)
                        (data out)) = 1)
  ∧ (∃ out log,
       add_feedback_comment_categories_async SampleBatch.self SampleBatch.llm
         SampleBatch.commented (Some 20) = Ok (out, log)
       ∧ (data out).*1 = [0; 1; 4]
       ∧ length (filter (λ q, feedback_comment_category q.2 = Some "")
                        (data out)) = 1).
Proof.
  assert (NoDup [0; 1; 4]) as Hnd
    by (apply (bool_decide_unpack _); vm_compute; reflexivity).
  split; [| split].
  - destruct (partial_failure_isolation SampleBatch.self SampleBatch.llm None
                SampleBatch.uncommented 1
                (λ _, "Loans") (λ _, "Personal Tax Loan") (λ _, "") (λ _, ""))
      as ((out & log & Hrun & Hrows & Hcount) & _ & _); [exact Hnd | simpl; lia | | |].
    + intros p Hp Hj. simpl in Hp. each_row Hp; try done; split; answered.
    + intros p Hp Hj. simpl in Hp. each_row Hp; done.
    + exists out, log. split; [exact Hrun |]. split.
      * by rewrite (Forall2_labels _ _ _ Hrows).
      * apply Hcount; [simpl; set_solver |].
        intros p Hp Hj. discriminate.
  - destruct (partial_failure_isolation SampleBatch.self SampleBatch.llm None
                SampleBatch.uncommented 1
                (λ _, "") (λ _, "") (λ _, "The answer ignores my question")
                (λ _, ""))
      as (_ & Hcomments & _); [exact Hnd | simpl; lia |].
    destruct Hcomments as (out & log & Hrun & Hrows & Hcount).
    + apply list_elem_of_here.
    + reflexivity.
    + intros p Hp Hn Hj. simpl in Hp. each_row Hp; try done; answered.
    + intros p Hp Hn Hj. simpl in Hp. each_row Hp; done.
    + exists out, log. split; [exact Hrun |]. split.
      * by rewrite (Forall2_labels _ _ _ Hrows).
      * apply Hcount; [simpl; set_solver |].
        intros p Hp. simpl in Hp. each_row Hp; split; reflexivity.
  - destruct (partial_failure_isolation SampleBatch.self SampleBatch.llm (Some 20)
                SampleBatch.commented 1
                (λ _, "") (λ _, "") (λ _, "") (λ _, "Irrelevant Answer"))
      as (_ & _ & Hcc); [exact Hnd | simpl; lia |].
    destruct Hcc as (out & log & Hrun & Hrows & Hcount).
    + apply list_elem_of_here.
    + simpl. set_solver.
    + intros p Hp Hn Hj. simpl in Hp. each_row Hp; try done; answered.
    + intros p Hp Hn Hj. simpl in Hp. each_row Hp; done.
    + exists out, log. split; [exact Hrun |]. split.
      * by rewrite (Forall2_labels _ _ _ Hrows).
      * apply Hcount; [simpl; set_solver |].
        intros p Hp. simpl in Hp. each_row Hp; reflexivity.
Defined.

(** ** Predicate gating *)

Section labels.

Lemma same_label_same_row (d : list (nat * Row)) (x y : nat * Row) :
  NoDup d.*1 → x ∈ d → y ∈ d → x.1 = y.1 → x = y.
Proof.
  intros Hnd Hx Hy Heq. induction d as [|z d IH]; [by apply not_elem_of_nil in Hx |].
  rewrite fmap_cons in Hnd. apply NoDup_cons in Hnd as [Hz Hnd].
  apply elem_of_cons in Hx as [-> | Hx]; apply elem_of_cons in Hy as [-> | Hy].
  - done.
  - destruct Hz. rewrite Heq. by apply list_elem_of_fmap_2.
  - destruct Hz. rewrite <- Heq. by apply list_elem_of_fmap_2.
  - by apply IH.
Qed.

(** The row of a label in a frame obtained row by row. *)
Lemma filter_label_map (f : nat * Row → Row) (d : list (nat * Row))
    (x : nat * Row) :
  NoDup d.*1 → x ∈ d →
  filter (λ q : nat * Row, q.1 = x.1) ((λ y, (y.1, f y)) <$> d) = [(x.1, f x)].
Proof.
  intros Hnd Hx. induction d as [|z d IH]; [by apply not_elem_of_nil in Hx |].
  rewrite fmap_cons in *. apply NoDup_cons in Hnd as [Hz Hnd].
  destruct (decide (z.1 = x.1)) as [Hzx | Hzx].
  - rewrite filter_cons_True by done.
    assert (x = z) as ->.
    { apply elem_of_cons in Hx as [-> | Hx]; [done |].
      destruct Hz. rewrite Hzx. by apply list_elem_of_fmap_2. }
    f_equal. apply filter_none. intros q (y & -> & Hy)%list_elem_of_fmap Hq.
    apply Hz. cbn [fst] in Hq. rewrite <- Hq. by apply list_elem_of_fmap_2.
  - rewrite filter_cons_False by done. apply IH; [done |].
    apply elem_of_cons in Hx as [-> | Hx]; [done | done].
Qed.
End labels.

Section gating.
Context (self : FeedbackAnalyzer) (llm : Capability) (mc : option nat)
  (df : DataFrame) (p : nat * Row).
Hypothesis labels_distinct : NoDup (data df).*1.
Hypothesis permits_positive : 0 < resolve self mc.
Hypothesis in_batch : p ∈ data df.
Hypothesis thumbs_up : feedback_rating p.2 = "THUMBS_UP".

Lemma thumbs_up_no_comment : needs_comment p.2 = false.
Proof.
  unfold needs_comment. rewrite thumbs_up.
  by rewrite bool_decide_eq_false_2 by discriminate.
Qed.

Lemma thumbs_up_no_comment_category has : needs_comment_category has p.2 = false.
Proof.
  unfold needs_comment_category. rewrite thumbs_up.
  by rewrite bool_decide_eq_false_2 by discriminate.
Qed.

Lemma comment_gating :
  (has_column "feedback_comment" df = true → comment_dtype df = object) →
  ∃ out log,
    add_comments_async self llm df mc = Ok (out, log)
    ∧ (∀ req, (p.1, req) ∉ log)
    ∧ filter (λ q : nat * Row, q.1 = p.1) (data out)
      = [(p.1, ensure_cell "feedback_comment" (Some "") df p.2)].
Proof.
  intros Hobj.
  eexists _, _. split; [by apply add_comments_async_ok |]. split.
  - intros req. unfold comment_calls. destruct (has_column _ df); [| apply not_elem_of_nil].
    intros (p' & [= Hl Hr] & [Hn Hp']%list_elem_of_filter)%list_elem_of_fmap.
    assert (p = p') as <- by by apply (same_label_same_row (data df)).
    by rewrite thumbs_up_no_comment in Hn.
  - cbn [data].
    rewrite (filter_label_map
               (λ y, comment_effect llm df y
                       (ensure_cell "feedback_comment" (Some "") df y.2)))
      by done.
    by rewrite comment_effect_idle by apply thumbs_up_no_comment.
Qed.

Lemma comment_category_gating :
  ∃ out log,
    add_feedback_comment_categories_async self llm df mc = Ok (out, log)
    ∧ (∀ req, (p.1, req) ∉ log)
    ∧ filter (λ q : nat * Row, q.1 = p.1) (data out)
      = [(p.1, ensure_cell "feedback_comment_category" (Some "") df p.2)].
Proof.
  set (result_df := with_column "feedback_comment_category" (Some "") df).
  set (prep := ensure_cell "feedback_comment_category" (Some "") df).
  assert (data result_df = prod_map id prep <$> data df) as Hdata
    by apply with_column_data.
  assert (∀ has r, needs_comment_category has (prep r)
                   = needs_comment_category has r) as Hneeds.
  { intros has r. unfold prep, ensure_cell. by destruct (has_column _ df). }
  eexists _, _.
  split; [by apply add_feedback_comment_categories_async_ok |]. split.
  - intros req. unfold comment_category_calls. fold result_df. rewrite Hdata.
    intros (q & [= Hl Hr] & [Hn Hq]%list_elem_of_filter)%list_elem_of_fmap.
    apply list_elem_of_fmap in Hq as (p' & -> & Hp').
    destruct p' as [i r]. cbn [prod_map fst snd id] in *. subst i.
    assert (p = (p.1, r)) as Hp by by apply (same_label_same_row (data df)).
    rewrite Hneeds in Hn. assert (r = p.2) as -> by by rewrite Hp.
    by rewrite thumbs_up_no_comment_category in Hn.
  - cbn [data]. fold result_df. rewrite Hdata, <- list_fmap_compose.
    rewrite (list_fmap_ext _
               (λ y, (y.1, comment_category_effect llm
                             (has_column "feedback_comment" result_df)
                             (y.1, prep y.2) (prep y.2))) (data df))
      by by intros _ [??] _.
    rewrite (filter_label_map
               (λ y, comment_category_effect llm
                       (has_column "feedback_comment" result_df)
                       (y.1, prep y.2) (prep y.2))) by done.
    unfold comment_category_effect, comment_category_answer. cbv zeta.
    cbn [snd]. by rewrite Hneeds, thumbs_up_no_comment_category.
Qed.
End gating.

(** C6: a THUMBS_UP record of a batch is sent neither to comment
    generation nor to comment-failure classification; its row comes back
    with its [feedback_comment] as it was and with a
    [feedback_comment_category] that the dispatcher did not write: blank
    when the column is new.  Comment generation returns when the batch has
    no comment column or has it with the [object] dtype; on a [float64]
    comment column it raises before it creates any task, so that no record
    at all is sent and no row comes back. *)
Theorem thumbs_up_gating (self : FeedbackAnalyzer) (llm : Capability)
    (mc : option nat) (df : DataFrame) (p : nat * Row) :
  NoDup (data df).*1 →
  0 < resolve self mc →
  p ∈ data df →
  feedback_rating p.2 = "THUMBS_UP" →
  ((has_column "feedback_comment" df = true → comment_dtype df = object) →
   ∃ out log,
     add_comments_async self llm df mc = Ok (out, log)
     ∧ (∀ req, (p.1, req) ∉ log)
     ∧ ∃ q, filter (λ x : nat * Row, x.1 = p.1) (data out) = [(p.1, q)]
            ∧ feedback_comment q
              = if has_column "feedback_comment" df
                then feedback_comment p.2 else Some "")
  ∧ (has_column "feedback_comment" df = true →
     comment_dtype df = float64 →
     add_comments_async self llm df mc = Raise OtherException)
  ∧ (∃ out log,
       add_feedback_comment_categories_async self llm df mc = Ok (out, log)
       ∧ (∀ req, (p.1, req) ∉ log)
       ∧ ∃ q, filter (λ x : nat * Row, x.1 = p.1) (data out) = [(p.1, q)]
              ∧ feedback_comment q = feedback_comment p.2
              ∧ feedback_comment_category q
                = if has_column "feedback_comment_category" df
                  then feedback_comment_category p.2 else Some "").
Proof.
  intros Hnd Hk Hp Hup. split; [| split].
  - intros Hobj.
    destruct (comment_gating self llm mc df p Hnd Hk Hp Hup Hobj)
      as (out & log & Hrun & Hlog & Hrow).
    exists out, log. split; [done |]. split; [done |].
    eexists. split; [exact Hrow |].
    unfold ensure_cell. by destruct (has_column _ df).
  - apply add_comments_async_raises.
  - destruct (comment_category_gating self llm mc df p Hnd Hk Hp Hup)
      as (out & log & Hrun & Hlog & Hrow).
    exists out, log. split; [done |]. split; [done |].
    eexists. split; [exact Hrow |].
    unfold ensure_cell. by destruct (has_column _ df).
Qed.

Lemma thumbs_up_gating_witness :
  let p := (1, row_rated "t2" "How do I open an account?" "a2" "THUMBS_UP" None) in
  (∃ out log,
     add_comments_async SampleBatch.self SampleBatch.llm
       SampleBase.current_dataset None = Ok (out, log)
     ∧ (∀ req, (p.1, req) ∉ log)
     ∧ ∃ q, filter (λ x : nat * Row, x.1 = p.1) (data out) = [(p.1, q)]
            ∧ feedback_comment q = None)
  ∧ add_comments_async SampleBatch.self SampleBatch.llm
      SampleBatch.never_commented None = Raise OtherException
  ∧ (∃ out log,
       add_feedback_comment_categories_async SampleBatch.self SampleBatch.llm
         SampleBase.current_dataset None = Ok (out, log)
       ∧ (∀ req, (p.1, req) ∉ log)
       ∧ ∃ q, filter (λ x : nat * Row, x.1 = p.1) (data out) = [(p.1, q)]
              ∧ feedback_comment q = None
              ∧ feedback_comment_category q = Some "").
Proof.
  intros p.
  destruct (thumbs_up_gating SampleBatch.self SampleBatch.llm None
              SampleBase.current_dataset p) as (Hcomments & _ & Hcategories).
  { apply (bool_decide_unpack _). vm_compute. reflexivity. }
  { simpl. lia. }
  { apply list_elem_of_further, list_elem_of_here. }
  { reflexivity. }
  destruct (thumbs_up_gating SampleBatch.self SampleBatch.llm None
              SampleBatch.never_commented
              (1, row_rated "t2" "q2" "a2" "THUMBS_UP" None))
    as (_ & Hraises & _).
  { apply (bool_decide_unpack _). vm_compute. reflexivity. }
  { simpl. lia. }
  { apply list_elem_of_further, list_elem_of_here. }
  { reflexivity. }
  split; [| split].
  - apply Hcomments. intros _. reflexivity.
  - apply Hraises; reflexivity.
  - exact Hcategories.
Defined.

(** ** Scenario tagger *)

Section scenario.
Context (st : Store) (df : DataFrame).
Hypothesis labels_distinct : NoDup (data df).*1.
Hypothesis reference_loaded : load_mapped_questions st ≠ ∅.

Lemma add_scenario_mapping_rows :
  add_scenario_mapping st df
  = mkFrame (columns (with_column "scenario" (Some "") df))
      ((λ p, (p.1, set_cell "scenario"
                     (Some (scenario_tag (load_mapped_questions st)
                              (user_question p.2)))
                     p.2))
         <$> data df)
      (comment_dtype df).
Proof.
  unfold add_scenario_mapping. rewrite decide_False by done.
  fold (with_column "scenario" (Some "") df).
  set (result_df := with_column "scenario" (Some "") df).
  rewrite <- (list_fmap_id (iterrows result_df)).
  rewrite (foldl_results _ id
             (λ p, set_cell "scenario"
                     (Some (scenario_tag (load_mapped_questions st)
                              (user_question p.2)))) id result_df result_df).
  - f_equal.
    + unfold result_df. rewrite with_column_data, <- list_fmap_compose.
      apply list_fmap_ext. intros _ [i r] _. unfold compose, ensure_cell.
      cbn [prod_map fst snd id]. by destruct (has_column _ df).
    + by apply with_column_dtype_other.
  - intros acc t Hacc. unfold scenario_tag, id.
    case_decide; rewrite at_set_update; unfold written;
      cbn [String.eqb Ascii.eqb Bool.eqb andb]; by rewrite Hacc.
  - unfold result_df. by rewrite with_column_labels.
  - rewrite <- (list_fmap_id (data result_df)) at 1.
    apply list_fmap_ext. by intros _ [??] _.
Qed.
End scenario.

(** C7, as the code has it: against a reference list that normalises to
    the one question "what is fps", a record is tagged A exactly when its
    question, lower-cased and trimmed of surrounding blanks, is that
    question, and B otherwise; punctuation is kept, so "What is FPS" is
    tagged A while "What is FPS?" and "How do I open an account?" are
    tagged B. *)
Theorem scenario_classification (st : Store) (df : DataFrame) (p : nat * Row) :
  NoDup (data df).*1 →
  load_mapped_questions st = {[ Some "what is fps" ]} →
  p ∈ data df →
  (∃ q, filter (λ x : nat * Row, x.1 = p.1) (data (add_scenario_mapping st df))
        = [(p.1, q)]
        ∧ scenario q
          = Some (if decide (PyStr.strip (PyStr.lower (user_question p.2))
                             = "what is fps")
                  then "A" else "B"))
  ∧ PyStr.strip (PyStr.lower "What is FPS") = "what is fps"
  ∧ PyStr.strip (PyStr.lower "What is FPS?") ≠ "what is fps"
  ∧ PyStr.strip (PyStr.lower "How do I open an account?") ≠ "what is fps".
Proof.
  intros Hnd Hset Hp. split; [| by repeat split].
  rewrite add_scenario_mapping_rows by (done || rewrite Hset; set_solver).
  cbn [data].
  rewrite (filter_label_map
             (λ y, set_cell "scenario"
                     (Some (scenario_tag (load_mapped_questions st)
                              (user_question y.2))) y.2)) by done.
  eexists. split; [done |]. cbn [scenario set_cell]. f_equal.
  unfold scenario_tag. rewrite Hset.
  destruct (decide (PyStr.strip (PyStr.lower (user_question p.2)) = "what is fps"))
    as [-> | Hne].
  - rewrite decide_True by set_solver. done.
  - rewrite decide_False; [done |]. set_solver.
Qed.

Lemma scenario_classification_witness :
  let p := (2, row_rated "t3" "what is fps" "a3" "THUMBS_DOWN" (Some "Too vague")) in
  (∃ q, filter (λ x : nat * Row, x.1 = p.1)
          (data (add_scenario_mapping SampleScenario.store
                   SampleBase.current_dataset))
        = [(p.1, q)]
        ∧ scenario q
          = Some (if decide (PyStr.strip (PyStr.lower (user_question p.2))
                             = "what is fps")
                  then "A" else "B"))
  ∧ PyStr.strip (PyStr.lower "What is FPS") = "what is fps"
  ∧ PyStr.strip (PyStr.lower "What is FPS?") ≠ "what is fps"
  ∧ PyStr.strip (PyStr.lower "How do I open an account?") ≠ "what is fps".
Proof.
  intros p.
  apply (scenario_classification SampleScenario.store
           SampleBase.current_dataset p).
  - apply (bool_decide_unpack _). vm_compute. reflexivity.
  - vm_compute. reflexivity.
  - do 2 apply list_elem_of_further. apply list_elem_of_here.
Defined.

(** C7 as stated fails: with the reference set {"what is fps"} the record
    asking "What is FPS?" is tagged B, like the record asking "How do I
    open an account?"; only the record asking "what is fps" is tagged A. *)
Lemma scenario_classification_counterexample :
  load_mapped_questions SampleScenario.store = {[ Some "what is fps" ]}
  ∧ user_question <$> rows SampleBase.current_dataset
    = ["What is FPS?"; "How do I open an account?"; "what is fps"]
  ∧ scenario <$> rows (add_scenario_mapping SampleScenario.store
                         SampleBase.current_dataset)
    = [Some "B"; Some "B"; Some "A"].
Proof. split; [| split]; vm_compute; reflexivity. Qed.

(** ** Category classification *)

(** C8, as the code has it: category classification sends one request and
    returns the [category] and [sub_category] texts of the answer as they
    are, with "other" for a missing [category] and "General" for a missing
    [sub_category], and the pair "other"/"General" when the call or the
    parsing fails; nothing is checked against the taxonomy, so the pair
    belongs to the tree when the answer names a pair of the tree. *)
Theorem categorize_question_async_verbatim (client : Client)
    (user_question bot_answer : string) :
  let request := CategorizeQuestion user_question bot_answer in
  let returned := (run client (categorize_question_async user_question bot_answer)).1 in
  (run client (categorize_question_async user_question bot_answer)).2 = [request]
  ∧ (client request = Failure → returned = ("other", "General"))
  ∧ (∀ result, client request = Object result →
               returned = (default "other" (result !! "category"),
                           default "General" (result !! "sub_category")))
  ∧ (∀ result c s, client request = Object result →
                   result !! "category" = Some c →
                   result !! "sub_category" = Some s →
                   returned = (c, s) ∧ in_taxonomy returned = in_taxonomy (c, s)).
Proof.
  intros request returned. subst request returned.
  unfold categorize_question_async. cbn [run].
  destruct (client _) as [|o] eqn:E; cbn [run fst snd].
  - split; [done |]. split; [done |]. split; [done |]. done.
  - split; [done |]. split; [done |]. split.
    + intros result [= <-]. done.
    + intros result c s [= <-] Hc Hs. unfold get. by rewrite Hc, Hs.
Qed.

Lemma categorize_question_async_verbatim_witness :
  let returned :=
    (run SampleScenario.on_taxonomy
       (categorize_question_async "Can I get a tax loan?" "Yes.")).1 in
  returned = ("Loans", "Personal Tax Loan")
  ∧ in_taxonomy returned = in_taxonomy ("Loans", "Personal Tax Loan")
  ∧ (run (λ _, Failure)
        (categorize_question_async "Can I get a tax loan?" "Yes.")).1
    = ("other", "General").
Proof.
  intros returned. split; [| split].
  - apply (proj2 (proj2 (proj2 (categorize_question_async_verbatim
             SampleScenario.on_taxonomy "Can I get a tax loan?" "Yes.")))
             (<["category" := "Loans"]>
                (<["sub_category" := "Personal Tax Loan"]> ∅)));
      vm_compute; reflexivity.
  - apply (proj2 (proj2 (proj2 (categorize_question_async_verbatim
             SampleScenario.on_taxonomy "Can I get a tax loan?" "Yes.")))
             (<["category" := "Loans"]>
                (<["sub_category" := "Personal Tax Loan"]> ∅)));
      vm_compute; reflexivity.
  - apply (proj1 (proj2 (categorize_question_async_verbatim
             (λ _, Failure) "Can I get a tax loan?" "Yes."))).
    reflexivity.
Defined.

(** C8 as stated fails: an answer naming "Pets"/"Dogs" is returned as it
    is, though the pair is neither in the taxonomy nor the fallback. *)
Lemma categorize_question_async_off_taxonomy :
  (run SampleScenario.off_taxonomy
     (categorize_question_async "Can I insure my dog?" "No.")).1
  = ("Pets", "Dogs")
  ∧ in_taxonomy ("Pets", "Dogs") = false
  ∧ in_taxonomy ("Loans", "Personal Tax Loan") = true
  ∧ in_taxonomy ("other", "General") = true.
Proof. repeat split; vm_compute; reflexivity. Qed.

(** ** Enrichment keeps the identity of every record *)

Section identity_kept.
Context (self : FeedbackAnalyzer) (llm : Capability).
Implicit Types (df out : DataFrame) (p : nat * Row) (r : Row).

Lemma same_records_map df cols dt (f : nat * Row → Row) :
  (∀ p, create_record_key (f p) = create_record_key p.2) →
  same_records df (mkFrame cols ((λ p, (p.1, f p)) <$> data df) dt).
Proof.
  intros Hf. unfold same_records, rows. cbn [data].
  rewrite <- !list_fmap_compose. split; apply list_fmap_ext; intros _ p _; [done |].
  unfold compose. cbn [snd]. apply Hf.
Qed.

Lemma key_ensure_cell c v df r :
  create_record_key (ensure_cell c v df r) = create_record_key r.
Proof. unfold ensure_cell. by destruct (has_column c df). Qed.

Lemma key_category_effect p r :
  create_record_key (category_effect llm p r) = create_record_key r.
Proof. unfold category_effect. by destruct (negb _ && negb _). Qed.

Lemma key_comment_effect df p r :
  create_record_key (comment_effect llm df p r) = create_record_key r.
Proof.
  unfold comment_effect.
  destruct (has_column _ df); [| done].
  destruct (needs_comment p.2); by destruct (truthy _).
Qed.

Lemma key_comment_category_effect has p r :
  create_record_key (comment_category_effect llm has p r) = create_record_key r.
Proof. unfold comment_category_effect. by destruct (negb _). Qed.

(** More permits do not change what a batch returns. *)
Lemma gather_Ok_any {A} (k k' : nat) (tasks : list (nat * Coro A)) x :
  gather k llm tasks = Ok x → 0 < k' → gather k' llm tasks = Ok x.
Proof.
  intros Hg Hk'. rewrite gather_ok by done. unfold gather in Hg.
  by destruct (_ && _).
Qed.

Lemma add_categories_async_Ok_any self' df mc mc' x :
  add_categories_async self llm df mc = Ok x →
  0 < resolve self' mc' →
  add_categories_async self' llm df mc' = Ok x.
Proof.
  unfold add_categories_async. intros Hrun Hk.
  destruct (gather (resolve self mc) llm _) as [g| |] eqn:Hg; [| done | done].
  by rewrite (gather_Ok_any _ _ _ _ Hg Hk).
Qed.

Lemma add_comments_async_Ok_any self' df mc mc' x :
  add_comments_async self llm df mc = Ok x →
  0 < resolve self' mc' →
  add_comments_async self' llm df mc' = Ok x.
Proof.
  unfold add_comments_async. intros Hrun Hk.
  destruct (identify_thumbs_down_empty_feedback _) as [thumbs_down_empty| |];
    [| done | done].
  cbn [mbind Outcome_bind] in *.
  destruct (empty _); [done |].
  destruct (gather (resolve self mc) llm _) as [g| |] eqn:Hg; [| done | done].
  by rewrite (gather_Ok_any _ _ _ _ Hg Hk).
Qed.

(** The dispatcher returns only on a comment column of the [object]
    dtype. *)
Lemma add_comments_async_Ok_dtype df mc x :
  add_comments_async self llm df mc = Ok x →
  has_column "feedback_comment" df = true → comment_dtype df = object.
Proof.
  intros Hrun Hhas. destruct (comment_dtype df) eqn:Hdt; [| done].
  by rewrite add_comments_async_raises in Hrun.
Qed.

Lemma add_feedback_comment_categories_async_Ok_any self' df mc mc' x :
  add_feedback_comment_categories_async self llm df mc = Ok x →
  0 < resolve self' mc' →
  add_feedback_comment_categories_async self' llm df mc' = Ok x.
Proof.
  unfold add_feedback_comment_categories_async. intros Hrun Hk.
  destruct (gather (resolve self mc) llm _) as [g| |] eqn:Hg; [| done | done].
  by rewrite (gather_Ok_any _ _ _ _ Hg Hk).
Qed.

Lemma add_comments_async_same_records df mc out log :
  NoDup (data df).*1 →
  add_comments_async self llm df mc = Ok (out, log) → same_records df out.
Proof.
  intros Hnd Hrun.
  pose proof (add_comments_async_Ok_dtype _ _ _ Hrun) as Hobj.
  apply (add_comments_async_Ok_any (mkAnalyzer 1) _ _ None) in Hrun;
    [| simpl; lia].
  rewrite add_comments_async_ok in Hrun by (done || simpl; lia).
  injection Hrun as <- _. apply same_records_map.
  intros p. by rewrite key_comment_effect, key_ensure_cell.
Qed.

Lemma add_categories_async_same_records df mc out log :
  NoDup (data df).*1 →
  add_categories_async self llm df mc = Ok (out, log) → same_records df out.
Proof.
  intros Hnd Hrun.
  apply (add_categories_async_Ok_any (mkAnalyzer 1) _ _ None) in Hrun;
    [| simpl; lia].
  rewrite add_categories_async_ok in Hrun by (done || simpl; lia).
  injection Hrun as <- _. apply same_records_map.
  intros p. by rewrite key_category_effect, !key_ensure_cell.
Qed.

Lemma add_feedback_comment_categories_async_same_records df mc out log :
  NoDup (data df).*1 →
  add_feedback_comment_categories_async self llm df mc = Ok (out, log) →
  same_records df out.
Proof.
  intros Hnd Hrun.
  apply (add_feedback_comment_categories_async_Ok_any (mkAnalyzer 1) _ _ None)
    in Hrun; [| simpl; lia].
  rewrite add_feedback_comment_categories_async_ok in Hrun
    by (done || simpl; lia).
  injection Hrun as <- _.
  rewrite with_column_data, <- list_fmap_compose.
  erewrite list_fmap_ext; [apply (same_records_map df _ _
    (λ p, comment_category_effect llm
            (has_column "feedback_comment"
               (with_column "feedback_comment_category" (Some "") df))
            (p.1, ensure_cell "feedback_comment_category" (Some "") df p.2)
            (ensure_cell "feedback_comment_category" (Some "") df p.2))) |].
  - intros p. by rewrite key_comment_category_effect, key_ensure_cell.
  - by intros _ [??] _.
Qed.

Lemma add_scenario_mapping_same_records (st : Store) df :
  NoDup (data df).*1 → same_records df (add_scenario_mapping st df).
Proof.
  intros Hnd.
  destruct (decide (load_mapped_questions st = ∅)) as [He | Hne].
  - unfold add_scenario_mapping. rewrite decide_True by done.
    fold (with_column "scenario" (Some "B") df).
    unfold same_records, rows.
    rewrite with_column_data, <- !list_fmap_compose.
    split; apply list_fmap_ext; intros _ [i r] _; [done |].
    unfold compose. cbn [prod_map fst snd id]. apply key_ensure_cell.
  - rewrite add_scenario_mapping_rows by done. by apply same_records_map.
Qed.
End identity_kept.

(** ** An unreadable prior output *)

Section unreadable.
Context (self : FeedbackAnalyzer) (llm : Capability).

Lemma load_feedback_data_present st base :
  data_file st = Present base →
  load_feedback_data st
  = Ok (mkFrame (header base)
          (range_index (reindex (header base) <$> records base))
          (read_dtype base)).
Proof. intros Hb. unfold load_feedback_data. by rewrite Hb. Qed.

Lemma empty_false df : data df ≠ [] → empty df = false.
Proof. unfold empty. by destruct (data df). Qed.

Lemma empty_true df : empty df = true → data df = [].
Proof. unfold empty. by destruct (data df). Qed.

Lemma range_index_nil_inv (l : list Row) : range_index l = [] → l = [].
Proof. by destruct l. Qed.

Lemma keys_of_read base :
  create_record_key
    <$> rows (mkFrame (header base)
                (range_index (reindex (header base) <$> records base))
                (read_dtype base))
  = create_record_key <$> records base.
Proof.
  unfold rows. cbn [data]. rewrite range_index_snd, <- list_fmap_compose.
  by apply list_fmap_ext.
Qed.
End unreadable.

(** C10: when the prior output exists but fails to read, the merge
    returns the new batch alone, so a persisted record whose identity the
    batch lacks is absent from the result.  The caller
    [process_comments_only] takes the whole base data as its batch; when
    the base data has no comment column, or has it with the [object]
    dtype, the caller rewrites the file with that result and the record is
    gone from the file; when the comment column of the base data is
    [float64], comment generation raises before the merge and the caller
    raises with it. *)
Theorem merge_unreadable_drops_prior (self : FeedbackAnalyzer) (llm : Capability)
    (st : Store) (persisted base : Table) (new_batch : DataFrame) (r : Row) :
  r ∈ records persisted →
  (merge_with_existing_results new_batch (Unreadable persisted) = new_batch
   ∧ (create_record_key r ∉ create_record_key <$> rows new_batch →
      create_record_key r
      ∉ create_record_key
          <$> rows (merge_with_existing_results new_batch (Unreadable persisted))))
  ∧ (comments_output_file st = Unreadable persisted →
     data_file st = Present base →
     records base ≠ [] →
     0 < max_concurrent self →
     ("feedback_comment" ∈ header base → read_dtype base = object) →
     ∃ final st',
       process_comments_only self llm st = Ok (final, st')
       ∧ comments_output_file st' = to_csv final
       ∧ create_record_key <$> rows final = create_record_key <$> records base
       ∧ (create_record_key r ∉ create_record_key <$> records base →
          create_record_key r ∉ create_record_key <$> rows final))
  ∧ (comments_output_file st = Unreadable persisted →
     data_file st = Present base →
     records base ≠ [] →
     "feedback_comment" ∈ header base →
     read_dtype base = float64 →
     process_comments_only self llm st = Raise OtherException).
Proof.
  intros Hr. split; [by split |].
  set (df := mkFrame (header base)
               (range_index (reindex (header base) <$> records base))
               (read_dtype base)).
  split.
  - intros Hfile Hbase Hne Hk Hobj.
    unfold process_comments_only.
    rewrite (load_feedback_data_present st base Hbase). cbn [mbind Outcome_bind].
    fold df.
    assert (data df ≠ []) as Hdf.
    { intros He%range_index_nil_inv. by destruct (records base). }
    rewrite (empty_false df Hdf), Hfile.
    rewrite filter_unprocessed_no_keys by done.
    rewrite (empty_false df Hdf).
    assert (NoDup (data df).*1) as Hnd by apply range_index_NoDup.
    rewrite (add_comments_async_ok self llm df None);
      [| done | done | by intros Hhas%bool_decide_eq_true; apply Hobj].
    cbn [mbind Outcome_bind fst]. rewrite merge_unreadable.
    eexists _, _. split; [done |]. split; [done |].
    assert (create_record_key
              <$> rows (mkFrame
                          (columns (with_column "feedback_comment" (Some "") df))
                          ((λ p, (p.1, comment_effect llm df p
                                         (ensure_cell "feedback_comment" (Some "")
                                            df p.2)))
                             <$> data df)
                          object)
            = create_record_key <$> records base) as Hkeys.
    { rewrite <- (keys_of_read base). fold df.
      apply (same_records_map df _ _
               (λ p, comment_effect llm df p
                       (ensure_cell "feedback_comment" (Some "") df p.2))).
      intros p. by rewrite key_comment_effect, key_ensure_cell. }
    split; [exact Hkeys |]. by rewrite Hkeys.
  - intros Hfile Hbase Hne Hcol Hfloat.
    unfold process_comments_only.
    rewrite (load_feedback_data_present st base Hbase). cbn [mbind Outcome_bind].
    fold df.
    assert (data df ≠ []) as Hdf.
    { intros He%range_index_nil_inv. by destruct (records base). }
    rewrite (empty_false df Hdf), Hfile.
    rewrite filter_unprocessed_no_keys by done.
    rewrite (empty_false df Hdf).
    rewrite add_comments_async_raises; [done | by apply bool_decide_eq_true | done].
Qed.

Lemma merge_unreadable_drops_prior_witness :
  let r := row_rated "t0" "Where is my card?" "a0" "THUMBS_DOWN"
             (Some "Generated long ago") in
  (merge_with_existing_results Sample.new_batch
     (Unreadable SampleUnreadable.persisted) = Sample.new_batch
   ∧ create_record_key r
     ∉ create_record_key
         <$> rows (merge_with_existing_results Sample.new_batch
                     (Unreadable SampleUnreadable.persisted)))
  ∧ (∃ final st',
        process_comments_only SampleBatch.self SampleBatch.llm
          SampleUnreadable.store = Ok (final, st')
        ∧ comments_output_file st' = to_csv final
        ∧ create_record_key <$> rows final
          = create_record_key <$> records SampleBase.base
        ∧ create_record_key r ∉ create_record_key <$> rows final)
  ∧ process_comments_only SampleBatch.self SampleBatch.llm
      SampleUnreadable.uncommented_store = Raise OtherException.
Proof.
  intros r.
  destruct (merge_unreadable_drops_prior SampleBatch.self SampleBatch.llm
              SampleUnreadable.store SampleUnreadable.persisted SampleBase.base
              Sample.new_batch r) as ([Hmerge Hgone] & Hcaller & _).
  { apply list_elem_of_here. }
  destruct (merge_unreadable_drops_prior SampleBatch.self SampleBatch.llm
              SampleUnreadable.uncommented_store SampleUnreadable.persisted
              SampleBase.prior_output Sample.new_batch r) as (_ & _ & Hraises).
  { apply list_elem_of_here. }
  split; [| split].
  - split; [exact Hmerge |]. apply Hgone.
    apply (bool_decide_unpack _). vm_compute. reflexivity.
  - destruct Hcaller as (final & st' & Hrun & Hfile & Hkeys & Hlost);
      [reflexivity | reflexivity | discriminate | simpl; lia
      | intros _; reflexivity |].
    exists final, st'. split; [exact Hrun |]. split; [exact Hfile |].
    split; [exact Hkeys |]. apply Hlost.
    apply (bool_decide_unpack _). vm_compute. reflexivity.
  - apply Hraises;
      [reflexivity | reflexivity | discriminate | apply list_elem_of_here
      | reflexivity].
Defined.

(** ** The admission gate *)

Section gate.
Context {A : Type} (llm : Capability).
Implicit Types (s : Sched A) (t : nat * TaskState A) (c : Coro A).

Lemma length_filter_insert {B} (P : B → Prop) `{∀ x, Decision (P x)}
    (l : list B) (i : nat) (x y : B) :
  l !! i = Some x →
  length (filter P (<[i:=y]> l)) + (if decide (P x) then 1 else 0)
  = length (filter P l) + (if decide (P y) then 1 else 0).
Proof.
  revert i. induction l as [|z l IH]; intros [|i] Hi; simplify_eq/=.
  - rewrite !filter_cons. repeat case_decide; simpl; lia.
  - rewrite !filter_cons. specialize (IH i Hi).
    repeat case_decide; simpl in *; lia.
Qed.

Lemma length_filter_le {B} (P Q : B → Prop) `{∀ x, Decision (P x)}
    `{∀ x, Decision (Q x)} (l : list B) :
  (∀ x, x ∈ l → P x → Q x) → length (filter P l) ≤ length (filter Q l).
Proof.
  induction l as [|z l IH]; intros HPQ; [done |].
  rewrite !filter_cons.
  assert (length (filter P l) ≤ length (filter Q l)) as Hle.
  { apply IH. intros x Hx. apply HPQ. by right. }
  destruct (decide (P z)) as [HP | HP].
  - rewrite decide_True by (apply HPQ; [left | done]). simpl. lia.
  - case_decide; simpl; lia.
Qed.

(** A call in flight is made from inside the semaphore. *)
Lemma outstanding_le_holders s : outstanding s ≤ holders s.
Proof.
  unfold outstanding, holders. apply length_filter_le.
  intros [idx [c | req k]] _; unfold is_calling; simpl; done.
Qed.

Lemma well_gated_head c : well_gated true c → holds (Running c) = true.
Proof. destruct c; simpl; naive_solver. Qed.

Lemma well_gated_idle c : well_gated false c → holds (Running c) = false.
Proof. destruct c; simpl; naive_solver. Qed.

Lemma gate_invariant_init (k : nat) (tasks : list (nat * Coro A)) :
  Forall (λ task, well_gated false task.2) tasks →
  gate_invariant k (init k tasks).
Proof.
  intros Htasks. unfold gate_invariant, init, holders. cbn [pool permits].
  split.
  - apply Forall_fmap. eapply Forall_impl; [exact Htasks |].
    intros [idx c] Hc. unfold compose, task_gated. cbn [fst snd] in *.
    by rewrite (well_gated_idle c Hc).
  - rewrite filter_none; [simpl; lia |].
    intros t (task & -> & Hin)%list_elem_of_fmap. cbn [snd].
    rewrite Forall_forall in Htasks.
    by rewrite (well_gated_idle _ (Htasks _ Hin)).
Qed.

Lemma gate_invariant_step (k : nat) s s' :
  gate_invariant k s → step llm s s' → gate_invariant k s'.
Proof.
  intros [Hpool Hcount] Hstep. unfold gate_invariant, holders in *.
  destruct Hstep as [s i idx c Hi Hpos | s i idx c Hi | s i idx req c Hi
                    | s i idx req c Hi]; cbn [pool permits];
    pose proof (Forall_lookup_1 _ _ _ _ Hpool Hi) as Ht;
    unfold task_gated in Ht; cbn [snd] in Ht;
    (split; [apply Forall_insert; [done |] |]).
  - (* acquire *)
    destruct Ht as [_ Hc]. unfold task_gated. cbn [snd].
    by rewrite (well_gated_head c Hc).
  - destruct Ht as [_ Hc]. pose proof (well_gated_head c Hc) as Hh.
    pose proof (length_filter_insert (λ t, holds t.2 = true) (pool s) i _
                  (idx, Running c) Hi) as Hlen.
    cbn [snd] in Hlen. rewrite Hh in Hlen. cbn [holds] in Hlen.
    repeat (case_decide; try done). lia.
  - (* release *)
    destruct Ht as [_ Hc]. unfold task_gated. cbn [snd].
    by rewrite (well_gated_idle c Hc).
  - destruct Ht as [_ Hc]. pose proof (well_gated_idle c Hc) as Hh.
    pose proof (length_filter_insert (λ t, holds t.2 = true) (pool s) i _
                  (idx, Running c) Hi) as Hlen.
    cbn [snd] in Hlen. rewrite Hh in Hlen. cbn [holds] in Hlen.
    repeat (case_decide; try done). lia.
  - (* send *)
    destruct Ht as [_ Hc]. unfold task_gated. by cbn [snd].
  - pose proof (length_filter_insert (λ t, holds t.2 = true) (pool s) i _
                  (idx, Calling req c) Hi) as Hlen.
    cbn [snd holds] in Hlen.
    repeat (case_decide; try done). lia.
  - (* receive *)
    unfold task_gated. cbn [snd].
    by rewrite (well_gated_head _ (Ht (llm idx req))).
  - pose proof (well_gated_head _ (Ht (llm idx req))) as Hh.
    pose proof (length_filter_insert (λ t, holds t.2 = true) (pool s) i _
                  (idx, Running (c (llm idx req))) Hi) as Hlen.
    cbn [snd] in Hlen. rewrite Hh in Hlen. cbn [holds] in Hlen.
    repeat (case_decide; try done). lia.
Qed.

Lemma gate_invariant_reachable (k : nat) s s' :
  gate_invariant k s → rtc (step llm) s s' → gate_invariant k s'.
Proof.
  intros Hinv Hrtc. induction Hrtc as [|s1 s2 s3 Hstep _ IH]; [done |].
  apply IH. by apply (gate_invariant_step k s1).
Qed.

(** The bound of the gate, for any batch of well-gated tasks. *)
Lemma gated_batch_bound (k : nat) (tasks : list (nat * Coro A)) s :
  Forall (λ task, well_gated false task.2) tasks →
  rtc (step llm) (init k tasks) s →
  outstanding s ≤ k.
Proof.
  intros Htasks Hrtc.
  destruct (gate_invariant_reachable k _ s (gate_invariant_init k tasks Htasks) Hrtc)
    as [_ Hcount].
  pose proof (outstanding_le_holders s). lia.
Qed.

Lemma calls_only_bind {B} (f : A → Coro B) c :
  calls_only c → (∀ a, calls_only (f a)) → calls_only (coro_bind f c).
Proof.
  intros Hc Hf. induction c as [a | c IH | c IH | req k IH]; simpl in *;
    [apply Hf | done | done |].
  intros r. by apply IH.
Qed.

Lemma well_gated_release c :
  calls_only c → well_gated true (coro_bind (λ v, Release (Ret v)) c).
Proof.
  intros Hc. induction c as [a | c IH | c IH | req k IH]; simpl in *;
    [done | done | done |].
  split; [done |]. intros r. by apply IH.
Qed.

Lemma well_gated_with_semaphore c :
  calls_only c → well_gated false (with_semaphore c).
Proof. intros Hc. split; [done |]. by apply well_gated_release. Qed.
End gate.

Section tasks_gated.
Implicit Types (df : DataFrame) (p : nat * Row).

Lemma process_single_category_gated idx row :
  well_gated false (process_single_category idx row).
Proof.
  apply well_gated_with_semaphore. apply calls_only_bind; [| done].
  intros r. by destruct r.
Qed.

Lemma process_single_comment_gated has idx row :
  well_gated false (process_single_comment has idx row).
Proof.
  unfold process_single_comment, comment_of.
  case_bool_decide; destruct has; try done.
  destruct (is_blank _); [| done].
  apply well_gated_with_semaphore. apply calls_only_bind; [| done].
  intros r. by destruct r.
Qed.

Lemma process_single_comment_category_gated has idx row :
  well_gated false (process_single_comment_category has idx row).
Proof.
  unfold process_single_comment_category, comment_of.
  case_bool_decide; [done |].
  apply well_gated_with_semaphore. destruct has; [| done].
  apply calls_only_bind; [| done].
  unfold categorize_feedback_comment_async.
  destruct (feedback_comment row) as [text |]; [| done].
  destruct (_ || _); [done |]. intros r. by destruct r.
Qed.
End tasks_gated.

(** C9: under a semaphore of [k] permits, in every state the event loop
    can reach while it runs the tasks of a batch - whatever the order in
    which tasks pass their suspension points and whatever the size of the
    batch - at most [k] capability calls are in flight; this holds for the
    tasks of category classification, of comment generation and of
    comment-failure classification alike. *)
Theorem admission_gate_bound (llm : Capability) (df : DataFrame) (k : nat) :
  (∀ s, rtc (step llm) (init k (category_tasks df)) s → outstanding s ≤ k)
  ∧ (∀ s, rtc (step llm) (init k (comment_tasks df)) s → outstanding s ≤ k)
  ∧ (∀ s, rtc (step llm) (init k (comment_category_tasks df)) s →
          outstanding s ≤ k).
Proof.
  split; [| split]; intros s Hreach;
    (eapply (gated_batch_bound llm k); [| exact Hreach]);
    apply Forall_fmap, Forall_forall; intros p _; unfold compose; cbn [snd].
  - apply process_single_category_gated.
  - apply process_single_comment_gated.
  - apply process_single_comment_category_gated.
Qed.

Ltac first_task_calls :=
  eapply rtc_l; [eapply (step_acquire _ _ 0); [reflexivity | simpl; lia] |];
  eapply rtc_l; [eapply (step_send _ _ 0); reflexivity |];
  apply rtc_refl.

Lemma admission_gate_bound_witness :
  (∃ s, rtc (step SampleBatch.llm)
          (init 1 (category_tasks SampleBatch.uncommented)) s
        ∧ outstanding s = 1 ∧ outstanding s ≤ 1)
  ∧ (∃ s, rtc (step SampleBatch.llm)
            (init 1 (comment_tasks SampleBatch.uncommented)) s
          ∧ outstanding s = 1 ∧ outstanding s ≤ 1)
  ∧ (∃ s, rtc (step SampleBatch.llm)
            (init 1 (comment_category_tasks SampleBatch.commented)) s
          ∧ outstanding s = 1 ∧ outstanding s ≤ 1).
Proof.
  split; [| split]; eexists; (split; [first_task_calls |]);
    (split; [reflexivity |]).
  - apply (proj1 (admission_gate_bound SampleBatch.llm
                    SampleBatch.uncommented 1)).
    first_task_calls.
  - apply (proj1 (proj2 (admission_gate_bound SampleBatch.llm
                           SampleBatch.uncommented 1))).
    first_task_calls.
  - apply (proj2 (proj2 (admission_gate_bound SampleBatch.llm
                           SampleBatch.commented 1))).
    first_task_calls.
Defined.

(** ** Incremental processing *)

Section incremental.
Implicit Types (df new final : DataFrame) (p : nat * Row) (st : Store)
  (f : FileState Table) (o : OutputFile).

Lemma covered_filter_empty df f :
  NoDup (data df).*1 → covered df f →
  data (filter_unprocessed_records df f) = [].
Proof.
  intros Hnd Hcov. rewrite filter_unprocessed_data by done. cbn [data].
  apply filter_none. intros p Hp Hnot. by apply Hnot, Hcov.
Qed.

Lemma filter_empty_covered df f :
  NoDup (data df).*1 →
  data (filter_unprocessed_records df f) = [] → covered df f.
Proof.
  intros Hnd He p Hp. rewrite filter_unprocessed_data in He by done.
  cbn [data] in He.
  destruct (decide (create_record_key p.2 ∈ get_processed_records f)) as [|Hn];
    [done |].
  exfalso. eapply (filter_nil_not_elem_of _ _ p He); [exact Hn | exact Hp].
Qed.

Lemma processed_to_csv final k :
  k ∈ get_processed_records (to_csv final) ↔ k ∈ create_record_key <$> rows final.
Proof.
  unfold to_csv. rewrite elem_of_processed. cbn [records]. done.
Qed.

Lemma rows_elem df p : p ∈ data df → p.2 ∈ rows df.
Proof. intros Hp. unfold rows. by apply list_elem_of_fmap_2. Qed.

(** After the merge, the file written covers the whole source frame. *)
Lemma merge_covers df f new :
  NoDup (data df).*1 →
  same_records (filter_unprocessed_records df f) new →
  covered df (to_csv (merge_with_existing_results new f)).
Proof.
  intros Hnd [_ Hkeys] p Hp. apply processed_to_csv.
  rewrite filter_unprocessed_data in Hkeys by done.
  unfold rows in Hkeys at 2. cbn [data] in Hkeys.
  assert (create_record_key p.2 ∉ get_processed_records f →
          create_record_key p.2 ∈ create_record_key <$> rows new) as Hnew.
  { intros Hn. rewrite Hkeys. apply list_elem_of_fmap_2, list_elem_of_fmap.
    exists p. split; [done |]. by apply list_elem_of_filter. }
  destruct f as [| t | t].
  - rewrite merge_absent. apply Hnew. rewrite get_processed_records_absent. set_solver.
  - rewrite merge_unreadable. apply Hnew.
    rewrite get_processed_records_unreadable. set_solver.
  - destruct (merge_present_rows new t) as (l & Hd & Hl).
    unfold rows. rewrite Hd, <- list_fmap_compose.
    apply (drop_duplicates_last_keys create_record_key).
    rewrite (list_fmap_compose snd create_record_key), Hl, fmap_app, elem_of_app.
    rewrite <- !list_fmap_compose.
    destruct (decide (create_record_key p.2 ∈ get_processed_records (Present t)))
      as [Hin | Hn].
    + left. apply elem_of_processed in Hin.
      by rewrite (list_fmap_ext _ create_record_key (records t)).
    + right. specialize (Hnew Hn).
      by rewrite (list_fmap_ext _ create_record_key (rows new)).
Qed.

Lemma output_set_output o f st : output o (set_output o f st) = f.
Proof. by destruct o. Qed.

Lemma touches_only_refl o st : touches_only o st st.
Proof. unfold touches_only. by destruct o, st. Qed.

Lemma touches_only_save o final st : touches_only o st (save_results final o st).
Proof. unfold touches_only, save_results. by rewrite output_set_output. Qed.

Lemma filter_unprocessed_NoDup df f :
  NoDup (data df).*1 → NoDup (data (filter_unprocessed_records df f)).*1.
Proof.
  intros Hnd. rewrite filter_unprocessed_data by done. cbn [data].
  eapply sublist_NoDup; [exact Hnd | apply fmap_sublist, sublist_filter].
Qed.

(** A nonempty frame that is covered has a readable, nonempty output. *)
Lemma covered_present df f :
  data df ≠ [] → covered df f → ∃ t, f = Present t ∧ records t ≠ [].
Proof.
  intros Hne Hcov. destruct (data df) as [|p d] eqn:Hd; [done |].
  assert (create_record_key p.2 ∈ get_processed_records f) as Hin
    by (apply Hcov; rewrite Hd; left).
  destruct f as [| t | t].
  - by rewrite get_processed_records_absent in Hin.
  - by rewrite get_processed_records_unreadable in Hin.
  - exists t. split; [done |]. intros He. apply elem_of_processed in Hin.
    rewrite He in Hin. by apply not_elem_of_nil in Hin.
Qed.

Lemma read_csv_present_nonempty t :
  records t ≠ [] →
  ∃ existing, read_csv (Present t) = Ok existing ∧ data existing ≠ [].
Proof.
  intros Hne. eexists. split; [done |]. cbn [data].
  intros He%range_index_nil_inv. by destruct (records t).
Qed.

(** Once the output covers the source, the step enriches nothing and
    writes nothing. *)
Lemma incremental_core_settled o enrich df st :
  NoDup (data df).*1 → covered df (output o st) →
  incremental_core o enrich df st
  = if path_exists (output o st)
    then existing ← read_csv (output o st); Ok (existing, st)
    else Ok (df, st).
Proof.
  intros Hnd Hcov. unfold incremental_core.
  pose proof (covered_filter_empty df _ Hnd Hcov) as He.
  unfold empty. by rewrite He.
Qed.

(** A step that returns leaves an output that covers its source. *)
Lemma incremental_core_settles o enrich df st final st' :
  NoDup (data df).*1 →
  (∀ u new, NoDup (data u).*1 → enrich u = Ok new → same_records u new) →
  incremental_core o enrich df st = Ok (final, st') →
  covered df (output o st')
  ∧ touches_only o st st'
  ∧ (data df ≠ [] → data final ≠ []).
Proof.
  intros Hnd Henrich. unfold incremental_core.
  destruct (empty _) eqn:Hempty.
  - apply empty_true in Hempty.
    pose proof (filter_empty_covered df _ Hnd Hempty) as Hcov.
    destruct (path_exists _) eqn:Hex.
    + destruct (read_csv _) as [existing | |] eqn:Hread; [| done | done].
      intros [= <- <-]. split; [done |]. split; [apply touches_only_refl |].
      intros Hne. destruct (covered_present df _ Hne Hcov) as (t & Ht & Hrec).
      rewrite Ht in Hread.
      destruct (read_csv_present_nonempty t Hrec) as (ex & Hex' & Hdata).
      rewrite Hread in Hex'. by injection Hex' as ->.
    + intros [= <- <-]. split; [done |]. split; [apply touches_only_refl | done].
  - destruct (enrich _) as [new | |] eqn:Hnew; [| done | done].
    cbn [mbind Outcome_bind]. intros [= <- <-].
    assert (covered df (to_csv (merge_with_existing_results new (output o st))))
      as Hcov.
    { apply merge_covers; [done |].
      apply Henrich; [by apply filter_unprocessed_NoDup | done]. }
    split; [| split].
    + unfold save_results. by rewrite output_set_output.
    + apply touches_only_save.
    + intros Hne. destruct (covered_present df _ Hne Hcov) as (t & [= Ht] & Hrec).
      intros He. apply Hrec. rewrite <- Ht. cbn [records]. by rewrite He.
Qed.
End incremental.

(** ** The steps of the pipeline *)

Section steps.
Context (self : FeedbackAnalyzer) (llm : Capability).
Implicit Types (df final : DataFrame) (st : Store) (o : OutputFile).

Lemma process_comments_only_core st :
  process_comments_only self llm st
  = base_step CommentsOut (enrich_comments self llm) st.
Proof.
  unfold process_comments_only, base_step, incremental_core, enrich_comments.
  destruct (load_feedback_data st) as [df | |]; [| done | done].
  cbn [mbind Outcome_bind output]. destruct (empty df); [done |].
  destruct (empty _); [done |].
  by destruct (add_comments_async _ _ _ _).
Qed.

Lemma process_categories_only_core st :
  process_categories_only self llm st
  = base_step CategoriesOut (enrich_categories self llm) st.
Proof.
  unfold process_categories_only, base_step, incremental_core, enrich_categories.
  destruct (load_feedback_data st) as [df | |]; [| done | done].
  cbn [mbind Outcome_bind output]. destruct (empty df); [done |].
  destruct (empty _); [done |].
  by destruct (add_categories_async _ _ _ _).
Qed.

Lemma process_scenarios_only_core st :
  process_scenarios_only st = base_step ScenariosOut (enrich_scenarios st) st.
Proof.
  unfold process_scenarios_only, base_step, incremental_core, enrich_scenarios.
  destruct (load_feedback_data st) as [df | |]; [| done | done].
  cbn [mbind Outcome_bind output]. destruct (empty df); [done |].
  by destruct (empty _).
Qed.

Lemma process_feedback_comment_categories_only_core st :
  process_feedback_comment_categories_only self llm st
  = if path_exists (comments_output_file st) then
      df ← read_csv (comments_output_file st);
      incremental_core CommentCategoriesOut
        (enrich_comment_categories self llm) df st
    else Ok (empty_frame, st).
Proof.
  unfold process_feedback_comment_categories_only, incremental_core,
    enrich_comment_categories.
  destruct (path_exists _); [| done].
  destruct (read_csv (comments_output_file st)) as [df | |]; [| done | done].
  cbn [mbind Outcome_bind output]. destruct (empty _); [done |].
  by destruct (add_feedback_comment_categories_async _ _ _ _).
Qed.

Lemma enrich_comments_keeps : keeps_records (enrich_comments self llm).
Proof.
  intros u new Hnd. unfold enrich_comments.
  destruct (add_comments_async _ _ _ _) as [[out log] | |] eqn:Hrun; [| done | done].
  intros [= <-]. by eapply add_comments_async_same_records.
Qed.

Lemma enrich_categories_keeps : keeps_records (enrich_categories self llm).
Proof.
  intros u new Hnd. unfold enrich_categories.
  destruct (add_categories_async _ _ _ _) as [[out log] | |] eqn:Hrun; [| done | done].
  intros [= <-]. by eapply add_categories_async_same_records.
Qed.

Lemma enrich_comment_categories_keeps :
  keeps_records (enrich_comment_categories self llm).
Proof.
  intros u new Hnd. unfold enrich_comment_categories.
  destruct (add_feedback_comment_categories_async _ _ _ _)
    as [[out log] | |] eqn:Hrun; [| done | done].
  intros [= <-]. by eapply add_feedback_comment_categories_async_same_records.
Qed.

Lemma enrich_scenarios_keeps st : keeps_records (enrich_scenarios st).
Proof.
  intros u new Hnd [= <-]. by apply add_scenario_mapping_same_records.
Qed.

Lemma read_csv_NoDup f df : read_csv f = Ok df → NoDup (data df).*1.
Proof.
  destruct f as [| t | t]; [done | done |]. intros [= <-].
  apply range_index_NoDup.
Qed.

Lemma load_feedback_data_NoDup st df :
  load_feedback_data st = Ok df → NoDup (data df).*1.
Proof.
  unfold load_feedback_data.
  destruct (read_csv (data_file st)) as [d | [] |] eqn:Hread; intros [= <-].
  - by eapply read_csv_NoDup.
  - constructor.
Qed.

Lemma empty_spec df : empty df = true ↔ data df = [].
Proof. unfold empty. by destruct (data df). Qed.

(** A base step that returns has made its output cover the base data. *)
Lemma base_step_settles o enrich st final st' :
  keeps_records enrich →
  base_step o enrich st = Ok (final, st') →
  ∃ df, load_feedback_data st = Ok df
        ∧ covered df (output o st')
        ∧ touches_only o st st'
        ∧ empty final = empty df
        ∧ (empty df = true → final = df).
Proof.
  intros Hkeeps. unfold base_step.
  destruct (load_feedback_data st) as [df | |] eqn:Hload; [| done | done].
  cbn [mbind Outcome_bind]. intros Hrun. exists df. split; [done |].
  destruct (empty df) eqn:Hempty.
  - injection Hrun as <- <-. split; [| split; [apply touches_only_refl | done]].
    intros p Hp. apply empty_spec in Hempty. rewrite Hempty in Hp.
    by apply not_elem_of_nil in Hp.
  - destruct (incremental_core_settles o enrich df st final st') as (Hc & Ht & Hne);
      [by eapply load_feedback_data_NoDup | done | done |].
    split; [done |]. split; [done |]. split; [| done].
    apply not_true_iff_false. rewrite empty_spec. apply Hne.
    intros He. apply empty_spec in He. congruence.
Qed.

(** A base step whose output covers the base data returns at once, with
    the store as it was, whatever the capability would answer. *)
Lemma base_step_settled o enrich st df :
  load_feedback_data st = Ok df →
  covered df (output o st) →
  ∃ final, base_step o enrich st = Ok (final, st)
           ∧ empty final = empty df
           ∧ (empty df = true → final = df)
           ∧ ∀ enrich', base_step o enrich' st = Ok (final, st).
Proof.
  intros Hload Hcov. unfold base_step. rewrite Hload. cbn [mbind Outcome_bind].
  destruct (empty df) eqn:Hempty; [by exists df |].
  pose proof (load_feedback_data_NoDup st df Hload) as Hnd.
  assert (data df ≠ []) as Hne.
  { intros He. apply empty_spec in He. congruence. }
  destruct (covered_present df _ Hne Hcov) as (t & Ht & Hrec).
  destruct (read_csv_present_nonempty t Hrec) as (existing & Hread & Hdata).
  exists existing.
  assert (∀ enrich', incremental_core o enrich' df st = Ok (existing, st)) as Hany.
  { intros enrich'. rewrite incremental_core_settled by done.
    rewrite Ht. cbn [path_exists]. by rewrite Hread. }
  split; [apply Hany |]. split; [| split; [done | apply Hany]].
  apply not_true_iff_false. by rewrite empty_spec.
Qed.

(** The step of the comment categories, whose source is the comments
    output. *)
Lemma comment_categories_step_settles st final st' :
  process_feedback_comment_categories_only self llm st = Ok (final, st') →
  touches_only CommentCategoriesOut st st'
  ∧ ∀ df, read_csv (comments_output_file st) = Ok df →
          covered df (comment_categories_output_file st').
Proof.
  rewrite process_feedback_comment_categories_only_core.
  destruct (path_exists _) eqn:Hex.
  - destruct (read_csv (comments_output_file st)) as [df | |] eqn:Hread;
      [| done | done].
    cbn [mbind Outcome_bind]. intros Hrun.
    destruct (incremental_core_settles CommentCategoriesOut
                (enrich_comment_categories self llm) df st final st')
      as (Hc & Ht & _);
      [by eapply read_csv_NoDup | apply enrich_comment_categories_keeps | done |].
    split; [done |]. by intros df' [= <-].
  - intros [= <- <-]. split; [apply touches_only_refl |].
    intros df Hread. by destruct (comments_output_file st).
Qed.

Lemma comment_categories_step_settled st t :
  comments_output_file st = Present t →
  records t ≠ [] →
  (∀ df, read_csv (comments_output_file st) = Ok df →
         covered df (comment_categories_output_file st)) →
  ∃ final, process_feedback_comment_categories_only self llm st = Ok (final, st).
Proof.
  intros Hfile Hrec Hcov.
  rewrite process_feedback_comment_categories_only_core, Hfile.
  cbn [path_exists].
  destruct (read_csv_present_nonempty t Hrec) as (df & Hread & Hdata).
  rewrite Hread. cbn [mbind Outcome_bind].
  assert (covered df (output CommentCategoriesOut st)) as Hc.
  { apply Hcov. by rewrite Hfile. }
  rewrite incremental_core_settled by (done || by eapply read_csv_NoDup).
  destruct (covered_present df _ Hdata Hc) as (t' & Ht' & Hrec').
  rewrite Ht'. cbn [path_exists]. by eexists.
Qed.
End steps.

(** ** The store across steps, and the consolidator *)

Section store.
Implicit Types (df final : DataFrame) (st : Store) (o : OutputFile).

Lemma touches_only_other o o' st st' :
  touches_only o st st' → o' ≠ o → output o' st' = output o' st.
Proof. intros Ht Hne. rewrite Ht. by destruct o, o'. Qed.

Lemma touches_only_data_file o st st' :
  touches_only o st st' → data_file st' = data_file st.
Proof. intros Ht. rewrite Ht. by destruct o. Qed.

Lemma touches_only_load o st st' :
  touches_only o st st' → load_feedback_data st' = load_feedback_data st.
Proof.
  intros Ht. unfold load_feedback_data.
  by rewrite (touches_only_data_file o st st' Ht).
Qed.

Lemma merge_files_consolidated st :
  merge_files st
  = base_df ← load_feedback_data st;
    if empty base_df then Ok (base_df, st)
    else result_df ← consolidated st base_df;
         Ok (result_df, save_results result_df MergedOut st).
Proof.
  unfold merge_files, consolidated.
  destruct (load_feedback_data st) as [base_df | |]; [| done | done].
  cbn [mbind Outcome_bind]. destruct (empty base_df); [done |].
  unfold mbind, Outcome_bind.
  repeat (case_match; simplify_eq; try done).
Qed.

Lemma consolidated_ignores_merged st m base_df :
  consolidated (set_output MergedOut m st) base_df = consolidated st base_df.
Proof. by destruct st. Qed.

Lemma merge_files_touches st out st' :
  merge_files st = Ok (out, st') → touches_only MergedOut st st'.
Proof.
  rewrite merge_files_consolidated.
  destruct (load_feedback_data st) as [base_df | |]; [| done | done].
  cbn [mbind Outcome_bind]. destruct (empty base_df).
  - intros [= <- <-]. apply touches_only_refl.
  - destruct (consolidated st base_df) as [r | |]; [| done | done].
    intros [= <- <-]. exact (touches_only_save MergedOut r st).
Qed.

(** Consolidating again gives the same analyzed dataset and the same
    store. *)
(** The last two lines of [run_full_analysis]: it returns what the
    consolidator gave, once the report on it is through. *)
Lemma report_through (m : Outcome (DataFrame * Store)) analyzed st' :
  (final ← m; _ ← generate_summary_report final.1; Ok final)
  = Ok (analyzed, st') →
  m = Ok (analyzed, st') ∧ generate_summary_report analyzed = Ok tt.
Proof.
  destruct m as [[f5 s5] | |]; [| done | done].
  cbn [mbind Outcome_bind fst snd].
  destruct (generate_summary_report f5) as [[] | |] eqn:Hreport;
    [| done | done].
  cbn [mbind Outcome_bind]. by intros [= -> ->].
Qed.

Lemma generate_summary_report_Ok df :
  generate_summary_report df = Ok tt
  ↔ empty df = false
    ∧ has_column "feedback_comment" df = true
    ∧ comment_dtype df = object.
Proof.
  unfold generate_summary_report.
  destruct (empty df); [naive_solver |].
  destruct (has_column _ df); [| naive_solver].
  case_bool_decide; naive_solver.
Qed.

Lemma merge_files_again st out st' :
  merge_files st = Ok (out, st') → merge_files st' = Ok (out, st').
Proof.
  intros Hrun. pose proof (merge_files_touches st out st' Hrun) as Ht.
  rewrite merge_files_consolidated in *.
  rewrite (touches_only_load MergedOut st st' Ht).
  destruct (load_feedback_data st) as [base_df | |]; [| done | done].
  cbn [mbind Outcome_bind] in *. destruct (empty base_df); [by injection Hrun as <- <- |].
  destruct (consolidated st base_df) as [r | |] eqn:Hc; [| done | done].
  assert (st' = set_output MergedOut (to_csv r) st ∧ out = r) as [-> ->]
    by (by injection Hrun as <- <-).
  rewrite consolidated_ignores_merged, Hc. by destruct st.
Qed.
End store.

(** ** Idempotent incremental processing *)

Lemma filter_unprocessed_of_empty (df : DataFrame) (f : FileState Table) :
  data df = [] → data (filter_unprocessed_records df f) = [].
Proof.
  intros He. apply covered_filter_empty.
  - rewrite He. constructor.
  - intros p Hp. rewrite He in Hp. by apply not_elem_of_nil in Hp.
Qed.

(** C3: after a run of the full pipeline that returned, a second run on
    the same base data - whatever the capability would answer this time -
    finds nothing left to process in any of its steps, returns the same
    analyzed dataset and leaves every file as the first run left it. *)
Theorem second_run_is_noop (self : FeedbackAnalyzer) (llm1 llm2 : Capability)
    (st st1 : Store) (analyzed : DataFrame) :
  run_full_analysis self llm1 st = Ok (analyzed, st1) →
  run_full_analysis self llm2 st1 = Ok (analyzed, st1)
  ∧ ∀ base_df,
      load_feedback_data st1 = Ok base_df →
      data (filter_unprocessed_records base_df (comments_output_file st1)) = []
      ∧ data (filter_unprocessed_records base_df (categories_output_file st1)) = []
      ∧ data (filter_unprocessed_records base_df (scenarios_output_file st1)) = []
      ∧ (data base_df ≠ [] →
         ∀ comments_df,
           read_csv (comments_output_file st1) = Ok comments_df →
           data (filter_unprocessed_records comments_df
                   (comment_categories_output_file st1)) = []).
Proof.
  unfold run_full_analysis. intros Hrun.
  destruct (process_comments_only self llm1 st) as [[f1 s1] | |] eqn:H1;
    [| done | done].
  cbn [mbind Outcome_bind fst snd] in Hrun.
  rewrite process_comments_only_core in H1.
  destruct (base_step_settles _ _ _ _ _ (enrich_comments_keeps self llm1) H1)
    as (df & Hload & Hcov1 & Ht1 & Hemp1 & Hdf1).
  pose proof (load_feedback_data_NoDup st df Hload) as Hnd.
  destruct (empty f1) eqn:Hf1.
  - (* no base data *)
    injection Hrun as <- <-. symmetry in Hemp1.
    assert (load_feedback_data s1 = Ok df) as Hload1
      by by rewrite (touches_only_load _ _ _ Ht1).
    split.
    + rewrite process_comments_only_core.
      destruct (base_step_settled CommentsOut (enrich_comments self llm2) s1 df
                  Hload1 Hcov1) as (f1' & -> & _ & Hsame & _).
      cbn [mbind Outcome_bind fst snd].
      rewrite (Hsame Hemp1), (Hdf1 Hemp1), Hemp1. done.
    + intros base_df Hb. rewrite Hload1 in Hb. injection Hb as <-.
      apply empty_spec in Hemp1.
      repeat split; try by apply filter_unprocessed_of_empty.
      done.
  - (* the four steps and the consolidation *)
    destruct (process_categories_only self llm1 s1) as [[f2 s2] | |] eqn:H2;
      [| done | done].
    cbn [mbind Outcome_bind fst snd] in Hrun.
    destruct (process_feedback_comment_categories_only self llm1 s2)
      as [[f3 s3] | |] eqn:H3; [| done | done].
    cbn [mbind Outcome_bind fst snd] in Hrun.
    destruct (process_scenarios_only s3) as [[f4 s4] | |] eqn:H4;
      [| done | done].
    cbn [mbind Outcome_bind fst snd] in Hrun.
    rewrite process_categories_only_core in H2.
    rewrite process_scenarios_only_core in H4.
    destruct (base_step_settles _ _ _ _ _ (enrich_categories_keeps self llm1) H2)
      as (df2 & Hload2 & Hcov2 & Ht2 & _ & _).
    destruct (comment_categories_step_settles self llm1 _ _ _ H3) as (Ht3 & Hcov3).
    destruct (base_step_settles _ _ _ _ _ (enrich_scenarios_keeps s3) H4)
      as (df4 & Hload4 & Hcov4 & Ht4 & _ & _).
    apply report_through in Hrun as [H5 Hreport].
    pose proof (merge_files_touches _ _ _ H5) as Ht5.
    (* the base data is the same all along *)
    assert (load_feedback_data s1 = Ok df) as Hl1
      by by rewrite (touches_only_load _ _ _ Ht1).
    assert (load_feedback_data s2 = Ok df) as Hl2
      by by rewrite (touches_only_load _ _ _ Ht2).
    assert (load_feedback_data s3 = Ok df) as Hl3
      by by rewrite (touches_only_load _ _ _ Ht3).
    assert (load_feedback_data s4 = Ok df) as Hl4
      by by rewrite (touches_only_load _ _ _ Ht4).
    assert (load_feedback_data st1 = Ok df) as Hl5
      by by rewrite (touches_only_load _ _ _ Ht5).
    rewrite Hl1 in Hload2. injection Hload2 as <-.
    rewrite Hl3 in Hload4. injection Hload4 as <-.
    (* the outputs of the first run, as the final store holds them *)
    assert (comments_output_file st1 = comments_output_file s1) as Hc1.
    { change (output CommentsOut st1 = output CommentsOut s1).
      rewrite (touches_only_other _ CommentsOut _ _ Ht5) by done.
      rewrite (touches_only_other _ CommentsOut _ _ Ht4) by done.
      rewrite (touches_only_other _ CommentsOut _ _ Ht3) by done.
      by rewrite (touches_only_other _ CommentsOut _ _ Ht2) by done. }
    assert (categories_output_file st1 = categories_output_file s2) as Hc2.
    { change (output CategoriesOut st1 = output CategoriesOut s2).
      rewrite (touches_only_other _ CategoriesOut _ _ Ht5) by done.
      rewrite (touches_only_other _ CategoriesOut _ _ Ht4) by done.
      by rewrite (touches_only_other _ CategoriesOut _ _ Ht3) by done. }
    assert (comment_categories_output_file st1
            = comment_categories_output_file s3) as Hc3.
    { change (output CommentCategoriesOut st1 = output CommentCategoriesOut s3).
      rewrite (touches_only_other _ CommentCategoriesOut _ _ Ht5) by done.
      by rewrite (touches_only_other _ CommentCategoriesOut _ _ Ht4) by done. }
    assert (scenarios_output_file st1 = scenarios_output_file s4) as Hc4.
    { change (output ScenariosOut st1 = output ScenariosOut s4).
      by rewrite (touches_only_other _ ScenariosOut _ _ Ht5) by done. }
    assert (comments_output_file s2 = comments_output_file s1) as Hc12.
    { change (output CommentsOut s2 = output CommentsOut s1).
      by rewrite (touches_only_other _ CommentsOut _ _ Ht2) by done. }
    change (covered df (comments_output_file s1)) in Hcov1.
    change (covered df (categories_output_file s2)) in Hcov2.
    change (covered df (scenarios_output_file s4)) in Hcov4.
    rewrite <- Hc1 in Hcov1. rewrite <- Hc2 in Hcov2. rewrite <- Hc4 in Hcov4.
    rewrite Hc12, <- Hc1 in Hcov3. rewrite <- Hc3 in Hcov3.
    assert (empty df = false) as Hdf by done.
    assert (data df ≠ []) as Hne.
    { intros He%empty_spec. congruence. }
    split.
    + rewrite process_comments_only_core.
      destruct (base_step_settled CommentsOut (enrich_comments self llm2) st1 df
                  Hl5 Hcov1) as (f1' & -> & Hemp1' & _ & _).
      cbn [mbind Outcome_bind fst snd]. rewrite Hemp1', Hdf.
      rewrite process_categories_only_core.
      destruct (base_step_settled CategoriesOut (enrich_categories self llm2) st1 df
                  Hl5 Hcov2) as (f2' & -> & _).
      cbn [mbind Outcome_bind fst snd].
      destruct (covered_present df _ Hne Hcov1) as (t & Ht & Hrec).
      destruct (comment_categories_step_settled self llm2 st1 t Ht Hrec Hcov3)
        as (f3' & ->).
      cbn [mbind Outcome_bind fst snd].
      rewrite process_scenarios_only_core.
      destruct (base_step_settled ScenariosOut (enrich_scenarios st1) st1 df
                  Hl5 Hcov4) as (f4' & -> & _).
      cbn [mbind Outcome_bind fst snd].
      rewrite (merge_files_again s4 analyzed st1) by done.
      cbn [mbind Outcome_bind fst snd]. by rewrite Hreport.
    + intros base_df Hb. rewrite Hl5 in Hb. injection Hb as <-.
      split; [by apply covered_filter_empty |].
      split; [by apply covered_filter_empty |].
      split; [by apply covered_filter_empty |].
      intros _ comments_df Hread. apply covered_filter_empty.
      * by eapply read_csv_NoDup.
      * by apply Hcov3.
Qed.

Lemma second_run_is_noop_witness :
  match run_full_analysis SampleBatch.self SampleBatch.llm SampleScenario.store with
  | Ok (analyzed, st1) =>
      run_full_analysis SampleBatch.self (λ _ _, Failure) st1 = Ok (analyzed, st1)
      ∧ scenario <$> rows analyzed = [Some "B"; Some "B"; Some "A"]
  | _ => False
  end.
Proof.
  destruct (run_full_analysis SampleBatch.self SampleBatch.llm SampleScenario.store)
    as [[analyzed st1] | e |] eqn:Hrun.
  - split.
    + apply (second_run_is_noop SampleBatch.self SampleBatch.llm (λ _ _, Failure)
               SampleScenario.store st1 analyzed Hrun).
    + vm_compute in Hrun. injection Hrun as <- _. reflexivity.
  - vm_compute in Hrun. discriminate Hrun.
  - vm_compute in Hrun. discriminate Hrun.
Defined.

(** ** The event loop and [gather] *)

Section event_loop.
Context {A : Type} (llm : Capability).
Implicit Types (s : Sched A) (t : nat * TaskState A) (c : Coro A)
  (tasks : list (nat * Coro A)).

Lemma sum_list_insert (l : list nat) (i x y : nat) :
  l !! i = Some x → sum_list (<[i:=y]> l) + x = sum_list l + y.
Proof.
  revert i. induction l as [|z l IH]; intros [|i] Hi; simplify_eq/=; [lia |].
  specialize (IH i Hi). lia.
Qed.

Lemma work_insert s i idx (old new : TaskState A) :
  pool s !! i = Some (idx, old) →
  sum_list ((λ t, remaining_of (llm t.1) t.2) <$> <[i:=(idx, new)]> (pool s))
  + remaining_of (llm idx) old
  = work llm s + remaining_of (llm idx) new.
Proof.
  intros Hi. unfold work. rewrite list_fmap_insert.
  apply (sum_list_insert _ i). by rewrite list_lookup_fmap, Hi.
Qed.

(** Every move takes one unit of the remaining work. *)
Lemma step_work s s' : step llm s s' → work llm s = S (work llm s').
Proof.
  intros Hstep.
  destruct Hstep as [s i idx c Hi Hpos | s i idx c Hi | s i idx req c Hi
                    | s i idx req c Hi]; unfold work at 2; cbn [pool].
  - pose proof (work_insert s i idx _ (Running c) Hi) as H.
    cbn [remaining_of remaining] in H. lia.
  - pose proof (work_insert s i idx _ (Running c) Hi) as H.
    cbn [remaining_of remaining] in H. lia.
  - pose proof (work_insert s i idx _ (Calling req c) Hi) as H.
    cbn [remaining_of remaining] in H. lia.
  - pose proof (work_insert s i idx _ (Running (c (llm idx req))) Hi) as H.
    cbn [remaining_of remaining] in H. lia.
Qed.

(** So a run of the event loop makes at most [work] moves. *)
Lemma steps_bounded s s' (n : nat) :
  nsteps (step llm) n s s' → work llm s = n + work llm s'.
Proof.
  induction 1 as [|n s1 s2 s3 Hstep _ IH]; [done |].
  rewrite (step_work _ _ Hstep), IH. lia.
Qed.

(** The tasks keep their places and labels, and what each will return
    does not depend on the interleaving. *)
Lemma step_results s s' :
  step llm s s' →
  (λ t, (t.1, result_of (llm t.1) t.2)) <$> pool s'
  = (λ t, (t.1, result_of (llm t.1) t.2)) <$> pool s.
Proof.
  intros Hstep.
  destruct Hstep as [s i idx c Hi Hpos | s i idx c Hi | s i idx req c Hi
                    | s i idx req c Hi]; cbn [pool];
    rewrite list_fmap_insert; apply list_insert_id;
    rewrite list_lookup_fmap, Hi;
    cbn [fmap option_fmap option_map fst snd result_of run];
    try done.
  by destruct (run _ _).
Qed.

Lemma reachable_results tasks (k : nat) s :
  rtc (step llm) (init k tasks) s →
  (λ t, (t.1, result_of (llm t.1) t.2)) <$> pool s
  = (λ task, (task.1, (run (llm task.1) task.2).1)) <$> tasks.
Proof.
  intros Hreach.
  assert (∀ s0, rtc (step llm) s0 s →
                (λ t, (t.1, result_of (llm t.1) t.2)) <$> pool s
                = (λ t, (t.1, result_of (llm t.1) t.2)) <$> pool s0) as Hinv.
  { intros s0. induction 1 as [|s1 s2 s3 Hstep _ IH]; [done |].
    by rewrite IH, (step_results _ _ Hstep). }
  rewrite (Hinv _ Hreach). unfold init. cbn [pool].
  rewrite <- list_fmap_compose. by apply list_fmap_ext.
Qed.

(** When every task has returned, the values are those [gather] hands
    back, in task order. *)
Lemma gather_adequate tasks (k k' : nat) s results log :
  rtc (step llm) (init k tasks) s →
  Forall (λ t, finished t = true) (pool s) →
  gather k' llm tasks = Ok (results, log) →
  pool s = (λ task_result : (nat * Coro A) * A,
              (task_result.1.1, Running (Ret task_result.2)))
             <$> zip tasks results.
Proof.
  intros Hreach Hfin Hg.
  assert (results = (λ task, (run (llm task.1) task.2).1) <$> tasks) as ->.
  { unfold gather in Hg. destruct (_ && _); [done |]. by injection Hg as <- _. }
  pose proof (reachable_results tasks k s Hreach) as Hres.
  clear Hreach Hg. revert tasks Hres.
  induction (pool s) as [|t p IH]; intros [|task tasks] Hres; simplify_eq/=;
    [done |].
  apply Forall_cons in Hfin as [Ht Hp].
  destruct t as [idx [c | req c]]; [| done].
  destruct c; try done. cbn in *. subst. f_equal. by apply IH.
Qed.

(** With a permit to give, the event loop never stalls before every task
    has returned. *)
Lemma gate_progress (k : nat) s :
  0 < k → gate_invariant k s →
  (∃ t, t ∈ pool s ∧ finished t = false) →
  ∃ s', step llm s s'.
Proof.
  intros Hk [Hgated Hcount] (t & Ht & Hunf). unfold holders in Hcount.
  destruct (filter (λ t, holds t.2 = true) (pool s)) as [|h hs] eqn:Hf.
  - (* nobody holds a permit: the unfinished task can take one *)
    apply list_elem_of_lookup in Ht as [i Hi].
    pose proof (filter_nil_not_elem_of _ _ t Hf) as Hnot.
    destruct t as [idx [c | req c]].
    + destruct c as [a | c | c | req c].
      * done.
      * eexists. apply (step_acquire llm s i idx c Hi). simpl in Hcount. lia.
      * destruct Hnot; [done | by eapply list_elem_of_lookup_2].
      * destruct Hnot; [done | by eapply list_elem_of_lookup_2].
    + destruct Hnot; [done | by eapply list_elem_of_lookup_2].
  - (* somebody holds one: that task can move *)
    assert (h ∈ filter (λ t, holds t.2 = true) (pool s)) as Hh
      by (rewrite Hf; left).
    apply list_elem_of_filter in Hh as [Hholds [i Hi]%list_elem_of_lookup].
    destruct h as [idx [c | req c]].
    + destruct c as [a | c | c | req c]; try done.
      * eexists. apply (step_release llm s i idx c Hi).
      * eexists. apply (step_send llm s i idx req c Hi).
    + eexists. apply (step_receive llm s i idx req c Hi).
Qed.

Lemma step_will_acquire s s' :
  step llm s s' → permits s = 0 →
  (λ t, (t.1, will_acquire (llm t.1) t.2)) <$> pool s'
  = (λ t, (t.1, will_acquire (llm t.1) t.2)) <$> pool s.
Proof.
  intros Hstep Hnone.
  destruct Hstep as [s i idx c Hi Hpos | s i idx c Hi | s i idx req c Hi
                    | s i idx req c Hi]; [lia | ..]; cbn [pool];
    rewrite list_fmap_insert; apply list_insert_id;
    by rewrite list_lookup_fmap, Hi.
Qed.

Lemma will_acquire_kept s0 s :
  gate_invariant 0 s0 → rtc (step llm) s0 s →
  (λ t, (t.1, will_acquire (llm t.1) t.2)) <$> pool s
  = (λ t, (t.1, will_acquire (llm t.1) t.2)) <$> pool s0.
Proof.
  intros Hinv0 Hreach. induction Hreach as [|s1 s2 s3 Hstep _ IH]; [done |].
  rewrite IH by by eapply gate_invariant_step.
  apply step_will_acquire; [done |]. destruct Hinv0 as [_ ?]. lia.
Qed.

(** Without a permit, a task that needs the semaphore never returns. *)
Lemma blocked_forever tasks s (i : nat) (task : nat * Coro A) :
  Forall (λ task, well_gated false task.2) tasks →
  rtc (step llm) (init 0 tasks) s →
  tasks !! i = Some task →
  acquires (llm task.1) task.2 = true →
  ∃ t, pool s !! i = Some t ∧ finished t = false.
Proof.
  intros Hgated Hreach Hi Hacq.
  pose proof (will_acquire_kept _ _ (gate_invariant_init 0 tasks Hgated) Hreach)
    as Hinv.
  apply (f_equal (λ l, l !! i)) in Hinv.
  rewrite !list_lookup_fmap in Hinv. unfold init in Hinv. cbn [pool] in Hinv.
  rewrite list_lookup_fmap, Hi in Hinv. cbn in Hinv.
  destruct (pool s !! i) as [[idx t] |]; [| done].
  exists (idx, t). split; [done |]. cbn in Hinv. injection Hinv as -> Hw.
  unfold finished. cbn [snd]. destruct t as [[a | | |] |]; try done.
  cbn in Hw. congruence.
Qed.
End event_loop.

(** The step of the comment categories runs under its dispatcher's default
    of 20 permits: the configured limit plays no part in it. *)
Remark comment_categories_limit (self self' : FeedbackAnalyzer)
    (llm : Capability) (st : Store) :
  resolve self (Some 20) = 20
  ∧ process_feedback_comment_categories_only self llm st
    = process_feedback_comment_categories_only self' llm st.
Proof. split; reflexivity. Qed.

(** A merge with a readable prior output leaves no identity twice. *)
Lemma merge_present_distinct (new_df : DataFrame) (t : Table) :
  NoDup (create_record_key
           <$> rows (merge_with_existing_results new_df (Present t))).
Proof.
  unfold rows, merge_with_existing_results. cbn [path_exists negb read_csv data].
  rewrite <- list_fmap_compose. apply drop_duplicates_last_NoDup.
Qed.

Section merge_more.
Implicit Types (r : Row) (p : nat * Row) (df : DataFrame) (t : Table).

Lemma merge_present_keys new_df t k :
  k ∈ create_record_key <$> rows (merge_with_existing_results new_df (Present t))
  ↔ k ∈ create_record_key <$> records t ∨ k ∈ create_record_key <$> rows new_df.
Proof.
  destruct (merge_present_rows new_df t) as (l & Hd & Hl).
  unfold rows at 1. rewrite Hd, <- list_fmap_compose.
  rewrite (drop_duplicates_last_keys create_record_key l k).
  rewrite list_fmap_compose, Hl, fmap_app, elem_of_app.
  rewrite <- !list_fmap_compose.
  by rewrite !(list_fmap_ext (create_record_key ∘ reindex _) create_record_key)
    by (intros; apply reindex_key).
Qed.

Lemma merge_present_sublist new_df t :
  sublist (rows (merge_with_existing_results new_df (Present t)))
          ((reindex (header t) <$> records t)
           ++ (reindex (columns new_df) <$> rows new_df)).
Proof.
  destruct (merge_present_rows new_df t) as (l & Hd & Hl).
  unfold rows at 1. rewrite Hd, <- Hl.
  apply fmap_sublist, drop_duplicates_last_sublist.
Qed.

Lemma merge_present_prior new_df t X r :
  last (filter (λ r, create_record_key r = X) (records t)) = Some r →
  X ∉ create_record_key <$> rows new_df →
  filter (λ r, create_record_key r = X)
         (rows (merge_with_existing_results new_df (Present t)))
  = [reindex (header t) r].
Proof.
  intros Hlast Hnew. destruct (merge_present_rows new_df t) as (l & Hd & Hl).
  unfold rows at 1. rewrite Hd.
  pose proof (filter_snd (λ r, create_record_key r = X)
                (drop_duplicates_last create_record_key l)) as Hf'.
  simpl in Hf'. rewrite <- Hf'.
  rewrite (drop_duplicates_last_filter create_record_key l X).
  assert (snd <$> last (filter (λ p, create_record_key p.2 = X) l)
          = Some (reindex (header t) r)) as Hsnd.
  { pose proof (filter_snd (λ r, create_record_key r = X) l) as Hf.
    simpl in Hf. rewrite <- fmap_last, Hf, Hl.
    rewrite filter_app.
    rewrite !(filter_fmap_key _ create_record_key) by apply reindex_key.
    rewrite (filter_none _ (rows new_df)), app_nil_r.
    - by rewrite fmap_last, Hlast.
    - intros x Hx <-. apply Hnew. by apply list_elem_of_fmap_2. }
  destruct (last (filter (λ p, create_record_key p.2 = X) l)) as [p|];
    [| done].
  simpl in *. by injection Hsnd as ->.
Qed.

End merge_more.
Lemma cell_reindex_full (c : string) (cols : list string) (r : Row) :
  cell c (reindex cols r) = if bool_decide (c ∈ cols) then cell c r else None.
Proof.
  unfold cell, reindex. cbn [feedback_comment category sub_category
    feedback_comment_category scenario].
  destruct (String.eqb_spec c "feedback_comment") as [-> |]; [done |].
  destruct (String.eqb_spec c "category") as [-> |]; [done |].
  destruct (String.eqb_spec c "sub_category") as [-> |]; [done |].
  destruct (String.eqb_spec c "feedback_comment_category") as [-> |]; [done |].
  destruct (String.eqb_spec c "scenario") as [-> |]; [done |].
  by case_bool_decide.
Qed.

(** X1 ([merge_with_existing_results]): a merge with a readable prior
    output neither loses nor invents a record.  The merged frame holds
    every identity of the prior output and of the batch, and no other; it
    holds each of them once; its rows are rows of the prior output followed
    by rows of the batch, in their order; and its columns are those of the
    prior output followed by the batch's new ones. *)
Theorem merge_keeps_every_identity (new_df : DataFrame) (prior_output : Table) :
  let merged := merge_with_existing_results new_df (Present prior_output) in
  NoDup (create_record_key <$> rows merged)
  ∧ (∀ k, k ∈ create_record_key <$> rows merged
          ↔ k ∈ create_record_key <$> records prior_output
            ∨ k ∈ create_record_key <$> rows new_df)
  ∧ sublist (rows merged)
      ((reindex (header prior_output) <$> records prior_output)
       ++ (reindex (columns new_df) <$> rows new_df))
  ∧ columns merged
    = header prior_output
      ++ filter (λ c, c ∉ header prior_output) (columns new_df).
Proof.
  intros merged. split; [| split; [| split]].
  - unfold merged, rows, merge_with_existing_results.
    cbn [path_exists negb read_csv data]. rewrite <- list_fmap_compose.
    apply drop_duplicates_last_NoDup.
  - intros k. apply merge_present_keys.
  - apply merge_present_sublist.
  - reflexivity.
Qed.

(** X2 ([merge_with_existing_results]): a record of a readable prior
    output whose identity the batch does not contain survives the merge
    with its annotations.  The merged frame has exactly one row with that
    identity; it has the identity fields and the rating of the last prior
    row with the identity, and in every column of the prior output the
    value of that row (NaN in the columns the batch adds). *)
Theorem merge_keeps_untouched_prior (new_df : DataFrame) (prior_output : Table)
    (X : string) (r : Row) :
  last (filter (λ r, create_record_key r = X) (records prior_output)) = Some r →
  X ∉ create_record_key <$> rows new_df →
  ∃ kept,
    filter (λ r, create_record_key r = X)
      (rows (merge_with_existing_results new_df (Present prior_output)))
    = [kept]
    ∧ request_time kept = request_time r
    ∧ user_question kept = user_question r
    ∧ bot_answer kept = bot_answer r
    ∧ feedback_rating kept = feedback_rating r
    ∧ ∀ c, cell c kept
           = if bool_decide (c ∈ header prior_output) then cell c r else None.
Proof.
  intros Hlast Hnew. exists (reindex (header prior_output) r).
  split; [by apply merge_present_prior |].
  repeat (split; [reflexivity |]). intros c. apply cell_reindex_full.
Qed.

Lemma merge_keeps_untouched_prior_witness :
  ∃ kept,
    filter (λ r, create_record_key r = "t0|q0|a0")
      (rows (merge_with_existing_results Sample.new_batch
               (Present Sample.prior_output)))
    = [kept]
    ∧ cell "category" kept = Some "kept"
    ∧ cell "scenario" kept = None.
Proof.
  destruct (merge_keeps_untouched_prior Sample.new_batch Sample.prior_output
              "t0|q0|a0" (row_categorised "t0" "q0" "a0" "kept"))
    as (kept & Hrows & _ & _ & _ & _ & Hcells).
  - reflexivity.
  - apply (bool_decide_unpack _). vm_compute. reflexivity.
  - exists kept. split; [exact Hrows |].
    split; [exact (Hcells "category") | exact (Hcells "scenario")].
Defined.

Section stored_records.
Context (self : FeedbackAnalyzer) (llm : Capability).
Implicit Types (df new final : DataFrame) (st : Store) (o : OutputFile)
  (t : Table) (r : Row).

Lemma reindex_sub (cols cols' : list string) r :
  cols ⊆ cols' → reindex cols' (reindex cols r) = reindex cols r.
Proof.
  intros Hsub. unfold reindex. cbn.
  f_equal; repeat case_bool_decide; try done; exfalso; naive_solver.
Qed.

Lemma stored_present t X :
  stored (Present t) X
  = reindex (header t) <$> last (filter (λ r, create_record_key r = X) (records t)).
Proof.
  unfold stored, rows. cbn [read_csv data]. rewrite range_index_snd.
  rewrite (filter_fmap_key _ create_record_key) by apply reindex_key.
  by rewrite fmap_last.
Qed.

Lemma stored_to_csv df X :
  stored (to_csv df) X
  = reindex (columns df) <$> last (filter (λ r, create_record_key r = X) (rows df)).
Proof. unfold to_csv. by rewrite stored_present. Qed.

Lemma stored_processed f X r :
  stored f X = Some r → X ∈ get_processed_records f.
Proof.
  destruct f as [| t | t]; [done | done |].
  rewrite stored_present. intros Hs. apply elem_of_processed.
  destruct (last _) as [r0 |] eqn:Hlast; [| done].
  apply last_Some_elem_of, list_elem_of_filter in Hlast as [<- Hin].
  by apply list_elem_of_fmap_2.
Qed.

Lemma incremental_core_stable o enrich df st final st' X r :
  NoDup (data df).*1 →
  keeps_records enrich →
  incremental_core o enrich df st = Ok (final, st') →
  stored (output o st) X = Some r →
  stored (output o st') X = Some r.
Proof.
  intros Hnd Henrich. unfold incremental_core.
  destruct (empty _) eqn:Hempty.
  - destruct (path_exists _).
    + destruct (read_csv _); [| done | done]. by intros [= <- <-].
    + by intros [= <- <-].
  - destruct (enrich _) as [new | |] eqn:Hnew; [| done | done].
    cbn [mbind Outcome_bind]. intros [= <- <-] Hs.
    unfold save_results. rewrite output_set_output.
    pose proof (stored_processed _ _ _ Hs) as Hin.
    destruct (output o st) as [| t | t] eqn:Hout; [done | done |].
    rewrite stored_present in Hs.
    destruct (last (filter _ (records t))) as [r0 |] eqn:Hlast; [| done].
    injection Hs as <-.
    assert (X ∉ create_record_key <$> rows new) as Hnot.
    { destruct (Henrich _ new (filter_unprocessed_NoDup df (Present t) Hnd) Hnew)
        as [_ Hkeys].
      rewrite Hkeys, filter_unprocessed_data by done.
      unfold rows. cbn [data].
      intros (q & -> & Hq)%list_elem_of_fmap.
      apply list_elem_of_fmap in Hq as (p & -> & Hp).
      by apply list_elem_of_filter in Hp as [Hp _]. }
    rewrite stored_to_csv, (merge_present_prior new t X r0 Hlast Hnot).
    cbn [last fmap option_fmap option_map columns merge_with_existing_results].
    f_equal. apply reindex_sub. cbn. set_solver.
Qed.

End stored_records.

(** X3 (the four steps): a step never drops or alters a record its output
    already holds.  If a later read of the output finds the row [r] for an
    identity before the step, it finds the same row, with every annotation,
    after it, whatever the step enriched and merged meanwhile. *)
Theorem steps_keep_stored_records (self : FeedbackAnalyzer) (llm : Capability)
    (o : OutputFile) (st st' : Store) (final : DataFrame) (X : string) (r : Row) :
  o ≠ MergedOut →
  pipeline_step self llm o st = Ok (final, st') →
  stored (output o st) X = Some r →
  stored (output o st') X = Some r.
Proof.
  intros Ho. destruct o; [| | | | done]; cbn [pipeline_step].
  - rewrite process_comments_only_core. unfold base_step.
    destruct (load_feedback_data st) as [df | |] eqn:Hload; [| done | done].
    cbn [mbind Outcome_bind]. destruct (empty df); [by intros [= <- <-] |].
    apply incremental_core_stable;
      [by eapply load_feedback_data_NoDup | apply enrich_comments_keeps].
  - rewrite process_categories_only_core. unfold base_step.
    destruct (load_feedback_data st) as [df | |] eqn:Hload; [| done | done].
    cbn [mbind Outcome_bind]. destruct (empty df); [by intros [= <- <-] |].
    apply incremental_core_stable;
      [by eapply load_feedback_data_NoDup | apply enrich_categories_keeps].
  - rewrite process_feedback_comment_categories_only_core.
    destruct (path_exists _); [| by intros [= <- <-]].
    destruct (read_csv (comments_output_file st)) as [df | |] eqn:Hread;
      [| done | done].
    cbn [mbind Outcome_bind].
    apply (incremental_core_stable CommentCategoriesOut);
      [by eapply read_csv_NoDup | apply enrich_comment_categories_keeps].
  - rewrite process_scenarios_only_core. unfold base_step.
    destruct (load_feedback_data st) as [df | |] eqn:Hload; [| done | done].
    cbn [mbind Outcome_bind]. destruct (empty df); [by intros [= <- <-] |].
    apply incremental_core_stable;
      [by eapply load_feedback_data_NoDup | apply enrich_scenarios_keeps].
Qed.

Lemma steps_keep_stored_records_witness :
  let X := "t2|How do I open an account?|a2" in
  let r := mkRow "t2" "How do I open an account?" "a2" "THUMBS_UP" None
             (Some "Accounts") (Some "HSBC One") None None in
  stored (categories_output_file SampleStore.store) X = Some r
  ∧ match pipeline_step SampleBatch.self SampleBatch.llm CategoriesOut
            SampleStore.store with
    | Ok (final, st') =>
        length (rows final) = 3
        ∧ stored (categories_output_file st') X = Some r
    | _ => False
    end.
Proof.
  intros X r. split; [reflexivity |].
  destruct (pipeline_step SampleBatch.self SampleBatch.llm CategoriesOut
              SampleStore.store) as [[final st'] | e |] eqn:Hrun.
  - split.
    + vm_compute in Hrun. injection Hrun as <- _. reflexivity.
    + apply (steps_keep_stored_records SampleBatch.self SampleBatch.llm
               CategoriesOut SampleStore.store st' final X r);
        [discriminate | exact Hrun | reflexivity].
  - vm_compute in Hrun. discriminate Hrun.
  - vm_compute in Hrun. discriminate Hrun.
Defined.

Section writes.
Context (self : FeedbackAnalyzer) (llm : Capability).
Implicit Types (df final : DataFrame) (st : Store) (o : OutputFile).

Lemma incremental_core_writes o enrich df st final st' :
  incremental_core o enrich df st = Ok (final, st') →
  st' = st ∨ st' = save_results final o st.
Proof.
  unfold incremental_core. destruct (empty _).
  - destruct (path_exists _).
    + destruct (read_csv _); [| done | done]. intros [= <- <-]. by left.
    + intros [= <- <-]. by left.
  - destruct (enrich _) as [new | |]; [| done | done].
    cbn [mbind Outcome_bind]. intros [= <- <-]. by right.
Qed.

Lemma base_step_writes o enrich st final st' :
  base_step o enrich st = Ok (final, st') →
  st' = st ∨ st' = save_results final o st.
Proof.
  unfold base_step.
  destruct (load_feedback_data st) as [df | |]; [| done | done].
  cbn [mbind Outcome_bind]. destruct (empty df).
  - intros [= <- <-]. by left.
  - apply incremental_core_writes.
Qed.

Lemma pipeline_step_writes o st final st' :
  pipeline_step self llm o st = Ok (final, st') →
  st' = st ∨ st' = save_results final o st.
Proof.
  destruct o; cbn [pipeline_step].
  - rewrite process_comments_only_core. apply base_step_writes.
  - rewrite process_categories_only_core. apply base_step_writes.
  - rewrite process_feedback_comment_categories_only_core.
    destruct (path_exists _); [| intros [= <- <-]; by left].
    destruct (read_csv _); [| done | done].
    cbn [mbind Outcome_bind]. apply incremental_core_writes.
  - rewrite process_scenarios_only_core. apply base_step_writes.
  - rewrite merge_files_consolidated.
    destruct (load_feedback_data st) as [base_df | |]; [| done | done].
    cbn [mbind Outcome_bind]. destruct (empty base_df).
    + intros [= <- <-]. by left.
    + destruct (consolidated st base_df) as [r | |]; [| done | done].
      intros [= <- <-]. by right.
Qed.

Lemma writes_touches o st st' final :
  st' = st ∨ st' = save_results final o st → touches_only o st st'.
Proof. intros [-> | ->]; [apply touches_only_refl | apply touches_only_save]. Qed.

Lemma touches_only_reference o st st' :
  touches_only o st st' → mapped_questions_file st' = mapped_questions_file st.
Proof. intros Ht. rewrite Ht. by destruct o. Qed.

End writes.

(** X4 (the four steps and [merge_files]): a step writes nothing, or it
    rewrites its own output with exactly the frame it returns.  It leaves
    the base data, the reference list and every other output as they
    were. *)
Theorem step_writes_only_its_output (self : FeedbackAnalyzer) (llm : Capability)
    (o : OutputFile) (st st' : Store) (final : DataFrame) :
  pipeline_step self llm o st = Ok (final, st') →
  (st' = st ∨ st' = save_results final o st)
  ∧ data_file st' = data_file st
  ∧ mapped_questions_file st' = mapped_questions_file st
  ∧ ∀ o', o' ≠ o → output o' st' = output o' st.
Proof.
  intros Hrun. pose proof (pipeline_step_writes self llm o st final st' Hrun) as Hw.
  pose proof (writes_touches o st st' final Hw) as Ht.
  split; [exact Hw |].
  split; [by eapply touches_only_data_file |].
  split; [by eapply touches_only_reference |].
  intros o' Ho'. by eapply touches_only_other.
Qed.

Lemma step_writes_only_its_output_witness :
  match pipeline_step SampleBatch.self SampleBatch.llm CategoriesOut
          SampleStore.store with
  | Ok (final, st') =>
      categories_output_file st' = to_csv final
      ∧ data_file st' = Present SampleBase.base
      ∧ comments_output_file st' = Absent
  | _ => False
  end.
Proof.
  destruct (pipeline_step SampleBatch.self SampleBatch.llm CategoriesOut
              SampleStore.store) as [[final st'] | e |] eqn:Hrun.
  - destruct (step_writes_only_its_output SampleBatch.self SampleBatch.llm
                CategoriesOut SampleStore.store st' final Hrun)
      as (_ & Hbase & _ & Hother).
    split; [| split; [exact Hbase | exact (Hother CommentsOut ltac:(discriminate))]].
    vm_compute in Hrun. injection Hrun as <- <-. reflexivity.
  - vm_compute in Hrun. discriminate Hrun.
  - vm_compute in Hrun. discriminate Hrun.
Defined.

Section consolidator.
Implicit Types (df src : DataFrame) (st : Store) (t : Table) (r : Row)
  (f : FileState Table).

Lemma filter_label_zip_seq (i n : nat) (l : list Row) :
  filter (λ p : nat * Row, p.1 = i) (zip (seq n (length l)) l)
  = if decide (n ≤ i) then option_list (pair i <$> l !! (i - n)) else [].
Proof.
  revert n. induction l as [|r l IH]; intros n.
  - cbn. by case_decide.
  - cbn [length seq zip zip_with]. rewrite filter_cons, IH. cbn [fst].
    destruct (decide (n = i)) as [-> |].
    + rewrite Nat.sub_diag. cbn. by repeat case_decide; try lia.
    + destruct (decide (n ≤ i)).
      * replace (i - n) with (S (i - S n)) by lia.
        by repeat case_decide; try lia.
      * by repeat case_decide; try lia.
Qed.

Lemma filter_label_range_index (i : nat) (l : list Row) :
  filter (λ p : nat * Row, p.1 = i) (range_index l)
  = option_list (pair i <$> l !! i).
Proof.
  unfold range_index. rewrite filter_label_zip_seq.
  rewrite decide_True by lia. by rewrite Nat.sub_0_r.
Qed.

Lemma range_index_lookup (i : nat) (l : list Row) :
  range_index l !! i = pair i <$> l !! i.
Proof.
  unfold range_index. rewrite lookup_zip_with.
  destruct (l !! i) as [r |] eqn:Hl.
  - rewrite lookup_seq_lt by (by eapply lookup_lt_Some). done.
  - rewrite lookup_seq_ge by (by apply lookup_ge_None). done.
Qed.

(** A column of a frame just read, at a label: the record at that
    position. *)
Lemma series_at_read c t i :
  c ∈ header t →
  series_at c (mkFrame (header t)
                 (range_index (reindex (header t) <$> records t))
                 (read_dtype t)) i
  = records t !! i ≫= cell c.
Proof.
  intros Hc. unfold series_at. cbn [data].
  rewrite filter_label_range_index, list_lookup_fmap.
  destruct (records t !! i) as [r |]; [| done].
  cbn. by apply cell_reindex.
Qed.

End consolidator.

Section consolidated_rows.
Implicit Types (df src : DataFrame) (st : Store) (t : Table) (r : Row)
  (f : FileState Table).

Lemma set_cell_cell c r : set_cell c (cell c r) r = r.
Proof.
  destruct r. unfold set_cell, cell. cbn.
  destruct (String.eqb_spec c "feedback_comment") as [-> |]; [done |].
  destruct (String.eqb_spec c "category") as [-> |]; [done |].
  destruct (String.eqb_spec c "sub_category") as [-> |]; [done |].
  destruct (String.eqb_spec c "feedback_comment_category") as [-> |]; [done |].
  by destruct (String.eqb_spec c "scenario") as [-> |].
Qed.

(** One assignment of [merge_files]: the column is copied by position, or
    the file cannot be used. *)
Lemma copy_column c f df :
  (if path_exists f then src ← read_csv f; assign_series c src df else Ok df)
  = if usable [c] f
    then Ok (mkFrame
               (if path_exists f && negb (has_column c df)
                then columns df ++ [c] else columns df)
               ((λ p : nat * Row,
                   (p.1, set_cell c (column_at c f p.1 (cell c p.2)) p.2))
                  <$> data df)
               (copied_dtype c f (comment_dtype df)))
    else Raise OtherException.
Proof.
  destruct f as [| t | t];
    cbn [path_exists usable read_csv mbind Outcome_bind copied_dtype].
  - f_equal. destruct df as [cols d dt]. cbn. f_equal.
    rewrite <- (list_fmap_id d) at 1. apply list_fmap_ext.
    intros i [l r] _. cbn. by rewrite set_cell_cell.
  - done.
  - unfold assign_series, has_column at 1. cbn [columns forallb].
    rewrite andb_true_r. case_bool_decide as Hc; [| done].
    cbn [comment_dtype].
    do 2 f_equal.
    + cbn. by destruct (has_column c df).
    + apply list_fmap_ext. intros i [l r] _. cbn [fst snd column_at].
      by rewrite series_at_read.
Qed.

Lemma copied_dtype_other c f old :
  String.eqb c "feedback_comment" = false → copied_dtype c f old = old.
Proof. intros Hc. destruct f; cbn; by rewrite ?Hc. Qed.

Lemma consolidated_closed st df :
  ∃ cols,
    consolidated st df
    = if all_usable st
      then Ok (mkFrame cols ((λ p, (p.1, merged_row st p.1 p.2)) <$> data df)
                 (copied_dtype "feedback_comment" (comments_output_file st)
                    (comment_dtype df)))
      else Raise OtherException.
Proof.
  unfold consolidated, all_usable.
  rewrite (copy_column "feedback_comment").
  destruct (usable ["feedback_comment"] _); [| by exists []].
  cbn [mbind Outcome_bind andb].
  set (d1 := mkFrame _ _ _).
  assert ((if path_exists (categories_output_file st)
           then categories_df ← read_csv (categories_output_file st);
                result_df ← assign_series "category" categories_df d1;
                assign_series "sub_category" categories_df result_df
           else Ok d1)
          = r ← (if path_exists (categories_output_file st)
                 then src ← read_csv (categories_output_file st);
                      assign_series "category" src d1
                 else Ok d1);
            if path_exists (categories_output_file st)
            then src ← read_csv (categories_output_file st);
                 assign_series "sub_category" src r
            else Ok r) as ->.
  { destruct (categories_output_file st) as [| t | t]; [done | done |].
    cbn [path_exists read_csv mbind Outcome_bind].
    by destruct (assign_series "category" _ d1). }
  rewrite (copy_column "category").
  assert (usable ["category"; "sub_category"] (categories_output_file st)
          = usable ["category"] (categories_output_file st)
            && usable ["sub_category"] (categories_output_file st)) as ->.
  { destruct (categories_output_file st); cbn; [done | done |].
    by rewrite !andb_true_r. }
  destruct (usable ["category"] _); [| by exists []].
  cbn [mbind Outcome_bind andb].
  rewrite (copy_column "sub_category").
  destruct (usable ["sub_category"] _); [| by exists []].
  cbn [mbind Outcome_bind andb].
  rewrite (copy_column "feedback_comment_category").
  destruct (usable ["feedback_comment_category"] _); [| by exists []].
  cbn [mbind Outcome_bind andb].
  rewrite (copy_column "scenario").
  destruct (usable ["scenario"] _); [| by exists []].
  eexists. f_equal. f_equal.
  - unfold d1. cbn [data].
    rewrite <- !list_fmap_compose. apply list_fmap_ext.
    intros i [l []] _. reflexivity.
  - cbn [comment_dtype]. by rewrite !copied_dtype_other by done.
Qed.

End consolidated_rows.

(** X5 ([merge_files]): the consolidator aligns by position, not by
    identity.  It returns one row per base record, in base order; the row
    at position [i] has the identity and the rating of the [i]-th base
    record, and in each annotation column the value of the [i]-th record
    of the file that owns the column, whatever the identity of that
    record: NaN when the file is shorter, the base value when the file is
    absent. *)
Theorem merge_files_is_positional (st st' : Store) (out : DataFrame)
    (base : Table) (i : nat) (r : Row) :
  merge_files st = Ok (out, st') →
  data_file st = Present base →
  records base !! i = Some r →
  length (data out) = length (records base)
  ∧ data out !! i = Some (i, merged_row st i (reindex (header base) r)).
Proof.
  intros Hrun Hbase Hr. rewrite merge_files_consolidated in Hrun.
  rewrite (load_feedback_data_present st base Hbase) in Hrun.
  cbn [mbind Outcome_bind] in Hrun.
  set (base_df := mkFrame _ _ _) in Hrun.
  assert (empty base_df = false) as Hne.
  { apply empty_false. unfold base_df. cbn [data].
    intros He%range_index_nil_inv. apply fmap_nil_inv in He.
    by rewrite He in Hr. }
  rewrite Hne in Hrun.
  destruct (consolidated_closed st base_df) as (cols & Hc). rewrite Hc in Hrun.
  destruct (all_usable st); [| done].
  cbn [mbind Outcome_bind] in Hrun.
  assert (data out = (λ p, (p.1, merged_row st p.1 p.2)) <$> data base_df)
    as -> by (by injection Hrun as <- _).
  unfold base_df. cbn [data]. split.
  - rewrite length_fmap. unfold range_index.
    rewrite length_zip_with_l_eq by (by rewrite length_seq).
    by rewrite length_seq, length_fmap.
  - rewrite list_lookup_fmap, range_index_lookup, list_lookup_fmap, Hr. done.
Qed.

Lemma merge_files_is_positional_witness :
  match process_comments_only SampleBatch.self SampleBatch.llm SampleStale.store with
  | Ok (_, st1) =>
      match merge_files st1 with
      | Ok (out, _) =>
          length (data out) = 3
          ∧ (create_record_key ∘ snd <$> data out) !! 0 = Some "t1|What is FPS?|a1"
          ∧ (feedback_comment ∘ snd <$> data out) !! 0
            = Some (Some "Generated long ago")
      | _ => False
      end
  | _ => False
  end.
Proof.
  destruct (process_comments_only SampleBatch.self SampleBatch.llm
              SampleStale.store) as [[final st1] | e |] eqn:Hstep;
    [| vm_compute in Hstep; discriminate Hstep
     | vm_compute in Hstep; discriminate Hstep].
  vm_compute in Hstep. injection Hstep as _ <-.
  match goal with
  | |- match merge_files ?s with _ => _ end =>
      destruct (merge_files s) as [[out st2] | e |] eqn:Hrun
  end.
  - match type of Hrun with
    | merge_files ?s = _ =>
        destruct (merge_files_is_positional s st2 out SampleBase.base 0
                    (row_rated "t1" "What is FPS?" "a1" "THUMBS_DOWN" None)
                    Hrun eq_refl eq_refl) as [Hlen Hrow]
    end.
    split; [exact Hlen |]. rewrite !list_lookup_fmap, Hrow.
    split; reflexivity.
  - vm_compute in Hrun. discriminate Hrun.
  - vm_compute in Hrun. discriminate Hrun.
Defined.

(** X6 ([merge_files]): with base data to consolidate, the consolidator
    raises exactly when an annotation file that exists cannot be read or
    lacks a column it owns; otherwise it returns and writes what it
    returns to the analysed file. *)
Theorem merge_files_needs_usable_files (st : Store) (base_df : DataFrame) :
  load_feedback_data st = Ok base_df →
  empty base_df = false →
  if all_usable st
  then ∃ out, merge_files st = Ok (out, save_results out MergedOut st)
  else merge_files st = Raise OtherException.
Proof.
  intros Hload Hne. rewrite merge_files_consolidated, Hload.
  cbn [mbind Outcome_bind]. rewrite Hne.
  destruct (consolidated_closed st base_df) as (cols & ->).
  destruct (all_usable st); [| done]. by eexists.
Qed.

Lemma merge_files_needs_usable_files_witness :
  merge_files SampleStale.truncated = Raise OtherException
  ∧ ∃ out, merge_files SampleStore.store
           = Ok (out, save_results out MergedOut SampleStore.store).
Proof.
  split.
  - exact (merge_files_needs_usable_files SampleStale.truncated _ eq_refl eq_refl).
  - exact (merge_files_needs_usable_files SampleStore.store _ eq_refl eq_refl).
Defined.

Section no_base_data.
Context (self : FeedbackAnalyzer) (llm : Capability).
Implicit Types (df : DataFrame) (st : Store) (o : OutputFile).

Lemma base_step_empty o enrich st df :
  load_feedback_data st = Ok df → empty df = true →
  base_step o enrich st = Ok (df, st).
Proof. intros Hload He. unfold base_step. by rewrite Hload; cbn; rewrite He. Qed.

Lemma base_step_raises o enrich st e :
  load_feedback_data st = Raise e → base_step o enrich st = Raise e.
Proof. intros Hload. unfold base_step. by rewrite Hload. Qed.

Lemma merge_files_empty st df :
  load_feedback_data st = Ok df → empty df = true → merge_files st = Ok (df, st).
Proof.
  intros Hload He. rewrite merge_files_consolidated, Hload. cbn. by rewrite He.
Qed.

Lemma merge_files_raises st e :
  load_feedback_data st = Raise e → merge_files st = Raise e.
Proof. intros Hload. by rewrite merge_files_consolidated, Hload. Qed.

Lemma run_full_analysis_empty st df :
  load_feedback_data st = Ok df → empty df = true →
  run_full_analysis self llm st = Ok (df, st).
Proof.
  intros Hload He. unfold run_full_analysis.
  rewrite process_comments_only_core, (base_step_empty _ _ st df Hload He).
  cbn. by rewrite He.
Qed.

Lemma run_full_analysis_raises st e :
  load_feedback_data st = Raise e → run_full_analysis self llm st = Raise e.
Proof.
  intros Hload. unfold run_full_analysis.
  by rewrite process_comments_only_core, (base_step_raises _ _ st e Hload).
Qed.

End no_base_data.

(** X7 (the steps, [merge_files], [run_full_analysis]): without base
    records nothing is done.  When the base data file is missing, or holds
    a header and no record, every step that starts from the base data, the
    consolidator and the full analysis return the empty base frame and
    leave every file as it was. *)
Theorem no_base_data_no_work (self : FeedbackAnalyzer) (llm : Capability)
    (st : Store) (base_df : DataFrame) (o : OutputFile) :
  load_feedback_data st = Ok base_df →
  empty base_df = true →
  (data_file st = Absent → base_df = empty_frame)
  ∧ (o ≠ CommentCategoriesOut → pipeline_step self llm o st = Ok (base_df, st))
  ∧ run_full_analysis self llm st = Ok (base_df, st).
Proof.
  intros Hload He. split; [| split].
  - intros Hf. unfold load_feedback_data in Hload. rewrite Hf in Hload.
    by injection Hload as <-.
  - intros Ho. destruct o; cbn [pipeline_step]; [| | done | |].
    + rewrite process_comments_only_core. by apply base_step_empty.
    + rewrite process_categories_only_core. by apply base_step_empty.
    + rewrite process_scenarios_only_core. by apply base_step_empty.
    + by apply merge_files_empty.
  - by apply run_full_analysis_empty.
Qed.

Lemma no_base_data_no_work_witness :
  let st := mkStore Absent Absent (Present SampleStore.categorised) Absent Absent
              Absent Absent in
  pipeline_step SampleBatch.self SampleBatch.llm CategoriesOut st
  = Ok (empty_frame, st)
  ∧ run_full_analysis SampleBatch.self SampleBatch.llm st = Ok (empty_frame, st).
Proof.
  intros st.
  destruct (no_base_data_no_work SampleBatch.self SampleBatch.llm st empty_frame
              CategoriesOut eq_refl eq_refl) as (_ & Hstep & Hfull).
  split; [apply Hstep; discriminate | exact Hfull].
Defined.

(** X8 (the steps, [merge_files], [run_full_analysis]): a base data file
    that exists and cannot be read stops the pipeline.  [load_feedback_data]
    catches the missing file only, so the error of the read leaves every
    step that starts from the base data, the consolidator and the full
    analysis as an exception. *)
Theorem unreadable_base_data_raises (self : FeedbackAnalyzer) (llm : Capability)
    (st : Store) (persisted : Table) (o : OutputFile) :
  data_file st = Unreadable persisted →
  load_feedback_data st = Raise OtherException
  ∧ (o ≠ CommentCategoriesOut →
     pipeline_step self llm o st = Raise OtherException)
  ∧ run_full_analysis self llm st = Raise OtherException.
Proof.
  intros Hf.
  assert (load_feedback_data st = Raise OtherException) as Hload
    by (unfold load_feedback_data; by rewrite Hf).
  split; [exact Hload |]. split.
  - intros Ho. destruct o; cbn [pipeline_step]; [| | done | |].
    + rewrite process_comments_only_core. by apply base_step_raises.
    + rewrite process_categories_only_core. by apply base_step_raises.
    + rewrite process_scenarios_only_core. by apply base_step_raises.
    + by apply merge_files_raises.
  - by apply run_full_analysis_raises.
Qed.

Lemma unreadable_base_data_raises_witness :
  let st := mkStore (Unreadable SampleBase.base) Absent Absent Absent Absent
              Absent Absent in
  pipeline_step SampleBatch.self SampleBatch.llm ScenariosOut st
  = Raise OtherException
  ∧ run_full_analysis SampleBatch.self SampleBatch.llm st = Raise OtherException.
Proof.
  intros st.
  destruct (unreadable_base_data_raises SampleBatch.self SampleBatch.llm st
              SampleBase.base ScenariosOut eq_refl) as (_ & Hstep & Hfull).
  split; [apply Hstep; discriminate | exact Hfull].
Defined.

Section full_run.
Context (self : FeedbackAnalyzer) (llm : Capability).
Implicit Types (df : DataFrame) (st : Store) (o : OutputFile).

Lemma merge_files_rows st out st' df :
  merge_files st = Ok (out, st') →
  load_feedback_data st = Ok df →
  empty df = false →
  st' = save_results out MergedOut st
  ∧ data out = (λ p, (p.1, merged_row st p.1 p.2)) <$> data df.
Proof.
  intros Hrun Hload Hne. rewrite merge_files_consolidated, Hload in Hrun.
  cbn [mbind Outcome_bind] in Hrun. rewrite Hne in Hrun.
  destruct (consolidated_closed st df) as (cols & Hc). rewrite Hc in Hrun.
  destruct (all_usable st); [| done]. cbn [mbind Outcome_bind] in Hrun.
  by injection Hrun as <- <-.
Qed.

Lemma base_step_nonempty o enrich st final st' df :
  keeps_records enrich →
  load_feedback_data st = Ok df →
  empty df = false →
  base_step o enrich st = Ok (final, st') →
  empty final = false.
Proof.
  intros Hk Hload Hne Hrun.
  destruct (base_step_settles o enrich st final st' Hk Hrun)
    as (df' & Hload' & _ & _ & He & _).
  rewrite Hload in Hload'. injection Hload' as <-. congruence.
Qed.

End full_run.

(** X9 ([run_full_analysis]): what a full analysis that returns leaves
    behind.  The base data and the reference list are as they were.  With
    base records, the analysed file holds exactly the frame returned, and
    that frame has one row per base record, in base order, under the same
    label, with the identity and the rating of the base record. *)
Theorem run_full_analysis_result (self : FeedbackAnalyzer) (llm : Capability)
    (st st' : Store) (analyzed : DataFrame) :
  run_full_analysis self llm st = Ok (analyzed, st') →
  ∃ base_df,
    load_feedback_data st = Ok base_df
    ∧ data_file st' = data_file st
    ∧ mapped_questions_file st' = mapped_questions_file st
    ∧ (empty base_df = false →
       merged_output_file st' = to_csv analyzed
       ∧ Forall2 (λ p q, q.1 = p.1 ∧ same_event p.2 q.2)
           (data base_df) (data analyzed)).
Proof.
  unfold run_full_analysis. intros Hrun.
  destruct (process_comments_only self llm st) as [[f1 s1] | |] eqn:H1;
    [| done | done].
  cbn [mbind Outcome_bind fst snd] in Hrun.
  rewrite process_comments_only_core in H1.
  destruct (base_step_settles _ _ _ _ _ (enrich_comments_keeps self llm) H1)
    as (df & Hload & _ & Ht1 & Hemp1 & Hdf1).
  exists df. split; [exact Hload |].
  destruct (empty df) eqn:Hdf.
  - rewrite (base_step_empty _ _ st df Hload Hdf) in H1. injection H1 as <- <-.
    rewrite Hdf in Hrun. injection Hrun as <- <-. done.
  - rewrite Hemp1 in Hrun.
    destruct (process_categories_only self llm s1) as [[f2 s2] | |] eqn:H2;
      [| done | done].
    cbn [mbind Outcome_bind fst snd] in Hrun.
    destruct (process_feedback_comment_categories_only self llm s2)
      as [[f3 s3] | |] eqn:H3; [| done | done].
    cbn [mbind Outcome_bind fst snd] in Hrun.
    destruct (process_scenarios_only s3) as [[f4 s4] | |] eqn:H4;
      [| done | done].
    cbn [mbind Outcome_bind fst snd] in Hrun.
    pose proof (writes_touches _ _ _ _
                  (pipeline_step_writes self llm CategoriesOut s1 f2 s2 H2)) as Ht2.
    pose proof (writes_touches _ _ _ _
                  (pipeline_step_writes self llm CommentCategoriesOut s2 f3 s3 H3))
      as Ht3.
    pose proof (writes_touches _ _ _ _
                  (pipeline_step_writes self llm ScenariosOut s3 f4 s4 H4)) as Ht4.
    apply report_through in Hrun as [Hrun Hreport].
    pose proof (merge_files_touches _ _ _ Hrun) as Ht5.
    assert (load_feedback_data s4 = Ok df) as Hl4.
    { rewrite (touches_only_load _ _ _ Ht4), (touches_only_load _ _ _ Ht3),
        (touches_only_load _ _ _ Ht2), (touches_only_load _ _ _ Ht1). done. }
    destruct (merge_files_rows s4 analyzed st' df Hrun Hl4 Hdf) as [-> Hrows].
    split; [| split].
    + rewrite (touches_only_data_file _ _ _ Ht5), (touches_only_data_file _ _ _ Ht4),
        (touches_only_data_file _ _ _ Ht3), (touches_only_data_file _ _ _ Ht2),
        (touches_only_data_file _ _ _ Ht1). done.
    + cbn [save_results set_output mapped_questions_file].
      rewrite (touches_only_reference _ _ _ Ht4), (touches_only_reference _ _ _ Ht3),
        (touches_only_reference _ _ _ Ht2), (touches_only_reference _ _ _ Ht1). done.
    + intros _. split; [done |]. rewrite Hrows.
      apply Forall2_fmap_r, Forall_Forall2_diag, Forall_forall.
      intros p _. done.
Qed.

Lemma run_full_analysis_result_witness :
  match run_full_analysis SampleBatch.self SampleBatch.llm SampleScenario.store with
  | Ok (analyzed, st') =>
      data_file st' = Present SampleBase.base
      ∧ merged_output_file st' = to_csv analyzed
      ∧ create_record_key <$> rows analyzed
        = create_record_key <$> records SampleBase.base
  | _ => False
  end.
Proof.
  destruct (run_full_analysis SampleBatch.self SampleBatch.llm SampleScenario.store)
    as [[analyzed st'] | e |] eqn:Hrun.
  - destruct (run_full_analysis_result SampleBatch.self SampleBatch.llm
                SampleScenario.store st' analyzed Hrun)
      as (base_df & Hload & Hbase & _ & Hrows).
    injection Hload as <-.
    destruct (Hrows eq_refl) as [Hfile _].
    split; [exact Hbase |]. split; [exact Hfile |].
    vm_compute in Hrun. injection Hrun as <- _. reflexivity.
  - vm_compute in Hrun. discriminate Hrun.
  - vm_compute in Hrun. discriminate Hrun.
Defined.

Section calls.
Context (self : FeedbackAnalyzer) (llm : Capability).
Implicit Types (df : DataFrame) (p : nat * Row).

Lemma filter_fmap_pre {A B} (P : B → Prop) `{∀ x, Decision (P x)}
    (f : A → B) (l : list A) :
  filter P (f <$> l) = f <$> filter (λ x, P (f x)) l.
Proof.
  induction l as [|x l IH]; [done |].
  rewrite fmap_cons, !filter_cons, IH. by destruct (decide (P (f x))).
Qed.

Lemma has_column_with_column c c' v df :
  has_column c df = true → has_column c (with_column c' v df) = true.
Proof.
  unfold with_column, assign_scalar. intros Hc.
  destruct (has_column c' df); [done |].
  unfold has_column in *. cbn [columns].
  apply bool_decide_eq_true in Hc. apply bool_decide_eq_true.
  apply elem_of_app. by left.
Qed.

Lemma comment_category_calls_spec df :
  has_column "feedback_comment" df = true →
  comment_category_calls (with_column "feedback_comment_category" (Some "") df)
  = (λ p, (p.1, CategorizeComment (default "" (feedback_comment p.2))))
      <$> filter (λ p, feedback_rating p.2 = "THUMBS_DOWN"
                       ∧ is_blank (feedback_comment p.2) = false)
            (data df).
Proof.
  intros Hcol. unfold comment_category_calls.
  rewrite (has_column_with_column _ _ _ _ Hcol), with_column_data.
  rewrite filter_fmap_pre, <- list_fmap_compose.
  rewrite (list_filter_iff _ (λ p, feedback_rating p.2 = "THUMBS_DOWN"
                                   ∧ is_blank (feedback_comment p.2) = false)).
  - apply list_fmap_ext. intros i [l r] _. cbn.
    unfold ensure_cell. by destruct (has_column "feedback_comment_category" df).
  - intros [l r]. cbn [snd prod_map]. unfold needs_comment_category.
    assert (feedback_comment
              (ensure_cell "feedback_comment_category" (Some "") df r)
            = feedback_comment r) as ->
      by (unfold ensure_cell; by destruct (has_column "feedback_comment_category" df)).
    assert (feedback_rating
              (ensure_cell "feedback_comment_category" (Some "") df r)
            = feedback_rating r) as ->
      by (unfold ensure_cell; by destruct (has_column "feedback_comment_category" df)).
    rewrite andb_true_r, andb_true_iff, bool_decide_eq_true, negb_true_iff.
    done.
Qed.

End calls.

(** X10 (the three dispatchers): the calls a batch makes.  With distinct
    labels and at least one permit, [add_categories_async] sends one
    categorisation request for every row, whatever its rating;
    [add_comments_async], on a comment column of the [object] dtype, sends
    a request exactly for the THUMBS_DOWN rows whose comment is NaN or
    blank; [add_feedback_comment_categories_async] sends a request exactly
    for the THUMBS_DOWN rows whose comment is neither, with the comment as
    it is.  Each such row is sent once, under its own label; the log of
    the batch lists the calls by row. *)
Theorem dispatcher_calls (self : FeedbackAnalyzer) (llm : Capability)
    (mc : option nat) (df : DataFrame) :
  NoDup (data df).*1 →
  0 < resolve self mc →
  (∃ out, add_categories_async self llm df mc
          = Ok (out, (λ p : nat * Row,
                        (p.1, CategorizeQuestion (user_question p.2) (bot_answer p.2)))
                       <$> data df))
  ∧ ("feedback_comment" ∈ columns df →
     (comment_dtype df = object →
      ∃ out, add_comments_async self llm df mc
             = Ok (out, (λ p : nat * Row,
                           (p.1, GenerateComment (user_question p.2) (bot_answer p.2)))
                          <$> filter (λ p : nat * Row,
                                        feedback_rating p.2 = "THUMBS_DOWN"
                                        ∧ is_blank (feedback_comment p.2) = true)
                                (data df)))
     ∧ (∃ out, add_feedback_comment_categories_async self llm df mc
               = Ok (out, (λ p : nat * Row,
                             (p.1, CategorizeComment
                                     (default "" (feedback_comment p.2))))
                            <$> filter (λ p : nat * Row,
                                          feedback_rating p.2 = "THUMBS_DOWN"
                                          ∧ is_blank (feedback_comment p.2) = false)
                                  (data df)))).
Proof.
  intros Hnd Hk. split; [| intros Hcol; split].
  - rewrite (add_categories_async_ok self llm df mc Hnd Hk). by eexists.
  - intros Hobj.
    rewrite (add_comments_async_ok self llm df mc Hnd Hk) by done.
    eexists. do 2 f_equal.
    unfold comment_calls, has_column. rewrite bool_decide_eq_true_2 by done.
    f_equal. apply list_filter_iff. intros p. apply needs_comment_spec.
  - rewrite (add_feedback_comment_categories_async_ok self llm df mc Hnd Hk).
    eexists. cbn zeta. do 2 f_equal. apply comment_category_calls_spec.
    by apply bool_decide_eq_true_2.
Qed.

Lemma dispatcher_calls_witness :
  (∃ out, add_categories_async SampleBatch.self SampleBatch.llm
            SampleBase.current_dataset None
          = Ok (out, [ (0, CategorizeQuestion "What is FPS?" "a1");
                       (1, CategorizeQuestion "How do I open an account?" "a2");
                       (2, CategorizeQuestion "what is fps" "a3") ]))
  ∧ (∃ out, add_comments_async SampleBatch.self SampleBatch.llm
              SampleBase.current_dataset None
            = Ok (out, [ (0, GenerateComment "What is FPS?" "a1") ]))
  ∧ (∃ out, add_feedback_comment_categories_async SampleBatch.self SampleBatch.llm
              SampleBase.current_dataset None
            = Ok (out, [ (2, CategorizeComment "Too vague") ])).
Proof.
  destruct (dispatcher_calls SampleBatch.self SampleBatch.llm None
              SampleBase.current_dataset) as (Hcat & Hrest).
  - apply (bool_decide_unpack _). vm_compute. reflexivity.
  - simpl. lia.
  - destruct Hrest as (Hcom & Hcc); [apply list_elem_of_here |].
    split; [exact Hcat |]. split; [apply Hcom; reflexivity | exact Hcc].
Defined.

Section comments_edge.
Context (self : FeedbackAnalyzer) (llm : Capability).
Implicit Types (df : DataFrame) (p : nat * Row).

Lemma process_single_comment_no_column idx row :
  process_single_comment false idx row = Ret None.
Proof. unfold process_single_comment, comment_of. by case_bool_decide. Qed.

Lemma gather_idle {A} (k : nat) (a : A) (d : list (nat * Row)) :
  gather k llm ((λ p, (p.1, Ret a)) <$> d) = Ok (replicate (length d) a, []).
Proof.
  unfold gather.
  assert (existsb (λ t : nat * Coro A, acquires (llm t.1) t.2)
            ((λ p, (p.1, Ret a)) <$> d) = false) as ->.
  { induction d as [|p d IH]; [done |]. cbn. exact IH. }
  rewrite andb_false_r. f_equal. f_equal.
  - induction d as [|p d IH]; [done |]. cbn. by f_equal.
  - induction d as [|p d IH]; [done |]. cbn. exact IH.
Qed.

Lemma foldl_skipped {R} (step : DataFrame → option R → DataFrame) df (n : nat) :
  (∀ acc, step acc None = acc) →
  foldl step df (replicate n None) = df.
Proof. intros Hs. induction n as [|n IH]; [done |]. cbn. by rewrite Hs. Qed.

Lemma add_comments_async_no_column df mc :
  has_column "feedback_comment" df = false →
  add_comments_async self llm df mc
  = Ok (assign_scalar "feedback_comment" (Some "") df, []).
Proof.
  intros Hcol. unfold add_comments_async. rewrite Hcol.
  assert (assign_scalar "feedback_comment" (Some "") df
          = with_column "feedback_comment" (Some "") df) as Hw
    by (unfold with_column; by rewrite Hcol).
  rewrite identify_thumbs_down_empty_feedback_ok;
    [| rewrite Hw; apply has_comment_with_column
     | rewrite Hw; apply with_comment_dtype; by rewrite Hcol ].
  cbn [mbind Outcome_bind].
  destruct (empty _); [done |].
  unfold comment_tasks, iterrows. rewrite Hcol.
  rewrite (list_fmap_ext _ (λ p : nat * Row, (p.1, Ret None)) (data df))
    by (intros i p _; by rewrite process_single_comment_no_column).
  rewrite gather_idle. cbn [mbind Outcome_bind].
  by rewrite foldl_skipped.
Qed.

End comments_edge.

(** X11 ([add_comments_async]): on a frame without a [feedback_comment]
    column no comment is generated.  Every task fails on the missing
    column before it reaches the capability, so the dispatcher makes no
    call, whatever the ratings and the limit, and returns the frame with
    the column added and blank in every row. *)
Theorem comments_need_the_column (self : FeedbackAnalyzer) (llm : Capability)
    (mc : option nat) (df : DataFrame) :
  "feedback_comment" ∉ columns df →
  add_comments_async self llm df mc
  = Ok (mkFrame (columns df ++ ["feedback_comment"])
          (prod_map id (set_cell "feedback_comment" (Some "")) <$> data df)
          object,
        []).
Proof.
  intros Hcol.
  assert (has_column "feedback_comment" df = false) as Hc
    by (by apply bool_decide_eq_false_2).
  rewrite (add_comments_async_no_column self llm df mc Hc).
  unfold assign_scalar. by rewrite Hc.
Qed.

Lemma comments_need_the_column_witness :
  add_comments_async SampleBatch.self SampleBatch.llm
    (mkFrame [] [(0, row_plain "t1" "q1" "a1")] object) None
  = Ok (mkFrame ["feedback_comment"]
          [(0, row_rated "t1" "q1" "a1" "THUMBS_DOWN" (Some ""))]
          object,
        []).
Proof.
  apply (comments_need_the_column SampleBatch.self SampleBatch.llm None
           (mkFrame [] [(0, row_plain "t1" "q1" "a1")] object)).
  apply not_elem_of_nil.
Defined.

(** X12 ([add_comments_async], [identify_thumbs_down_empty_feedback]): a
    batch whose comment column has the [object] dtype and in which no
    THUMBS_DOWN row has a NaN or blank comment is returned as it is,
    without a call: the selection of line 117 is empty and the dispatcher
    leaves before it creates the semaphore, so this holds for every limit,
    zero included, and for every index.  On a [float64] comment column the
    selection raises instead, whatever the ratings. *)
Theorem comments_nothing_to_generate (self : FeedbackAnalyzer) (llm : Capability)
    (mc : option nat) (df : DataFrame) :
  "feedback_comment" ∈ columns df →
  (comment_dtype df = object →
   (∀ p, p ∈ data df → feedback_rating p.2 = "THUMBS_DOWN" →
         is_blank (feedback_comment p.2) = false) →
   identify_thumbs_down_empty_feedback df = Ok (mkFrame (columns df) [] object)
   ∧ add_comments_async self llm df mc = Ok (df, []))
  ∧ (comment_dtype df = float64 →
     identify_thumbs_down_empty_feedback df = Raise OtherException
     ∧ add_comments_async self llm df mc = Raise OtherException).
Proof.
  intros Hcol.
  assert (has_column "feedback_comment" df = true) as Hhas
    by (by apply bool_decide_eq_true_2).
  split.
  - intros Hobj Hnone.
    assert (identify_thumbs_down_empty_feedback df
            = Ok (mkFrame (columns df) [] object)) as Hid.
    { rewrite identify_thumbs_down_empty_feedback_ok by done. do 2 f_equal.
      apply filter_none. intros p Hp [Hr Hb]. specialize (Hnone p Hp Hr).
      congruence. }
    split; [exact Hid |].
    unfold add_comments_async. by rewrite Hhas, Hid.
  - intros Hfloat. split.
    + apply identify_thumbs_down_empty_feedback_raises. by right.
    + by apply add_comments_async_raises.
Qed.

Lemma comments_nothing_to_generate_witness :
  add_comments_async (mkAnalyzer 0) SampleBatch.llm SampleBatch.commented None
  = Ok (SampleBatch.commented, [])
  ∧ add_comments_async (mkAnalyzer 0) SampleBatch.llm
      SampleBatch.never_commented None
    = Raise OtherException.
Proof.
  split.
  - apply (comments_nothing_to_generate (mkAnalyzer 0) SampleBatch.llm None
             SampleBatch.commented).
    + apply list_elem_of_here.
    + reflexivity.
    + intros p Hp _. each_row Hp; reflexivity.
  - apply (comments_nothing_to_generate (mkAnalyzer 0) SampleBatch.llm None
             SampleBatch.never_commented).
    + apply list_elem_of_here.
    + reflexivity.
Defined.

Section category_rows.
Context (self : FeedbackAnalyzer) (llm : Capability).
Implicit Types (df : DataFrame) (p : nat * Row).

Lemma category_answer_run p :
  category_answer llm p
  = (run (llm p.1) (categorize_question_async (user_question p.2) (bot_answer p.2))).1.
Proof.
  unfold category_answer, categorize_question_async, category_request. cbn [run].
  by destruct (llm p.1 _).
Qed.

Lemma has_column_with_other c c' v df :
  c ≠ c' → has_column c (with_column c' v df) = has_column c df.
Proof.
  intros Hne. unfold with_column, assign_scalar.
  destruct (has_column c' df); [done |].
  unfold has_column. cbn [columns]. apply bool_decide_ext.
  rewrite elem_of_app, list_elem_of_singleton. naive_solver.
Qed.

End category_rows.

(** X13 ([add_categories_async]): what the update loop does with the pair
    a task brings back.  When both parts are non-empty the row gets the
    pair, replacing whatever category it carried; when a part is the empty
    text the pair is dropped, and the row keeps the category and
    sub-category it had, blank where the column is new: it does not get
    the fallback pair. *)
Theorem category_pair_applied (self : FeedbackAnalyzer) (llm : Capability)
    (mc : option nat) (df : DataFrame) (p : nat * Row) :
  NoDup (data df).*1 →
  0 < resolve self mc →
  p ∈ data df →
  let pair :=
    (run (llm p.1)
       (categorize_question_async (user_question p.2) (bot_answer p.2))).1 in
  ∃ out log q,
    add_categories_async self llm df mc = Ok (out, log)
    ∧ filter (λ x : nat * Row, x.1 = p.1) (data out) = [(p.1, q)]
    ∧ (category q, sub_category q)
      = if negb (String.eqb pair.1 "") && negb (String.eqb pair.2 "")
        then (Some pair.1, Some pair.2)
        else (if has_column "category" df then category p.2 else Some "",
              if has_column "sub_category" df then sub_category p.2 else Some "").
Proof.
  intros Hnd Hk Hp pair.
  rewrite (add_categories_async_ok self llm df mc Hnd Hk).
  eexists _, _, _. split; [reflexivity |]. cbn [data].
  split; [by apply (filter_label_map _ (data df) p) |].
  unfold category_effect. fold pair. rewrite category_answer_run. fold pair.
  destruct (negb (String.eqb pair.1 "") && negb (String.eqb pair.2 "")); [done |].
  unfold ensure_cell. rewrite has_column_with_other by done.
  by destruct (has_column "category" df), (has_column "sub_category" df).
Qed.

Lemma category_pair_applied_witness :
  let blank : Capability := λ _ _, Object (<["category" := ""]> ∅) in
  (∃ out log q,
     add_categories_async SampleBatch.self blank Sample.new_batch None
     = Ok (out, log)
     ∧ filter (λ x : nat * Row, x.1 = 0) (data out) = [(0, q)]
     ∧ (category q, sub_category q) = (Some "new", Some "General"))
  ∧ (∃ out log q,
       add_categories_async SampleBatch.self SampleBatch.llm Sample.new_batch None
       = Ok (out, log)
       ∧ filter (λ x : nat * Row, x.1 = 0) (data out) = [(0, q)]
       ∧ (category q, sub_category q) = (Some "Loans", Some "Personal Tax Loan")).
Proof.
  intros blank. split.
  - destruct (category_pair_applied SampleBatch.self blank None Sample.new_batch
                (0, row_categorised "t1" "q1" "a1" "new"))
      as (out & log & q & Hrun & Hrow & Hpair).
    + apply (bool_decide_unpack _). vm_compute. reflexivity.
    + simpl. lia.
    + apply list_elem_of_here.
    + exists out, log, q. split; [exact Hrun |]. split; [exact Hrow | exact Hpair].
  - destruct (category_pair_applied SampleBatch.self SampleBatch.llm None
                Sample.new_batch (0, row_categorised "t1" "q1" "a1" "new"))
      as (out & log & q & Hrun & Hrow & Hpair).
    + apply (bool_decide_unpack _). vm_compute. reflexivity.
    + simpl. lia.
    + apply list_elem_of_here.
    + exists out, log, q. split; [exact Hrun |]. split; [exact Hrow | exact Hpair].
Defined.

Section own_columns.
Context (self : FeedbackAnalyzer) (llm : Capability).
Implicit Types (df : DataFrame) (p : nat * Row) (r : Row) (cs : list string).

Lemma cell_set_cell_ne c c' v r : c' ≠ c → cell c' (set_cell c v r) = cell c' r.
Proof.
  intros Hne. unfold cell, set_cell.
  cbn [feedback_comment category sub_category feedback_comment_category scenario].
  destruct (String.eqb_spec c' "feedback_comment") as [-> |];
    [by destruct (String.eqb_spec c "feedback_comment") |].
  destruct (String.eqb_spec c' "category") as [-> |];
    [by destruct (String.eqb_spec c "category") |].
  destruct (String.eqb_spec c' "sub_category") as [-> |];
    [by destruct (String.eqb_spec c "sub_category") |].
  destruct (String.eqb_spec c' "feedback_comment_category") as [-> |];
    [by destruct (String.eqb_spec c "feedback_comment_category") |].
  destruct (String.eqb_spec c' "scenario") as [-> |];
    [by destruct (String.eqb_spec c "scenario") |].
  done.
Qed.

Lemma same_except_refl cs r : same_except cs r r.
Proof. by repeat split. Qed.

Lemma same_except_trans cs r1 r2 r3 :
  same_except cs r1 r2 → same_except cs r2 r3 → same_except cs r1 r3.
Proof.
  intros [(? & ? & ? & ?) H12] [(? & ? & ? & ?) H23].
  split; [repeat split; congruence |].
  intros c Hc. by rewrite H23, H12.
Qed.

Lemma same_except_set_cell cs c v r : c ∈ cs → same_except cs r (set_cell c v r).
Proof.
  intros Hc. split; [by repeat split |].
  intros c' Hc'. apply cell_set_cell_ne. set_solver.
Qed.

Lemma same_except_ensure_cell cs c v df r :
  c ∈ cs → same_except cs r (ensure_cell c v df r).
Proof.
  intros Hc. unfold ensure_cell.
  destruct (has_column c df); [apply same_except_refl | by apply same_except_set_cell].
Qed.

Lemma same_except_rows cs cols dt (F : nat * Row → Row) (d : list (nat * Row)) :
  (∀ p, same_except cs p.2 (F p)) →
  Forall2 (λ p q : nat * Row, q.1 = p.1 ∧ same_except cs p.2 q.2)
    d (data (mkFrame cols ((λ p, (p.1, F p)) <$> d) dt)).
Proof.
  intros HF. cbn [data]. apply Forall2_fmap_r, Forall_Forall2_diag, Forall_forall.
  intros p _. split; [done | apply HF].
Qed.

Lemma same_except_category_effect p r :
  same_except ["category"; "sub_category"] r (category_effect llm p r).
Proof.
  unfold category_effect. destruct (_ && _); [| apply same_except_refl].
  eapply same_except_trans; apply same_except_set_cell; set_solver.
Qed.

Lemma same_except_comment_effect df p r :
  same_except ["feedback_comment"] r (comment_effect llm df p r).
Proof.
  unfold comment_effect.
  repeat (case_match; try apply same_except_refl);
    apply same_except_set_cell; set_solver.
Qed.

Lemma same_except_comment_category_effect has p r :
  same_except ["feedback_comment_category"] r (comment_category_effect llm has p r).
Proof.
  unfold comment_category_effect. destruct (negb _); [| apply same_except_refl].
  apply same_except_set_cell. set_solver.
Qed.

Lemma add_scenario_mapping_own_column (st : Store) df :
  NoDup (data df).*1 →
  Forall2 (λ p q : nat * Row, q.1 = p.1 ∧ same_except ["scenario"] p.2 q.2)
    (data df) (data (add_scenario_mapping st df)).
Proof.
  intros Hnd. destruct (decide (load_mapped_questions st = ∅)) as [He | Hne].
  - unfold add_scenario_mapping. rewrite decide_True by done.
    destruct (has_column "scenario" df).
    + apply Forall_Forall2_diag, Forall_forall. intros p _.
      split; [done | apply same_except_refl].
    + unfold assign_scalar. cbn [data].
      apply Forall2_fmap_r, Forall_Forall2_diag, Forall_forall.
      intros [l r] _. split; [done |]. apply same_except_set_cell. set_solver.
  - rewrite (add_scenario_mapping_rows st df Hnd Hne).
    apply same_except_rows. intros p. apply same_except_set_cell. set_solver.
Qed.

End own_columns.

(** X14 (the three dispatchers, [add_scenario_mapping]): an enrichment
    writes its own columns and nothing else.  Row by row, under the same
    label and in the same order, the frame it returns has the identity
    fields and the rating of the input, and the input's value in every
    column but the ones the enrichment owns.  Comment generation returns
    a frame when the input has no comment column or has it with the
    [object] dtype. *)
Theorem enrichment_writes_own_columns (self : FeedbackAnalyzer) (llm : Capability)
    (mc : option nat) (st : Store) (df : DataFrame) :
  NoDup (data df).*1 →
  0 < resolve self mc →
  (∃ out log,
     add_categories_async self llm df mc = Ok (out, log)
     ∧ Forall2 (λ p q : nat * Row,
                  q.1 = p.1 ∧ same_except ["category"; "sub_category"] p.2 q.2)
         (data df) (data out))
  ∧ (("feedback_comment" ∈ columns df → comment_dtype df = object) →
     ∃ out log,
       add_comments_async self llm df mc = Ok (out, log)
       ∧ Forall2 (λ p q : nat * Row,
                    q.1 = p.1 ∧ same_except ["feedback_comment"] p.2 q.2)
           (data df) (data out))
  ∧ (∃ out log,
       add_feedback_comment_categories_async self llm df mc = Ok (out, log)
       ∧ Forall2 (λ p q : nat * Row,
                    q.1 = p.1 ∧ same_except ["feedback_comment_category"] p.2 q.2)
           (data df) (data out))
  ∧ Forall2 (λ p q : nat * Row,
               q.1 = p.1 ∧ same_except ["scenario"] p.2 q.2)
      (data df) (data (add_scenario_mapping st df)).
Proof.
  intros Hnd Hk. split; [| split; [intros Hobj | split]].
  - rewrite (add_categories_async_ok self llm df mc Hnd Hk).
    eexists _, _. split; [reflexivity |]. apply same_except_rows. intros p.
    eapply same_except_trans; [| apply same_except_category_effect].
    eapply same_except_trans; apply same_except_ensure_cell; set_solver.
  - rewrite (add_comments_async_ok self llm df mc Hnd Hk)
      by (by intros Hhas%bool_decide_eq_true; apply Hobj).
    eexists _, _. split; [reflexivity |]. apply same_except_rows. intros p.
    eapply same_except_trans; [| apply same_except_comment_effect].
    apply same_except_ensure_cell. set_solver.
  - rewrite (add_feedback_comment_categories_async_ok self llm df mc Hnd Hk).
    eexists _, _. split; [reflexivity |]. cbn zeta. cbn [data].
    rewrite with_column_data, <- list_fmap_compose.
    apply Forall2_fmap_r, Forall_Forall2_diag, Forall_forall.
    intros [l r] _. cbn [compose prod_map fst snd id]. split; [done |].
    eapply same_except_trans; [| apply same_except_comment_category_effect].
    apply same_except_ensure_cell. set_solver.
  - by apply add_scenario_mapping_own_column.
Qed.

Lemma enrichment_writes_own_columns_witness :
  let df := SampleBase.current_dataset in
  (∃ out log,
     add_categories_async SampleBatch.self SampleBatch.llm df None = Ok (out, log)
     ∧ Forall2 (λ p q : nat * Row,
                  q.1 = p.1 ∧ same_except ["category"; "sub_category"] p.2 q.2)
         (data df) (data out))
  ∧ (∃ out log,
       add_comments_async SampleBatch.self SampleBatch.llm df None = Ok (out, log)
       ∧ Forall2 (λ p q : nat * Row,
                    q.1 = p.1 ∧ same_except ["feedback_comment"] p.2 q.2)
           (data df) (data out))
  ∧ (∃ out log,
       add_feedback_comment_categories_async SampleBatch.self SampleBatch.llm df None
       = Ok (out, log)
       ∧ Forall2 (λ p q : nat * Row,
                    q.1 = p.1 ∧ same_except ["feedback_comment_category"] p.2 q.2)
           (data df) (data out))
  ∧ Forall2 (λ p q : nat * Row,
               q.1 = p.1 ∧ same_except ["scenario"] p.2 q.2)
      (data df) (data (add_scenario_mapping SampleScenario.store df)).
Proof.
  intros df.
  destruct (enrichment_writes_own_columns SampleBatch.self SampleBatch.llm None
              SampleScenario.store df)
    as (Hcategories & Hcomments & Hcomment_categories & Hscenario).
  { apply (bool_decide_unpack _). vm_compute. reflexivity. }
  { simpl. lia. }
  split; [exact Hcategories |].
  split; [apply Hcomments; intros _; reflexivity |].
  split; [exact Hcomment_categories | exact Hscenario].
Defined.

Section comment_rows.
Context (self : FeedbackAnalyzer) (llm : Capability).
Implicit Types (df : DataFrame) (p : nat * Row).

Lemma comment_answer_run p :
  comment_answer llm p
  = (run (llm p.1) (generate_bot_comment_async (user_question p.2) (bot_answer p.2))).1.
Proof.
  unfold comment_answer, generate_bot_comment_async, comment_request. cbn [run].
  by destruct (llm p.1 _).
Qed.

End comment_rows.

(** X15 ([add_comments_async]): a comment is written only where it was
    missing and something was generated.  In a frame that has the comment
    column with the [object] dtype, a row is returned exactly as it came
    unless it is a THUMBS_DOWN row with a NaN or blank comment and the
    generation returned a non-empty text; a comment a user wrote is never
    replaced, and a failed or empty generation leaves the row blank. *)
Theorem comment_written_only_where_missing (self : FeedbackAnalyzer)
    (llm : Capability) (mc : option nat) (df : DataFrame) (p : nat * Row) :
  NoDup (data df).*1 →
  0 < resolve self mc →
  "feedback_comment" ∈ columns df →
  comment_dtype df = object →
  p ∈ data df →
  let generated :=
    (run (llm p.1)
       (generate_bot_comment_async (user_question p.2) (bot_answer p.2))).1 in
  ∃ out log q,
    add_comments_async self llm df mc = Ok (out, log)
    ∧ filter (λ x : nat * Row, x.1 = p.1) (data out) = [(p.1, q)]
    ∧ q = if bool_decide (feedback_rating p.2 = "THUMBS_DOWN")
             && is_blank (feedback_comment p.2)
             && truthy generated
          then set_cell "feedback_comment" (cell_of generated) p.2
          else p.2.
Proof.
  intros Hnd Hk Hcol Hobj Hp generated.
  rewrite (add_comments_async_ok self llm df mc Hnd Hk) by done.
  eexists _, _, _. split; [reflexivity |]. cbn [data].
  split; [by apply (filter_label_map _ (data df) p) |].
  unfold comment_effect, ensure_cell, has_column.
  rewrite bool_decide_eq_true_2 by done.
  rewrite comment_answer_run. fold generated. unfold needs_comment.
  destruct (bool_decide _ && is_blank _); cbn [andb]; [done |].
  rewrite set_cell_same_comment. by destruct (truthy _).
Qed.

Lemma comment_written_only_where_missing_witness :
  let df := SampleBase.current_dataset in
  (∃ out log q,
     add_comments_async SampleBatch.self SampleBatch.llm df None = Ok (out, log)
     ∧ filter (λ x : nat * Row, x.1 = 2) (data out) = [(2, q)]
     ∧ q = row_rated "t3" "what is fps" "a3" "THUMBS_DOWN" (Some "Too vague"))
  ∧ (∃ out log q,
       add_comments_async SampleBatch.self SampleBatch.llm df None = Ok (out, log)
       ∧ filter (λ x : nat * Row, x.1 = 0) (data out) = [(0, q)]
       ∧ q = row_rated "t1" "What is FPS?" "a1" "THUMBS_DOWN"
               (Some "The answer ignores my question")).
Proof.
  intros df. split.
  - destruct (comment_written_only_where_missing SampleBatch.self SampleBatch.llm
                None df
                (2, row_rated "t3" "what is fps" "a3" "THUMBS_DOWN" (Some "Too vague")))
      as (out & log & q & Hrun & Hrow & Hq).
    + apply (bool_decide_unpack _). vm_compute. reflexivity.
    + simpl. lia.
    + apply list_elem_of_here.
    + reflexivity.
    + do 2 apply list_elem_of_further. apply list_elem_of_here.
    + exists out, log, q. split; [exact Hrun |]. split; [exact Hrow | exact Hq].
  - destruct (comment_written_only_where_missing SampleBatch.self SampleBatch.llm
                None df (0, row_rated "t1" "What is FPS?" "a1" "THUMBS_DOWN" None))
      as (out & log & q & Hrun & Hrow & Hq).
    + apply (bool_decide_unpack _). vm_compute. reflexivity.
    + simpl. lia.
    + apply list_elem_of_here.
    + reflexivity.
    + apply list_elem_of_here.
    + exists out, log, q. split; [exact Hrun |]. split; [exact Hrow | exact Hq].
Defined.

Section completion.
Context {A : Type} (llm : Capability).
Implicit Types (s : Sched A) (t : nat * TaskState A) (c : Coro A)
  (tasks : list (nat * Coro A)).

Lemma remaining_of_zero (client : Client) (ts : TaskState A) :
  remaining_of client ts = 0 → ∃ a, ts = Running (Ret a).
Proof. destruct ts as [[a | | |] |]; cbn; try done. by exists a. Qed.

Lemma work_zero_list (l : list (nat * TaskState A)) :
  sum_list ((λ t, remaining_of (llm t.1) t.2) <$> l) = 0 →
  l = (λ t, (t.1, Running (Ret (result_of (llm t.1) t.2)))) <$> l.
Proof.
  induction l as [|[idx ts] l IH]; [done |].
  rewrite !fmap_cons. cbn [sum_list sum_list_with fst snd id]. intros Hz.
  destruct (remaining_of_zero (llm idx) ts) as [a ->]; [lia |].
  cbn [result_of run fst]. f_equal. apply IH. lia.
Qed.

Lemma work_zero_pool s :
  work llm s = 0 →
  pool s = (λ t, (t.1, Running (Ret (result_of (llm t.1) t.2)))) <$> pool s.
Proof. apply work_zero_list. Qed.

Lemma work_pos_unfinished s :
  0 < work llm s → ∃ t, t ∈ pool s ∧ finished t = false.
Proof.
  unfold work. induction (pool s) as [|[idx ts] l IH].
  - cbn. lia.
  - rewrite fmap_cons. cbn [sum_list sum_list_with fst snd id]. intros Hw.
    destruct (remaining_of (llm idx) ts) as [|n] eqn:Hr.
    + destruct IH as (t & Ht & Hf); [lia |].
      exists t. split; [by right | done].
    + exists (idx, ts). split; [left |]. unfold finished. cbn [snd].
      by destruct ts as [[a | | |] |].
Qed.

Lemma well_gated_completes (k : nat) tasks :
  0 < k →
  Forall (λ task, well_gated false task.2) tasks →
  completes llm k tasks.
Proof.
  intros Hk Hg n s Hn.
  pose proof (steps_bounded llm _ _ _ Hn) as Hw.
  pose proof (rtc_nsteps_2 _ _ _ Hn) as Hreach.
  split; [lia |]. split.
  - intros Hlt. apply (gate_progress llm k s Hk).
    + eapply gate_invariant_reachable; [by apply gate_invariant_init | done].
    + apply work_pos_unfinished. lia.
  - intros Heq. rewrite (work_zero_pool s) by lia.
    pose proof (reachable_results llm tasks k s Hreach) as Hres.
    apply (f_equal (fmap (λ x : nat * A, (x.1, Running (Ret x.2))))) in Hres.
    rewrite <- !list_fmap_compose in Hres. exact Hres.
Qed.

End completion.

Section batch_work.
Context (llm : Capability).

Lemma category_task_moves (p : nat * Row) :
  remaining (llm p.1) (process_single_category p.1 p.2) = 4.
Proof.
  unfold process_single_category, with_semaphore, categorize_question_async.
  cbn [mbind Coro_bind coro_bind remaining].
  by destruct (llm p.1 _).
Qed.

Lemma category_batch_moves (k : nat) (df : DataFrame) :
  work llm (init k (category_tasks df)) = 4 * length (data df).
Proof.
  unfold work, init, category_tasks, iterrows. cbn [pool].
  rewrite <- !list_fmap_compose.
  induction (data df) as [|p d IH]; [done |].
  rewrite fmap_cons. cbn [sum_list sum_list_with compose fst snd remaining_of id length].
  rewrite category_task_moves.
  change (sum_list_with id ?l) with (sum_list l). rewrite IH. lia.
Qed.

End batch_work.

(** X16 (the [gather] of the three dispatchers): with at least one permit
    a batch always runs to its end, and its results do not depend on the
    interleaving.  From every state the event loop can reach it can move
    on until every task has returned; it makes exactly as many moves as
    the tasks have suspension points to pass (four for each row to
    categorise); and it ends with each task's own result, which is what
    [gather] hands to the update loop. *)
Theorem batches_complete (llm : Capability) (df : DataFrame) (k : nat) :
  0 < k →
  completes llm k (category_tasks df)
  ∧ completes llm k (comment_tasks df)
  ∧ completes llm k (comment_category_tasks df)
  ∧ work llm (init k (category_tasks df)) = 4 * length (data df).
Proof.
  intros Hk. split; [| split; [| split]].
  - apply well_gated_completes; [done |].
    apply Forall_fmap, Forall_forall. intros p _.
    apply process_single_category_gated.
  - apply well_gated_completes; [done |].
    apply Forall_fmap, Forall_forall. intros p _.
    apply process_single_comment_gated.
  - apply well_gated_completes; [done |].
    apply Forall_fmap, Forall_forall. intros p _.
    apply process_single_comment_category_gated.
  - apply category_batch_moves.
Qed.

Lemma batches_complete_witness :
  completes SampleBatch.llm 1 (category_tasks SampleBatch.uncommented)
  ∧ completes SampleBatch.llm 1 (comment_tasks SampleBatch.uncommented)
  ∧ completes SampleBatch.llm 1 (comment_category_tasks SampleBatch.uncommented)
  ∧ work SampleBatch.llm (init 1 (category_tasks SampleBatch.uncommented)) = 12.
Proof.
  apply (batches_complete SampleBatch.llm SampleBatch.uncommented 1). lia.
Defined.

Section no_permit.
Context (self : FeedbackAnalyzer) (llm : Capability).
Implicit Types (df : DataFrame) (p : nat * Row).

Lemma gather_hangs {A} (tasks : list (nat * Coro A)) (task : nat * Coro A) :
  task ∈ tasks → acquires (llm task.1) task.2 = true →
  gather 0 llm tasks = Hang.
Proof.
  intros Hin Hacq. unfold gather. cbn [bool_decide decide_rel andb].
  assert (existsb (λ t : nat * Coro A, acquires (llm t.1) t.2) tasks = true) as ->.
  { apply existsb_exists. exists task. split; [| done].
    by apply list_elem_of_In. }
  done.
Qed.

Lemma all_blocked {A} (tasks : list (nat * Coro A)) (s : Sched A) :
  Forall (λ task, well_gated false task.2) tasks →
  Forall (λ task, acquires (llm task.1) task.2 = true) tasks →
  rtc (step llm) (init 0 tasks) s →
  Forall (λ t, finished t = false) (pool s).
Proof.
  intros Hg Hacq Hreach. apply Forall_lookup. intros i t Hi.
  assert (length (pool s) = length tasks) as Hlen.
  { pose proof (reachable_results llm tasks 0 s Hreach) as Hres.
    apply (f_equal length) in Hres. by rewrite !length_fmap in Hres. }
  destruct (lookup_lt_is_Some_2 tasks i) as [task Htask].
  { rewrite <- Hlen. by eapply lookup_lt_Some. }
  destruct (blocked_forever llm tasks s i task Hg Hreach Htask) as (t' & Ht' & Hf).
  - by eapply (Forall_lookup_1 _ _ _ _ Hacq).
  - congruence.
Qed.

End no_permit.

(** X17 ([add_categories_async], [add_comments_async]): a limit of zero
    concurrent requests blocks a batch for ever.  Every categorisation
    task waits for the semaphore, so with no permit no task of a non-empty
    batch ever returns, in any interleaving, and the dispatcher does not
    return; the comment dispatcher, on a comment column of the [object]
    dtype, does not return as soon as one row is a THUMBS_DOWN row with a
    NaN or blank comment. *)
Theorem zero_permits_block (self : FeedbackAnalyzer) (llm : Capability)
    (mc : option nat) (df : DataFrame) :
  resolve self mc = 0 →
  data df ≠ [] →
  add_categories_async self llm df mc = Hang
  ∧ (∀ s, rtc (step llm) (init 0 (category_tasks df)) s →
          Forall (λ t, finished t = false) (pool s))
  ∧ ("feedback_comment" ∈ columns df →
     comment_dtype df = object →
     (∃ p, p ∈ data df
           ∧ feedback_rating p.2 = "THUMBS_DOWN"
           ∧ is_blank (feedback_comment p.2) = true) →
     add_comments_async self llm df mc = Hang).
Proof.
  intros Hk Hne. split; [| split].
  - unfold add_categories_async. rewrite Hk.
    destruct (data df) as [|p d] eqn:Hd; [done |].
    rewrite (gather_hangs llm _ (p.1, process_single_category p.1 p.2)); [done | |].
    + unfold category_tasks, iterrows. rewrite Hd. left.
    + done.
  - intros s. apply all_blocked.
    + apply Forall_fmap, Forall_forall. intros p _.
      apply process_single_category_gated.
    + apply Forall_fmap, Forall_forall. by intros p _.
  - intros Hcol Hobj (p & Hp & Hr & Hb). unfold add_comments_async, has_column.
    rewrite bool_decide_eq_true_2 by done. rewrite Hk.
    rewrite identify_thumbs_down_empty_feedback_ok
      by (done || by apply bool_decide_eq_true_2).
    cbn [mbind Outcome_bind].
    rewrite empty_false.
    2:{ cbn [data].
        intros He. eapply (filter_nil_not_elem_of _ _ p He); [| done]. by split. }
    rewrite (gather_hangs llm _
               (p.1, process_single_comment true p.1 p.2)); [done | |].
    + unfold comment_tasks, iterrows, has_column.
      rewrite bool_decide_eq_true_2 by done.
      by apply (list_elem_of_fmap_2
                  (λ q : nat * Row, (q.1, process_single_comment true q.1 q.2))).
    + unfold process_single_comment, comment_of. cbn [fst snd].
      rewrite bool_decide_eq_true_2 by done. by rewrite Hb.
Qed.

Lemma zero_permits_block_witness :
  add_categories_async (mkAnalyzer 0) SampleBatch.llm SampleBatch.uncommented None
  = Hang
  ∧ add_comments_async (mkAnalyzer 0) SampleBatch.llm SampleBatch.uncommented None
    = Hang.
Proof.
  destruct (zero_permits_block (mkAnalyzer 0) SampleBatch.llm None
              SampleBatch.uncommented eq_refl) as (Hcat & _ & Hcom);
    [discriminate |].
  split; [exact Hcat |]. apply Hcom; [apply list_elem_of_here | reflexivity |].
  exists (0, row_rated "t1" "q1" "a1" "THUMBS_DOWN" None).
  split; [apply list_elem_of_here |]. by split.
Defined.

(** X18 ([add_scenario_mapping]): the tag of a row against the set of
    reference questions that was loaded, when that set is not empty.  The
    row is tagged A or B, replacing any tag it carried; it is tagged A
    exactly when its question, lower-cased and stripped, is a text of the
    set.  A NaN of the set matches no question. *)
Theorem scenario_tag_characterised (st : Store) (df : DataFrame)
    (mapped_questions : gset Cell) (p : nat * Row) :
  load_mapped_questions st = mapped_questions →
  mapped_questions ≠ ∅ →
  NoDup (data df).*1 →
  p ∈ data df →
  ∃ q, filter (λ x : nat * Row, x.1 = p.1) (data (add_scenario_mapping st df))
       = [(p.1, q)]
       ∧ (scenario q = Some "A" ∨ scenario q = Some "B")
       ∧ (scenario q = Some "A"
          ↔ Some (PyStr.strip (PyStr.lower (user_question p.2)))
            ∈ mapped_questions).
Proof.
  intros <- Hset Hnd Hp.
  rewrite (add_scenario_mapping_rows st df Hnd Hset). cbn [data].
  eexists. split; [by apply (filter_label_map _ (data df) p) |].
  cbn [snd]. change (scenario (set_cell "scenario" ?v _)) with v.
  unfold scenario_tag.
  destruct (decide (_ ∈ load_mapped_questions st)) as [Hin | Hnin].
  - split; [by left |]. done.
  - split; [by right |]. split; [done |]. intros Hin. by destruct Hnin.
Qed.

Lemma scenario_tag_characterised_witness :
  ∃ q, filter (λ x : nat * Row, x.1 = 2)
         (data (add_scenario_mapping SampleScenario.store SampleBase.current_dataset))
       = [(2, q)]
       ∧ scenario q = Some "A".
Proof.
  destruct (scenario_tag_characterised SampleScenario.store
              SampleBase.current_dataset {[ Some "what is fps" ]}
              (2, row_rated "t3" "what is fps" "a3" "THUMBS_DOWN" (Some "Too vague")))
    as (q & Hrow & _ & Htag).
  - vm_compute. reflexivity.
  - intros He. apply (f_equal (λ S : gset Cell, bool_decide (S = ∅))) in He.
    vm_compute in He. discriminate He.
  - apply (bool_decide_unpack _). vm_compute. reflexivity.
  - do 2 apply list_elem_of_further. apply list_elem_of_here.
  - exists q. split; [exact Hrow |]. apply Htag.
    apply elem_of_singleton. reflexivity.
Defined.

(** X19 ([load_mapped_questions], [add_scenario_mapping]): without a
    usable reference list nothing is looked up.  When the reference file
    is missing, cannot be read, or holds no row, a frame without a
    scenario column comes back with every row tagged B, and a frame that
    has the column comes back as it is, whatever tags it holds. *)
Theorem scenario_without_reference (st : Store) (df : DataFrame) :
  mapped_questions_file st = Absent
  ∨ (∃ persisted, mapped_questions_file st = Unreadable persisted)
  ∨ mapped_questions_file st = Present [] →
  load_mapped_questions st = ∅
  ∧ ("scenario" ∈ columns df → add_scenario_mapping st df = df)
  ∧ ("scenario" ∉ columns df →
     add_scenario_mapping st df
     = mkFrame (columns df ++ ["scenario"])
         (prod_map id (set_cell "scenario" (Some "B")) <$> data df)
         (comment_dtype df)).
Proof.
  intros Hf.
  assert (load_mapped_questions st = ∅) as Hset.
  { unfold load_mapped_questions.
    destruct Hf as [-> | [[t ->] | ->]]; done. }
  split; [exact Hset |].
  unfold add_scenario_mapping, assign_scalar, has_column.
  rewrite decide_True by done. split; intros Hcol.
  - by rewrite bool_decide_eq_true_2.
  - by rewrite !bool_decide_eq_false_2.
Qed.

Lemma scenario_without_reference_witness :
  let st := mkStore (Present SampleBase.base) Absent Absent Absent Absent
              (Unreadable [Some "what is fps"]) Absent in
  scenario <$> rows (add_scenario_mapping st SampleBase.current_dataset)
  = [Some "B"; Some "B"; Some "B"].
Proof.
  intros st.
  destruct (scenario_without_reference st SampleBase.current_dataset)
    as (_ & _ & Hnew).
  - right. left. by eexists.
  - rewrite Hnew; [reflexivity |].
    apply (bool_decide_unpack _). vm_compute. reflexivity.
Defined.

Section default_limit.
Context (llm : Capability).
Implicit Types (df : DataFrame) (st : Store).

Lemma gather_returns {A} (k : nat) (tasks : list (nat * Coro A)) :
  0 < k → gather k llm tasks ≠ Hang.
Proof. intros Hk. by rewrite gather_ok. Qed.

Lemma add_feedback_comment_categories_async_returns self df k :
  0 < k →
  ∃ r, add_feedback_comment_categories_async self llm df (Some k) = Ok r.
Proof.
  intros Hk. unfold add_feedback_comment_categories_async. cbn [resolve].
  rewrite gather_ok by done. by eexists.
Qed.

End default_limit.

(** X20 ([process_feedback_comment_categories_only],
    [add_feedback_comment_categories_async]): the configured limit plays
    no part in the step of the comment categories.  Its dispatcher is
    called without the limit and its parameter defaults to 20, not to
    [None], so the step does the same under every configured limit, and
    it never blocks: with a limit of zero, under which a categorisation
    batch never returns, this step still returns or raises. *)
Theorem comment_categories_ignore_limit (self self' : FeedbackAnalyzer)
    (llm : Capability) (st : Store) :
  process_feedback_comment_categories_only self llm st
  = process_feedback_comment_categories_only self' llm st
  ∧ process_feedback_comment_categories_only self llm st ≠ Hang.
Proof.
  split; [reflexivity |].
  unfold process_feedback_comment_categories_only.
  destruct (comments_output_file st) as [| t | t];
    cbn [path_exists read_csv mbind Outcome_bind]; [discriminate.. |].
  destruct (empty _).
  - destruct (comment_categories_output_file st) as [| t' | t'];
      cbn [path_exists read_csv mbind Outcome_bind]; discriminate.
  - match goal with
    | |- context [add_feedback_comment_categories_async self llm ?u (Some 20)] =>
        destruct (add_feedback_comment_categories_async_returns llm self u 20)
          as [r ->]; [lia | discriminate]
    end.
Qed.

Section first_run.
Context (self : FeedbackAnalyzer) (llm : Capability).
Implicit Types (df new final : DataFrame) (st : Store) (o : OutputFile).

Lemma base_step_first_run o enrich st base :
  keeps_records enrich →
  (∀ u, NoDup (data u).*1 → columns u = header base →
        comment_dtype u = read_dtype base → ∃ new, enrich u = Ok new) →
  (∀ t, output o st ≠ Present t) →
  data_file st = Present base →
  records base ≠ [] →
  ∃ final,
    base_step o enrich st = Ok (final, save_results final o st)
    ∧ (data final).*1 = seq 0 (length (records base))
    ∧ create_record_key <$> rows final = create_record_key <$> records base.
Proof.
  intros Hkeeps Hok Hout Hbase Hne. unfold base_step.
  rewrite (load_feedback_data_present st base Hbase). cbn [mbind Outcome_bind].
  set (df := mkFrame _ _ _).
  assert (NoDup (data df).*1) as Hnd by apply range_index_NoDup.
  assert (empty df = false) as Hdf.
  { apply empty_false. unfold df. cbn [data].
    intros He%range_index_nil_inv. apply fmap_nil_inv in He. done. }
  rewrite Hdf. unfold incremental_core.
  assert (get_processed_records (output o st) = ∅) as Hnone.
  { destruct (output o st) as [| t | t] eqn:Ho; [done | done |].
    by destruct (Hout t). }
  rewrite (filter_unprocessed_no_keys df _ Hnone), Hdf.
  destruct (Hok df Hnd eq_refl eq_refl) as [new Hnew].
  rewrite Hnew. cbn [mbind Outcome_bind].
  assert (merge_with_existing_results new (output o st) = new) as ->.
  { destruct (output o st) as [| t | t] eqn:Ho; [done | done |].
    by destruct (Hout t). }
  exists new. split; [done |].
  destruct (Hkeeps df new Hnd Hnew) as [Hlabels Hkeys].
  split.
  - rewrite Hlabels. unfold df. cbn [data].
    by rewrite range_index_fst, length_fmap.
  - rewrite Hkeys. apply keys_of_read.
Qed.

Lemma enrich_comments_returns u :
  0 < max_concurrent self → NoDup (data u).*1 →
  ("feedback_comment" ∈ columns u → comment_dtype u = object) →
  ∃ new, enrich_comments self llm u = Ok new.
Proof.
  intros Hk Hnd Hobj. unfold enrich_comments.
  rewrite (add_comments_async_ok self llm u None Hnd Hk)
    by (by intros Hhas%bool_decide_eq_true; apply Hobj).
  by eexists.
Qed.

Lemma enrich_categories_returns u :
  0 < max_concurrent self → NoDup (data u).*1 →
  ∃ new, enrich_categories self llm u = Ok new.
Proof.
  intros Hk Hnd. unfold enrich_categories.
  rewrite (add_categories_async_ok self llm u None Hnd Hk). by eexists.
Qed.

End first_run.

(** X22 ([process_comments_only], [process_categories_only],
    [process_scenarios_only]): a first run writes the base records one
    for one.  When the step's output is missing or cannot be read and the
    base data holds records, the step enriches every base record and
    saves what it returns: one row per base record, in base order,
    relabelled 0, 1, 2, ..., with the identity of the base record.  No
    record is dropped, a record the base data holds twice included.  For
    the comments step the base data has no comment column or has it with
    the [object] dtype. *)
Theorem first_run_lists_base_records (self : FeedbackAnalyzer) (llm : Capability)
    (o : OutputFile) (st : Store) (base : Table) :
  o = CommentsOut ∨ o = CategoriesOut ∨ o = ScenariosOut →
  (∀ t, output o st ≠ Present t) →
  data_file st = Present base →
  records base ≠ [] →
  0 < max_concurrent self →
  (o = CommentsOut → "feedback_comment" ∈ header base →
   read_dtype base = object) →
  ∃ final,
    pipeline_step self llm o st = Ok (final, save_results final o st)
    ∧ (data final).*1 = seq 0 (length (records base))
    ∧ create_record_key <$> rows final = create_record_key <$> records base.
Proof.
  intros [-> | [-> | ->]] Hout Hbase Hne Hk Hobj; cbn [pipeline_step].
  - rewrite process_comments_only_core.
    apply (base_step_first_run CommentsOut); try done.
    + apply enrich_comments_keeps.
    + intros u Hnd Hcols Hdt. apply enrich_comments_returns; [done | done |].
      rewrite Hcols, Hdt. by apply Hobj.
  - rewrite process_categories_only_core.
    apply (base_step_first_run CategoriesOut); try done.
    + apply enrich_categories_keeps.
    + intros u Hnd _ _. by apply enrich_categories_returns.
  - rewrite process_scenarios_only_core.
    apply (base_step_first_run ScenariosOut); try done.
    + apply enrich_scenarios_keeps.
    + intros u _ _ _. by eexists.
Qed.

Lemma first_run_lists_base_records_witness :
  (∃ final,
     pipeline_step SampleBatch.self SampleBatch.llm ScenariosOut SampleScenario.store
     = Ok (final, save_results final ScenariosOut SampleScenario.store)
     ∧ (data final).*1 = [0; 1; 2]
     ∧ create_record_key <$> rows final
       = ["t1|What is FPS?|a1"; "t2|How do I open an account?|a2";
          "t3|what is fps|a3"])
  ∧ (∃ final,
       pipeline_step SampleBatch.self SampleBatch.llm CommentsOut SampleScenario.store
       = Ok (final, save_results final CommentsOut SampleScenario.store)
       ∧ (data final).*1 = [0; 1; 2]
       ∧ create_record_key <$> rows final
         = ["t1|What is FPS?|a1"; "t2|How do I open an account?|a2";
            "t3|what is fps|a3"]).
Proof.
  split.
  - apply (first_run_lists_base_records SampleBatch.self SampleBatch.llm
             ScenariosOut SampleScenario.store SampleBase.base).
    + right. by right.
    + discriminate.
    + reflexivity.
    + discriminate.
    + simpl. lia.
    + discriminate.
  - apply (first_run_lists_base_records SampleBatch.self SampleBatch.llm
             CommentsOut SampleScenario.store SampleBase.base).
    + by left.
    + discriminate.
    + reflexivity.
    + discriminate.
    + simpl. lia.
    + intros _ _. reflexivity.
Defined.

Section comment_category_rows.
Context (self : FeedbackAnalyzer) (llm : Capability).
Implicit Types (df : DataFrame) (p : nat * Row).

Lemma comment_category_answer_run p :
  comment_category_answer llm true p
  = if bool_decide (feedback_rating p.2 = "THUMBS_DOWN")
    then (run (llm p.1) (categorize_feedback_comment_async (feedback_comment p.2))).1
    else "".
Proof.
  unfold comment_category_answer, needs_comment_category,
    categorize_feedback_comment_async.
  case_bool_decide; cbn [andb]; [| done].
  destruct (feedback_comment p.2) as [text |]; [| done].
  rewrite is_blank_text. destruct (is_blank (Some text)); [done |].
  cbn [negb default run]. by destruct (llm p.1 _).
Qed.

Lemma blank_comment_not_categorised (client : Client) (c : Cell) :
  is_blank c = true →
  run client (categorize_feedback_comment_async c) = ("", []).
Proof.
  intros Hb. unfold categorize_feedback_comment_async.
  destruct c as [text |]; [| done]. by rewrite is_blank_text, Hb.
Qed.

End comment_category_rows.

(** X23 ([categorize_feedback_comment_async],
    [add_feedback_comment_categories_async]): a comment category is
    written only for a THUMBS_DOWN row and only from a non-empty answer.
    A NaN or blank comment is answered with the empty text without a
    call; an empty answer, a failed call and every other rating leave the
    row's comment category as it was, blank where the column is new. *)
Theorem comment_category_applied (self : FeedbackAnalyzer) (llm : Capability)
    (mc : option nat) (df : DataFrame) (p : nat * Row) :
  NoDup (data df).*1 →
  0 < resolve self mc →
  "feedback_comment" ∈ columns df →
  p ∈ data df →
  let answer :=
    run (llm p.1) (categorize_feedback_comment_async (feedback_comment p.2)) in
  (is_blank (feedback_comment p.2) = true → answer = ("", []))
  ∧ ∃ out log q,
      add_feedback_comment_categories_async self llm df mc = Ok (out, log)
      ∧ filter (λ x : nat * Row, x.1 = p.1) (data out) = [(p.1, q)]
      ∧ feedback_comment_category q
        = if bool_decide (feedback_rating p.2 = "THUMBS_DOWN")
             && negb (String.eqb answer.1 "")
          then Some answer.1
          else if has_column "feedback_comment_category" df
               then feedback_comment_category p.2 else Some "".
Proof.
  intros Hnd Hk Hcol Hp answer.
  split; [apply blank_comment_not_categorised |].
  rewrite (add_feedback_comment_categories_async_ok self llm df mc Hnd Hk).
  eexists _, _, _. split; [reflexivity |]. cbn zeta. cbn [data].
  rewrite (has_column_with_column "feedback_comment" "feedback_comment_category"
             (Some "") df) by (by apply bool_decide_eq_true_2).
  rewrite with_column_data, <- list_fmap_compose.
  split.
  - apply (filter_label_map
             (λ y : nat * Row,
                comment_category_effect llm true
                  (prod_map id (ensure_cell "feedback_comment_category" (Some "") df) y)
                  (prod_map id (ensure_cell "feedback_comment_category" (Some "") df) y).2)
             (data df) p Hnd Hp).
  - unfold comment_category_effect. rewrite comment_category_answer_run.
    destruct p as [l r]. cbn [prod_map fst snd id].
    assert (feedback_rating (ensure_cell "feedback_comment_category" (Some "") df r)
            = feedback_rating r) as ->
      by (unfold ensure_cell;
          by destruct (has_column "feedback_comment_category" df)).
    assert (feedback_comment (ensure_cell "feedback_comment_category" (Some "") df r)
            = feedback_comment r) as ->
      by (unfold ensure_cell;
          by destruct (has_column "feedback_comment_category" df)).
    unfold answer. cbn [fst snd].
    case_bool_decide; cbn [andb].
    + destruct (negb _); [done |]. unfold ensure_cell.
      by destruct (has_column "feedback_comment_category" df).
    + cbn. unfold ensure_cell.
      by destruct (has_column "feedback_comment_category" df).
Qed.

Lemma comment_category_applied_witness :
  let df := SampleBase.current_dataset in
  (∃ out log q,
     add_feedback_comment_categories_async SampleBatch.self SampleBatch.llm df None
     = Ok (out, log)
     ∧ filter (λ x : nat * Row, x.1 = 2) (data out) = [(2, q)]
     ∧ feedback_comment_category q = Some "Irrelevant Answer")
  ∧ (∃ out log q,
       add_feedback_comment_categories_async SampleBatch.self SampleBatch.llm df None
       = Ok (out, log)
       ∧ filter (λ x : nat * Row, x.1 = 0) (data out) = [(0, q)]
       ∧ feedback_comment_category q = Some "").
Proof.
  intros df. split.
  - destruct (comment_category_applied SampleBatch.self SampleBatch.llm None df
                (2, row_rated "t3" "what is fps" "a3" "THUMBS_DOWN" (Some "Too vague")))
      as (_ & out & log & q & Hrun & Hrow & Hq).
    + apply (bool_decide_unpack _). vm_compute. reflexivity.
    + simpl. lia.
    + apply list_elem_of_here.
    + do 2 apply list_elem_of_further. apply list_elem_of_here.
    + exists out, log, q. split; [exact Hrun |]. split; [exact Hrow | exact Hq].
  - destruct (comment_category_applied SampleBatch.self SampleBatch.llm None df
                (0, row_rated "t1" "What is FPS?" "a1" "THUMBS_DOWN" None))
      as (_ & out & log & q & Hrun & Hrow & Hq).
    + apply (bool_decide_unpack _). vm_compute. reflexivity.
    + simpl. lia.
    + apply list_elem_of_here.
    + apply list_elem_of_here.
    + exists out, log, q. split; [exact Hrun |]. split; [exact Hrow | exact Hq].
Defined.

Section report.
Context (self : FeedbackAnalyzer) (llm : Capability).
Implicit Types (df out analyzed : DataFrame) (st : Store) (f : FileState Table).

Lemma infer_dtype_blank (cells : list Cell) :
  cells ≠ [] → (∀ c, c ∈ cells → reads_as_text c = false) →
  infer_dtype cells = float64.
Proof.
  intros Hne Hall. unfold infer_dtype. destruct cells as [|c l]; [done |].
  assert (existsb reads_as_text (c :: l) = false) as ->; [| done].
  apply not_true_is_false. intros (x & Hx & Ht)%existsb_exists.
  rewrite Hall in Ht; [done |]. by apply list_elem_of_In.
Qed.

(** A full analysis of base records that returns has reported on the
    comment column as the comments output, which its first step left,
    reads. *)
Lemma full_analysis_comments_file st st' analyzed base_df :
  run_full_analysis self llm st = Ok (analyzed, st') →
  load_feedback_data st = Ok base_df →
  empty base_df = false →
  ∃ d1 s1 t,
    process_comments_only self llm st = Ok (d1, s1)
    ∧ comments_output_file s1 = Present t
    ∧ comments_output_file st' = Present t
    ∧ comment_dtype analyzed = read_dtype t
    ∧ generate_summary_report analyzed = Ok tt.
Proof.
  unfold run_full_analysis. intros Hrun Hload Hdf.
  destruct (process_comments_only self llm st) as [[d1 s1] | |] eqn:H1;
    [| done | done].
  cbn [mbind Outcome_bind fst snd] in Hrun.
  rewrite process_comments_only_core in H1.
  destruct (base_step_settles _ _ _ _ _ (enrich_comments_keeps self llm) H1)
    as (df & Hload' & Hcov1 & Ht1 & Hemp1 & _).
  rewrite Hload in Hload'. injection Hload' as <-.
  rewrite Hemp1, Hdf in Hrun.
  destruct (process_categories_only self llm s1) as [[f2 s2] | |] eqn:H2;
    [| done | done].
  cbn [mbind Outcome_bind fst snd] in Hrun.
  destruct (process_feedback_comment_categories_only self llm s2)
    as [[f3 s3] | |] eqn:H3; [| done | done].
  cbn [mbind Outcome_bind fst snd] in Hrun.
  destruct (process_scenarios_only s3) as [[f4 s4] | |] eqn:H4;
    [| done | done].
  cbn [mbind Outcome_bind fst snd] in Hrun.
  apply report_through in Hrun as [Hrun Hreport].
  pose proof (writes_touches _ _ _ _
                (pipeline_step_writes self llm CategoriesOut s1 f2 s2 H2)) as Ht2.
  pose proof (writes_touches _ _ _ _
                (pipeline_step_writes self llm CommentCategoriesOut s2 f3 s3 H3))
    as Ht3.
  pose proof (writes_touches _ _ _ _
                (pipeline_step_writes self llm ScenariosOut s3 f4 s4 H4)) as Ht4.
  pose proof (merge_files_touches _ _ _ Hrun) as Ht5.
  assert (load_feedback_data s4 = Ok base_df) as Hl4.
  { rewrite (touches_only_load _ _ _ Ht4), (touches_only_load _ _ _ Ht3),
      (touches_only_load _ _ _ Ht2), (touches_only_load _ _ _ Ht1). done. }
  assert (data base_df ≠ []) as Hne.
  { intros He%empty_spec. congruence. }
  destruct (covered_present base_df _ Hne Hcov1) as (t & Hfile & _).
  change (comments_output_file s1 = Present t) in Hfile.
  assert (comments_output_file s4 = Present t) as Hfile4.
  { change (output CommentsOut s4 = Present t).
    rewrite (touches_only_other _ CommentsOut _ _ Ht4) by done.
    rewrite (touches_only_other _ CommentsOut _ _ Ht3) by done.
    by rewrite (touches_only_other _ CommentsOut _ _ Ht2) by done. }
  assert (comments_output_file st' = Present t) as Hfile5.
  { change (output CommentsOut st' = Present t).
    by rewrite (touches_only_other _ CommentsOut _ _ Ht5) by done. }
  exists d1, s1, t.
  split; [done |]. split; [done |]. split; [done |]. split; [| done].
  rewrite merge_files_consolidated, Hl4 in Hrun.
  cbn [mbind Outcome_bind] in Hrun. rewrite Hdf in Hrun.
  destruct (consolidated_closed s4 base_df) as (cols & Hc). rewrite Hc in Hrun.
  destruct (all_usable s4); [| done]. cbn [mbind Outcome_bind] in Hrun.
  injection Hrun as <- _. cbn [comment_dtype]. by rewrite Hfile4.
Qed.

(** The first comments step on base data without a comment column: the
    column is created blank and saved blank. *)
Lemma process_comments_only_no_column st base :
  data_file st = Present base →
  records base ≠ [] →
  (∀ t, comments_output_file st ≠ Present t) →
  "feedback_comment" ∉ header base →
  ∃ new,
    process_comments_only self llm st
    = Ok (new, save_results new CommentsOut st)
    ∧ infer_dtype (feedback_comment <$> (data new).*2) = float64.
Proof.
  intros Hbase Hne Hout Hcol.
  rewrite process_comments_only_core. unfold base_step.
  rewrite (load_feedback_data_present st base Hbase). cbn [mbind Outcome_bind].
  set (df := mkFrame _ _ _).
  assert (empty df = false) as Hdf.
  { apply empty_false. unfold df. cbn [data].
    intros He%range_index_nil_inv. apply fmap_nil_inv in He. done. }
  rewrite Hdf. unfold incremental_core. cbn [output].
  assert (get_processed_records (comments_output_file st) = ∅) as Hnone.
  { destruct (comments_output_file st) as [| t | t] eqn:Ho; [done | done |].
    by destruct (Hout t). }
  rewrite (filter_unprocessed_no_keys df _ Hnone), Hdf.
  unfold enrich_comments.
  rewrite add_comments_async_no_column by (by apply bool_decide_eq_false_2).
  cbn [mbind Outcome_bind fst].
  assert (merge_with_existing_results
            (assign_scalar "feedback_comment" (Some "") df)
            (comments_output_file st)
          = assign_scalar "feedback_comment" (Some "") df) as ->.
  { destruct (comments_output_file st) as [| t | t] eqn:Ho; [done | done |].
    by destruct (Hout t). }
  eexists. split; [done |].
  apply infer_dtype_blank.
  - unfold assign_scalar. cbn [data]. intros He.
    do 3 apply fmap_nil_inv in He. apply empty_spec in He. congruence.
  - intros c Hc. apply list_elem_of_fmap in Hc as (r & -> & Hr).
    apply list_elem_of_fmap in Hr as ([i r0] & -> & Hr).
    unfold assign_scalar in Hr. cbn [data] in Hr.
    apply list_elem_of_fmap in Hr as ([i' r'] & [= -> ->] & _).
    done.
Qed.

End report.

(** X24 ([run_full_analysis], [generate_summary_report], [merge_files],
    [add_comments_async]): a full analysis of base records needs comment
    text.  The report that ends it applies [.str] to the comment column,
    which [merge_files] has copied from the comments output; so whenever
    the analysis returns, the comments output reads with an [object]
    comment column and the analysed frame has that column.  A first
    analysis of base data without a comment column does not return: the
    column is created blank, saved blank, and read back as [float64].  A
    first analysis of base data whose comment column is [float64] raises in
    its first step. *)
Theorem full_analysis_needs_comment_text (self : FeedbackAnalyzer)
    (llm : Capability) (st : Store) (base : Table) :
  data_file st = Present base →
  records base ≠ [] →
  (∀ analyzed st',
     run_full_analysis self llm st = Ok (analyzed, st') →
     has_column "feedback_comment" analyzed = true
     ∧ comment_dtype analyzed = object
     ∧ ∃ t, comments_output_file st' = Present t ∧ read_dtype t = object)
  ∧ ((∀ t, comments_output_file st ≠ Present t) →
     "feedback_comment" ∉ header base →
     ∀ r, run_full_analysis self llm st ≠ Ok r)
  ∧ ((∀ t, comments_output_file st ≠ Present t) →
     "feedback_comment" ∈ header base →
     read_dtype base = float64 →
     run_full_analysis self llm st = Raise OtherException).
Proof.
  intros Hbase Hne.
  pose proof (load_feedback_data_present st base Hbase) as Hload.
  set (base_df := mkFrame _ _ _) in Hload.
  assert (empty base_df = false) as Hdf.
  { apply empty_false. unfold base_df. cbn [data].
    intros He%range_index_nil_inv. apply fmap_nil_inv in He. done. }
  split; [| split].
  - intros analyzed st' Hrun.
    destruct (full_analysis_comments_file self llm st st' analyzed base_df
                Hrun Hload Hdf) as (d1 & s1 & t & _ & _ & Hfile & Hdt & Hreport).
    apply generate_summary_report_Ok in Hreport as (_ & Hcol & Hobj).
    split; [done |]. split; [done |]. exists t. split; [done |]. congruence.
  - intros Hout Hcol [analyzed st'] Hrun.
    destruct (full_analysis_comments_file self llm st st' analyzed base_df
                Hrun Hload Hdf) as (d1 & s1 & t & H1 & Hfile & _ & Hdt & Hreport).
    apply generate_summary_report_Ok in Hreport as (_ & _ & Hobj).
    destruct (process_comments_only_no_column self llm st base Hbase Hne Hout Hcol)
      as (new & H1' & Hfloat).
    rewrite H1' in H1. injection H1 as <- <-.
    unfold save_results, to_csv in Hfile. cbn in Hfile. injection Hfile as <-.
    cbn [read_dtype] in Hdt. congruence.
  - intros Hout Hcol Hfloat. unfold run_full_analysis, process_comments_only.
    rewrite Hload. cbn [mbind Outcome_bind]. rewrite Hdf.
    assert (get_processed_records (comments_output_file st) = ∅) as Hnone.
    { destruct (comments_output_file st) as [| t | t] eqn:Ho; [done | done |].
      by destruct (Hout t). }
    rewrite (filter_unprocessed_no_keys base_df _ Hnone), Hdf.
    rewrite add_comments_async_raises; [done | by apply bool_decide_eq_true | done].
Qed.

Lemma full_analysis_needs_comment_text_witness :
  match run_full_analysis SampleBatch.self SampleBatch.llm SampleScenario.store with
  | Ok (analyzed, st') =>
      has_column "feedback_comment" analyzed = true
      ∧ comment_dtype analyzed = object
  | _ => False
  end
  ∧ (∀ r, run_full_analysis SampleBatch.self SampleBatch.llm
            SampleUnreadable.plain_store ≠ Ok r)
  ∧ run_full_analysis SampleBatch.self SampleBatch.llm
      SampleUnreadable.uncommented_store = Raise OtherException.
Proof.
  split; [| split].
  - destruct (run_full_analysis SampleBatch.self SampleBatch.llm
                SampleScenario.store) as [[analyzed st'] | e |] eqn:Hrun.
    + destruct (full_analysis_needs_comment_text SampleBatch.self SampleBatch.llm
                  SampleScenario.store SampleBase.base eq_refl)
        as (Hreturns & _ & _); [discriminate |].
      destruct (Hreturns analyzed st' Hrun) as (Hcol & Hobj & _). by split.
    + vm_compute in Hrun. discriminate Hrun.
    + vm_compute in Hrun. discriminate Hrun.
  - destruct (full_analysis_needs_comment_text SampleBatch.self SampleBatch.llm
                SampleUnreadable.plain_store SampleUnreadable.plain_base eq_refl)
      as (_ & Hplain & _); [discriminate |].
    apply Hplain; [discriminate | apply not_elem_of_nil].
  - destruct (full_analysis_needs_comment_text SampleBatch.self SampleBatch.llm
                SampleUnreadable.uncommented_store SampleBase.prior_output eq_refl)
      as (_ & _ & Hfloat); [discriminate |].
    apply Hfloat; [discriminate | apply list_elem_of_here | reflexivity].
Defined.

(** X25 ([main], [merge_files], [generate_summary_report]): the menu
    without base records.  When the base data file is missing or holds no
    record, the choices 1, 2, 4 and 6 end with every file as it was; the
    choice 5 does not: [merge_files] returns the empty base frame, and the
    summary report that [main] then asks for raises on it.  A line that
    is none of the six choices runs nothing, on every store. *)
Theorem main_without_base_records (self : FeedbackAnalyzer) (llm : Capability)
    (st : Store) (base_df : DataFrame) (line : string) :
  load_feedback_data st = Ok base_df →
  empty base_df = true →
  (PyStr.strip line ∈ ["1"; "2"; "4"; "6"] → main self llm line st = Ok st)
  ∧ (PyStr.strip line = "5" →
     merge_files st = Ok (base_df, st)
     ∧ main self llm line st = Raise OtherException)
  ∧ (PyStr.strip line ∉ ["1"; "2"; "3"; "4"; "5"; "6"] →
     ∀ st0, main self llm line st0 = Ok st0).
Proof.
  intros Hload He. unfold main. cbn zeta. split; [| split].
  - intros Hin. repeat (apply elem_of_cons in Hin as [-> | Hin]);
      [.. | by apply not_elem_of_nil in Hin]; cbn [String.eqb Ascii.eqb Bool.eqb].
    + rewrite process_comments_only_core, (base_step_empty _ _ st base_df Hload He).
      done.
    + rewrite process_categories_only_core, (base_step_empty _ _ st base_df Hload He).
      done.
    + rewrite process_scenarios_only_core, (base_step_empty _ _ st base_df Hload He).
      done.
    + by rewrite (run_full_analysis_empty self llm st base_df Hload He).
  - intros ->. cbn [String.eqb Ascii.eqb Bool.eqb].
    rewrite (merge_files_empty st base_df Hload He). split; [done |].
    cbn [mbind Outcome_bind fst snd]. unfold generate_summary_report.
    by rewrite He.
  - intros Hnot st0.
    repeat (apply not_elem_of_cons in Hnot as [? Hnot]).
    destruct (String.eqb_spec (PyStr.strip line) "1"); [done |].
    destruct (String.eqb_spec (PyStr.strip line) "2"); [done |].
    destruct (String.eqb_spec (PyStr.strip line) "3"); [done |].
    destruct (String.eqb_spec (PyStr.strip line) "4"); [done |].
    destruct (String.eqb_spec (PyStr.strip line) "5"); [done |].
    by destruct (String.eqb_spec (PyStr.strip line) "6").
Qed.

Lemma main_without_base_records_witness :
  let st := mkStore Absent Absent (Present SampleStore.categorised) Absent Absent
              Absent Absent in
  main SampleBatch.self SampleBatch.llm " 2 " st = Ok st
  ∧ merge_files st = Ok (empty_frame, st)
  ∧ main SampleBatch.self SampleBatch.llm "5" st = Raise OtherException
  ∧ main SampleBatch.self SampleBatch.llm "merge" SampleStore.store
    = Ok SampleStore.store.
Proof.
  intros st.
  destruct (main_without_base_records SampleBatch.self SampleBatch.llm st
              empty_frame " 2 " eq_refl eq_refl) as (Hsteps & _ & _).
  destruct (main_without_base_records SampleBatch.self SampleBatch.llm st
              empty_frame "5" eq_refl eq_refl) as (_ & Hmerge & _).
  destruct (main_without_base_records SampleBatch.self SampleBatch.llm st
              empty_frame "merge" eq_refl eq_refl) as (_ & _ & Hother).
  split; [apply Hsteps; apply (bool_decide_unpack _); vm_compute; reflexivity |].
  destruct (Hmerge eq_refl) as [Hm Hr]. split; [exact Hm |]. split; [exact Hr |].
  apply Hother. apply (bool_decide_unpack _). vm_compute. reflexivity.
Defined.
